(** * Marketing agent: workflow coordinator, session store and stage parsers

  A shallow embedding of the Python sources under
  [server/marketing_agent]:

  - [core/models.py]: the enumerations and the pydantic records;
  - [core/memory.py]: [SharedMemory], the JSON-file backed session store;
  - [agents/brand_strategist.py], [agents/creative_engine.py],
    [agents/campaign_manager.py]: the three stage agents;
  - [core/coordinator.py]: [AgentCoordinator], the retry wrapper, the
    KPI predicate and [execute_workflow].

  Python objects that are mutated in place (the store, the clock, the
  local [WorkflowResult]) are threaded explicitly through a state and
  exception monad.  Everything the program cannot decide by itself (the
  replies of the text-completion service, [uuid.uuid4], the duration of
  a call, the random jitter of the simulator) is read from an
  environment [env] of oracles, one outcome per interaction. *)

From Stdlib Require Import ZArith QArith Lia.
From stdpp Require Import base option list strings gmap fin_maps pretty.

Local Open Scope string_scope.
Local Open Scope list_scope.
Set Warnings "-register-all".

(** ** Python runtime: values, exceptions, effects *)

Module Py.

(** Plain data as [json] and [model_dump] see it.  [VDatetime] is a
    [datetime] object (microseconds of wall clock): it survives
    [model_dump] and is turned into text by [json.dump(default=str)].
    Members of the [str]-based enumerations are their [VStr] value. *)
Inductive value : Type :=
  | VNone
  | VBool (b : bool)
  | VInt (n : Z)
  | VFloat (x : Q)
  | VStr (s : string)
  | VList (xs : list value)
  | VDict (kvs : list (string * value))
  | VDatetime (t : N).

(** What [SharedMemory.save] may receive: plain data, a pydantic model
    (it has [model_dump]; its fields are given already dumped, since
    [model_dump] is recursive), or an object that only has [dict]. *)
Inductive pyobj : Type :=
  | Plain (v : value)
  | Model (fields : list (string * value))
  | LegacyModel (fields : list (string * value)).

(** An exception: its class name and [str(e)]. *)
Record exn : Type := Exn { exn_class : string; exn_str : string }.

Inductive outcome (A : Type) : Type :=
  | Ok (a : A)
  | Raise (e : exn).
Global Arguments Ok {A} a.
Global Arguments Raise {A} e.

(** State and exception monad: a computation reads and updates a state
    of type [S] and either returns or raises. *)
Definition M (S A : Type) : Type := S → outcome A * S.

Definition ret {S A} (a : A) : M S A := fun s => (Ok a, s).
Definition raise {S A} (e : exn) : M S A := fun s => (Raise e, s).
Definition bind {S A B} (m : M S A) (k : A → M S B) : M S B :=
  fun s => match m s with
           | (Ok a, s') => k a s'
           | (Raise e, s') => (Raise e, s')
           end.
Definition modify {S} (f : S → S) : M S unit := fun s => (Ok tt, f s).
Definition gets {S A} (f : S → A) : M S A := fun s => (Ok (f s), s).

(** [dict.get(key, default)] on the items of a dictionary. *)
Fixpoint dict_get (kvs : list (string * value)) (key : string) : option value :=
  match kvs with
  | [] => None
  | (k, v) :: rest => if String.eqb k key then Some v else dict_get rest key
  end.

(** Text of a clock reading; the calendar layout is not modelled, only
    that equal readings print alike. *)
Definition isoformat (t : N) : string := "T" +:+ pretty t.
Definition str_datetime (t : N) : string := "D" +:+ pretty t.

(** [json.load(json.dump(v, default=str))]: JSON-native data comes back
    as it went in, a [datetime] comes back as its [str]. *)
Fixpoint json_roundtrip (v : value) : value :=
  match v with
  | VList xs => VList (map json_roundtrip xs)
  | VDict kvs => VDict (map (fun kv => (kv.1, json_roundtrip kv.2)) kvs)
  | VDatetime t => VStr (str_datetime t)
  | _ => v
  end.

(** A value that [json] writes without calling [default]. *)
Fixpoint json_native (v : value) : bool :=
  match v with
  | VList xs => forallb json_native xs
  | VDict kvs => forallb (fun kv => json_native kv.2) kvs
  | VDatetime _ => false
  | _ => true
  end.

End Py.

Export Py.

Notation "'let*' x ':=' m 'in' k" := (bind m (fun x => k))
(at level 10, x name, m at level 100, k at level 200, only parsing).
Notation "'let*' ' p ':=' m 'in' k" := (bind m (fun x => match x with p => k end))
(at level 10, p pattern, m at level 100, k at level 200, only parsing).
Notation "'do*' m 'in' k" := (bind m (fun _ => k))
(at level 10, m at level 100, k at level 200, only parsing).

(** ** [core/models.py] *)

Module Models.

Inductive ToneOfVoice : Type :=
  PROFESSIONAL | FRIENDLY | INNOVATIVE | AUTHORITATIVE | PLAYFUL | EMPATHETIC.

Inductive Platform : Type :=
  LINKEDIN | GOOGLE_ADS | FACEBOOK | INSTAGRAM | EMAIL | TWITTER.

Inductive ContentType : Type :=
  POST | AD_COPY | EMAIL_CAMPAIGN | ARTICLE | VIDEO_SCRIPT.

Inductive WorkflowState : Type :=
  | PENDING | ANALYZING_BRAND | GENERATING_CONTENT | PLANNING_CAMPAIGN
  | EXECUTING_CAMPAIGN | COMPLETED | FAILED.

Global Instance ToneOfVoice_eq_dec : EqDecision ToneOfVoice.
Proof. solve_decision. Defined.
Global Instance Platform_eq_dec : EqDecision Platform.
Proof. solve_decision. Defined.
Global Instance ContentType_eq_dec : EqDecision ContentType.
Proof. solve_decision. Defined.
Global Instance WorkflowState_eq_dec : EqDecision WorkflowState.
Proof. solve_decision. Defined.

(** The [.value] of each member. *)
Definition tone_value (t : ToneOfVoice) : string :=
  match t with
  | PROFESSIONAL => "professional" | FRIENDLY => "friendly"
  | INNOVATIVE => "innovative" | AUTHORITATIVE => "authoritative"
  | PLAYFUL => "playful" | EMPATHETIC => "empathetic"
  end.

Definition platform_value (p : Platform) : string :=
  match p with
  | LINKEDIN => "linkedin" | GOOGLE_ADS => "google_ads" | FACEBOOK => "facebook"
  | INSTAGRAM => "instagram" | EMAIL => "email" | TWITTER => "twitter"
  end.

Definition content_type_value (c : ContentType) : string :=
  match c with
  | POST => "post" | AD_COPY => "ad_copy" | EMAIL_CAMPAIGN => "email_campaign"
  | ARTICLE => "article" | VIDEO_SCRIPT => "video_script"
  end.

Definition state_value (s : WorkflowState) : string :=
  match s with
  | PENDING => "pending" | ANALYZING_BRAND => "analyzing_brand"
  | GENERATING_CONTENT => "generating_content"
  | PLANNING_CAMPAIGN => "planning_campaign"
  | EXECUTING_CAMPAIGN => "executing_campaign"
  | COMPLETED => "completed" | FAILED => "failed"
  end.

(** Lookup of a member by value, [ToneOfVoice(t)] and [Platform(c)]:
    [None] stands for the [ValueError] of the enumeration.  A value
    that is not a string is no member's value. *)
Definition all_tones : list ToneOfVoice :=
  [PROFESSIONAL; FRIENDLY; INNOVATIVE; AUTHORITATIVE; PLAYFUL; EMPATHETIC].
Definition all_platforms : list Platform :=
  [LINKEDIN; GOOGLE_ADS; FACEBOOK; INSTAGRAM; EMAIL; TWITTER].

Definition ToneOfVoice_of (v : value) : option ToneOfVoice :=
  match v with
  | VStr s => List.find (fun t => String.eqb (tone_value t) s) all_tones
  | _ => None
  end.

Definition Platform_of (v : value) : option Platform :=
  match v with
  | VStr s => List.find (fun p => String.eqb (platform_value p) s) all_platforms
  | _ => None
  end.

(** Records.  A field [f] of class [C] is named with a short prefix
    for [C], since projections share one name space:
    [ta_] TargetAudience, [bp_] BrandProfile, [swot_] SWOTAnalysis,
    [ps_] PositioningStrategy, [ba_] BrandAnalysisResult,
    [va_] VisualAsset, [ca_] ContentAsset,
    [cg_] ContentGenerationResult, [al_] BudgetAllocation,
    [cs_] ChannelStrategy, [io_] InfluencerOutreach, [cp_] CampaignPlan,
    [pm_] PerformanceMetrics, [of_] OptimizationFeedback,
    [cr_] CampaignResult, [wi_] WorkflowInput, [wr_] WorkflowResult.
    [float] fields are rationals, [int] fields integers, [datetime]
    fields clock readings. *)

Record TargetAudience : Type := {
  ta_demographics : list (string * value);
  ta_psychographics : list (string * value);
  ta_pain_points : list string;
  ta_goals : list string }.

Record BrandProfile : Type := {
  bp_brand_name : string;
  bp_industry : string;
  bp_website_url : option string;
  bp_tone_of_voice : list ToneOfVoice;
  bp_value_proposition : string;
  bp_key_messages : list string;
  bp_target_audience : TargetAudience;
  bp_brand_keywords : list string;
  bp_competitors : list string }.

Record SWOTAnalysis : Type := {
  swot_strengths : list string;
  swot_weaknesses : list string;
  swot_opportunities : list string;
  swot_threats : list string }.

Record PositioningStrategy : Type := {
  ps_key_messages : list string;
  ps_differentiation_points : list string;
  ps_recommended_channels : list Platform;
  ps_content_themes : list string }.

Record BrandAnalysisResult : Type := {
  ba_brand_profile : BrandProfile;
  ba_swot_analysis : SWOTAnalysis;
  ba_positioning_strategy : PositioningStrategy;
  ba_created_at : N;
  ba_analysis_id : string }.

Record VisualAsset : Type := {
  va_asset_id : string;
  va_prompt : string;
  va_generated_url : option string;
  va_local_path : option string;
  va_style : string }.

Record ContentAsset : Type := {
  ca_content_id : string;
  ca_platform : Platform;
  ca_content_type : ContentType;
  ca_content : string;
  ca_headline : option string;
  ca_subject_line : option string;
  ca_cta : option string;
  ca_hashtags : list string;
  ca_keywords : list string;
  ca_visual_prompt : option string;
  ca_tone : ToneOfVoice;
  ca_estimated_engagement_score : option Q }.

Record ContentGenerationResult : Type := {
  cg_content_assets : list ContentAsset;
  cg_visual_assets : list VisualAsset;
  cg_generation_metadata : list (string * value);
  cg_created_at : N }.

Record BudgetAllocation : Type := {
  al_channel : Platform;
  al_allocated_budget : Q;
  al_estimated_reach : Z;
  al_estimated_cpm : Q;
  al_estimated_cpc : Q }.

Record ChannelStrategy : Type := {
  cs_channel : Platform;
  cs_content_id : string;
  cs_target_audience : TargetAudience;
  cs_budget_allocation : BudgetAllocation;
  cs_schedule : option (list (string * value)) }.

Record InfluencerOutreach : Type := {
  io_influencer_name : string;
  io_platform : Platform;
  io_follower_count : Z;
  io_engagement_rate : Q;
  io_outreach_message : string;
  io_estimated_reach : Z;
  io_cost : Q }.

Record CampaignPlan : Type := {
  cp_campaign_id : string;
  cp_campaign_name : string;
  cp_total_budget : Q;
  cp_budget_allocations : list BudgetAllocation;
  cp_channel_strategies : list ChannelStrategy;
  cp_influencer_outreach : list InfluencerOutreach;
  cp_start_date : option N;
  cp_end_date : option N;
  cp_target_kpis : gmap string Q }.

Record PerformanceMetrics : Type := {
  pm_impressions : Z;
  pm_clicks : Z;
  pm_ctr : Q;
  pm_conversions : Z;
  pm_conversion_rate : Q;
  pm_total_cost : Q;
  pm_revenue : Q;
  pm_roi : Q;
  pm_cost_per_acquisition : Q;
  pm_engagement_score : Q }.

Record OptimizationFeedback : Type := {
  of_insights : list string;
  of_recommendations : list string;
  of_suggested_budget_reallocation : option (list (Platform * Q));
  of_suggested_content_adjustments : list string }.

Record CampaignResult : Type := {
  cr_campaign_plan : CampaignPlan;
  cr_performance_metrics : PerformanceMetrics;
  cr_optimization_feedback : OptimizationFeedback;
  cr_executed_at : N }.

Record WorkflowInput : Type := {
  wi_website_url : option string;
  wi_brand_materials : list string;
  wi_campaign_brief : string;
  wi_budget : Q;
  wi_target_platforms : list Platform;
  wi_target_kpis : gmap string Q }.

Record WorkflowResult : Type := {
  wr_workflow_id : string;
  wr_state : WorkflowState;
  wr_brand_analysis : option BrandAnalysisResult;
  wr_content_generation : option ContentGenerationResult;
  wr_campaign_result : option CampaignResult;
  wr_error_message : option string;
  wr_started_at : N;
  wr_completed_at : option N }.

End Models.

Export Models.

(** ** [model_dump] of the records *)

Module Dump.

Definition strs (l : list string) : value := VList (map VStr l).
Definition opt {A} (f : A → value) (o : option A) : value :=
  match o with Some a => f a | None => VNone end.
Definition floats (m : gmap string Q) : value :=
  VDict (map (fun kv => (kv.1, VFloat kv.2)) (map_to_list m)).

Definition TargetAudience_dump (a : TargetAudience) : value :=
  VDict [("demographics", VDict (ta_demographics a));
         ("psychographics", VDict (ta_psychographics a));
         ("pain_points", strs (ta_pain_points a));
         ("goals", strs (ta_goals a))].

Definition BrandProfile_dump (b : BrandProfile) : value :=
  VDict [("brand_name", VStr (bp_brand_name b));
         ("industry", VStr (bp_industry b));
         ("website_url", opt VStr (bp_website_url b));
         ("tone_of_voice", strs (map tone_value (bp_tone_of_voice b)));
         ("value_proposition", VStr (bp_value_proposition b));
         ("key_messages", strs (bp_key_messages b));
         ("target_audience", TargetAudience_dump (bp_target_audience b));
         ("brand_keywords", strs (bp_brand_keywords b));
         ("competitors", strs (bp_competitors b))].

Definition SWOTAnalysis_dump (s : SWOTAnalysis) : value :=
  VDict [("strengths", strs (swot_strengths s));
         ("weaknesses", strs (swot_weaknesses s));
         ("opportunities", strs (swot_opportunities s));
         ("threats", strs (swot_threats s))].

Definition PositioningStrategy_dump (p : PositioningStrategy) : value :=
  VDict [("key_messages", strs (ps_key_messages p));
         ("differentiation_points", strs (ps_differentiation_points p));
         ("recommended_channels", strs (map platform_value (ps_recommended_channels p)));
         ("content_themes", strs (ps_content_themes p))].

Definition BrandAnalysisResult_fields (r : BrandAnalysisResult) : list (string * value) :=
  [("brand_profile", BrandProfile_dump (ba_brand_profile r));
   ("swot_analysis", SWOTAnalysis_dump (ba_swot_analysis r));
   ("positioning_strategy", PositioningStrategy_dump (ba_positioning_strategy r));
   ("created_at", VDatetime (ba_created_at r));
   ("analysis_id", VStr (ba_analysis_id r))].

Definition VisualAsset_dump (a : VisualAsset) : value :=
  VDict [("asset_id", VStr (va_asset_id a));
         ("prompt", VStr (va_prompt a));
         ("generated_url", opt VStr (va_generated_url a));
         ("local_path", opt VStr (va_local_path a));
         ("style", VStr (va_style a))].

Definition ContentAsset_dump (a : ContentAsset) : value :=
  VDict [("content_id", VStr (ca_content_id a));
         ("platform", VStr (platform_value (ca_platform a)));
         ("content_type", VStr (content_type_value (ca_content_type a)));
         ("content", VStr (ca_content a));
         ("headline", opt VStr (ca_headline a));
         ("subject_line", opt VStr (ca_subject_line a));
         ("cta", opt VStr (ca_cta a));
         ("hashtags", strs (ca_hashtags a));
         ("keywords", strs (ca_keywords a));
         ("visual_prompt", opt VStr (ca_visual_prompt a));
         ("tone", VStr (tone_value (ca_tone a)));
         ("estimated_engagement_score", opt VFloat (ca_estimated_engagement_score a))].

Definition ContentGenerationResult_fields (r : ContentGenerationResult)
  : list (string * value) :=
  [("content_assets", VList (map ContentAsset_dump (cg_content_assets r)));
   ("visual_assets", VList (map VisualAsset_dump (cg_visual_assets r)));
   ("generation_metadata", VDict (cg_generation_metadata r));
   ("created_at", VDatetime (cg_created_at r))].

Definition BudgetAllocation_dump (a : BudgetAllocation) : value :=
  VDict [("channel", VStr (platform_value (al_channel a)));
         ("allocated_budget", VFloat (al_allocated_budget a));
         ("estimated_reach", VInt (al_estimated_reach a));
         ("estimated_cpm", VFloat (al_estimated_cpm a));
         ("estimated_cpc", VFloat (al_estimated_cpc a))].

Definition ChannelStrategy_dump (s : ChannelStrategy) : value :=
  VDict [("channel", VStr (platform_value (cs_channel s)));
         ("content_id", VStr (cs_content_id s));
         ("target_audience", TargetAudience_dump (cs_target_audience s));
         ("budget_allocation", BudgetAllocation_dump (cs_budget_allocation s));
         ("schedule", opt VDict (cs_schedule s))].

Definition InfluencerOutreach_dump (o : InfluencerOutreach) : value :=
  VDict [("influencer_name", VStr (io_influencer_name o));
         ("platform", VStr (platform_value (io_platform o)));
         ("follower_count", VInt (io_follower_count o));
         ("engagement_rate", VFloat (io_engagement_rate o));
         ("outreach_message", VStr (io_outreach_message o));
         ("estimated_reach", VInt (io_estimated_reach o));
         ("cost", VFloat (io_cost o))].

Definition CampaignPlan_dump (p : CampaignPlan) : value :=
  VDict [("campaign_id", VStr (cp_campaign_id p));
         ("campaign_name", VStr (cp_campaign_name p));
         ("total_budget", VFloat (cp_total_budget p));
         ("budget_allocations", VList (map BudgetAllocation_dump (cp_budget_allocations p)));
         ("channel_strategies", VList (map ChannelStrategy_dump (cp_channel_strategies p)));
         ("influencer_outreach", VList (map InfluencerOutreach_dump (cp_influencer_outreach p)));
         ("start_date", opt VDatetime (cp_start_date p));
         ("end_date", opt VDatetime (cp_end_date p));
         ("target_kpis", floats (cp_target_kpis p))].

Definition PerformanceMetrics_dump (m : PerformanceMetrics) : value :=
  VDict [("impressions", VInt (pm_impressions m));
         ("clicks", VInt (pm_clicks m));
         ("ctr", VFloat (pm_ctr m));
         ("conversions", VInt (pm_conversions m));
         ("conversion_rate", VFloat (pm_conversion_rate m));
         ("total_cost", VFloat (pm_total_cost m));
         ("revenue", VFloat (pm_revenue m));
         ("roi", VFloat (pm_roi m));
         ("cost_per_acquisition", VFloat (pm_cost_per_acquisition m));
         ("engagement_score", VFloat (pm_engagement_score m))].

Definition OptimizationFeedback_dump (f : OptimizationFeedback) : value :=
  VDict [("insights", strs (of_insights f));
         ("recommendations", strs (of_recommendations f));
         ("suggested_budget_reallocation",
          opt (fun l => VDict (map (fun kv => (platform_value kv.1, VFloat kv.2)) l))
              (of_suggested_budget_reallocation f));
         ("suggested_content_adjustments", strs (of_suggested_content_adjustments f))].

Definition CampaignResult_fields (r : CampaignResult) : list (string * value) :=
  [("campaign_plan", CampaignPlan_dump (cr_campaign_plan r));
   ("performance_metrics", PerformanceMetrics_dump (cr_performance_metrics r));
   ("optimization_feedback", OptimizationFeedback_dump (cr_optimization_feedback r));
   ("executed_at", VDatetime (cr_executed_at r))].

End Dump.

(** ** The world a workflow runs in *)

Module World.

(** What a run leaves behind for an observer, oldest first. *)
Inductive event : Type :=
  | EvState (s : WorkflowState)   (* [result.state = s] *)
  | EvMirror (s : string)         (* [memory.set_workflow_state(s)] entered *)
  | EvInvoke (f : string)         (* the body of [f] is entered *)
  | EvSleep (secs : nat).         (* [asyncio.sleep(secs)] *)

Global Instance event_eq_dec : EqDecision event.
Proof. solve_decision. Defined.

(** The one [SharedMemory] instance shared by the coordinator and its
    agents ([session_id], [memory]), the directory it writes to
    ([files], one JSON document per session id), the wall clock in
    microseconds, the number of oracle outcomes consumed so far and the
    observation log. *)
Record world : Type := {
  clock : N;
  asked : nat;
  trace : list event;
  session_id : option string;
  memory : gmap string value;
  files : gmap string (gmap string value) }.

Definition set_clock (f : N → N) (w : world) : world :=
  {| clock := f (clock w); asked := asked w; trace := trace w;
     session_id := session_id w; memory := memory w; files := files w |}.
Definition set_asked (f : nat → nat) (w : world) : world :=
  {| clock := clock w; asked := f (asked w); trace := trace w;
     session_id := session_id w; memory := memory w; files := files w |}.
Definition log (e : event) (w : world) : world :=
  {| clock := clock w; asked := asked w; trace := trace w ++ [e];
     session_id := session_id w; memory := memory w; files := files w |}.
Definition set_session_id (sid : option string) (w : world) : world :=
  {| clock := clock w; asked := asked w; trace := trace w;
     session_id := sid; memory := memory w; files := files w |}.
Definition set_memory (m : gmap string value) (w : world) : world :=
  {| clock := clock w; asked := asked w; trace := trace w;
     session_id := session_id w; memory := m; files := files w |}.
Definition set_files (fs : gmap string (gmap string value)) (w : world) : world :=
  {| clock := clock w; asked := asked w; trace := trace w;
     session_id := session_id w; memory := memory w; files := fs |}.

(** [datetime.now()]: reads the clock. *)
Definition now : M world N := gets clock.

(** [await asyncio.sleep(secs)]: at least [secs] seconds pass. *)
Definition sleep (secs : nat) : M world unit :=
  modify (fun w => set_clock (fun t => t + N.of_nat secs * 1000000)%N (log (EvSleep secs) w)).

Definition invoke (f : string) : M world unit := modify (log (EvInvoke f)).

(** How often [f] has been entered. *)
Definition invocations (f : string) (w : world) : nat :=
  length (filter (fun e => e = EvInvoke f) (trace w)).

(** The waits of the run, oldest first. *)
Definition sleeps (w : world) : list nat :=
  omap (fun e => match e with EvSleep n => Some n | _ => None end) (trace w).

(** What the text-completion service decides of a [ContentAsset], once
    parsed and validated; the other fields are filled in by
    [_generate_platform_content]. *)
Record ContentDraft : Type := {
  cd_content : string;
  cd_headline : option string;
  cd_subject_line : option string;
  cd_cta : option string;
  cd_hashtags : list string;
  cd_visual_prompt : option string }.

(** The oracles.  The [n]-th interaction of a run with the outside
    (counted by [asked]) takes [elapsed n] microseconds and has the
    outcome the oracle of its kind gives at [n]. *)
Record env : Type := {
  elapsed : nat → N;
  uuid4_at : nat → string;
  brand_profile_reply : nat → outcome value;
  swot_reply : nat → outcome SWOTAnalysis;
  positioning_reply : nat → outcome PositioningStrategy;
  platform_content_reply : nat → outcome ContentDraft;
  visual_prompt_reply : nat → outcome (string * string);
  campaign_run_reply :
    nat → outcome (list BudgetAllocation * PerformanceMetrics * OptimizationFeedback) }.

Definition ask {A} (E : env) (oracle : env → nat → outcome A) : M world A :=
  fun w =>
    (oracle E (asked w),
     set_asked S (set_clock (fun t => t + elapsed E (asked w))%N w)).

Definition uuid4 (E : env) : M world string :=
  ask E (fun E n => Ok (uuid4_at E n)).

End World.

Export World.

(** ** [core/memory.py]: [SharedMemory] *)

Module SharedMemory.

(** [SharedMemory(storage_path)]: a new instance on a directory that
    already holds [fs]; no session is open. *)
Definition init (fs : gmap string (gmap string value)) (w : world) : world :=
  set_files fs (set_memory ∅ (set_session_id None w)).

(** [_persist]: rewrite the whole session file, nothing without a
    session. *)
Definition _persist : M world unit :=
  modify (fun w =>
    match session_id w with
    | None => w
    | Some sid => set_files (<[sid := json_roundtrip <$> memory w]> (files w)) w
    end).

(** [strftime('%Y%m%d_%H%M%S')]: a text of the reading in whole seconds. *)
Definition strftime_seconds (t : N) : string := pretty (t / 1000000)%N.

Definition initial_memory (sid : string) (created_at : N) : gmap string value :=
  <["session_id" := VStr sid]>
  (<["created_at" := VStr (isoformat created_at)]>
  (<["brand_profile" := VNone]>
  (<["brand_analysis" := VNone]>
  (<["content_assets" := VNone]>
  (<["campaign_plan" := VNone]>
  (<["campaign_results" := VNone]>
  (<["workflow_state" := VStr "pending"]>
  (<["messages" := VList []]>
  (<["metadata" := VDict []]> ∅))))))))).

Definition create_session (sid : option string) : M world string :=
  let* sid := match sid with
              | Some s => ret s
              | None => let* t := now in ret ("session_" +:+ strftime_seconds t)
              end in
  do* modify (set_session_id (Some sid)) in
  let* t := now in
  do* modify (set_memory (initial_memory sid t)) in
  do* _persist in
  ret sid.

Definition load_session (sid : string) : M world bool :=
  fun w =>
    match files w !! sid with
    | None => (Ok false, w)
    | Some doc => (Ok true, set_session_id (Some sid) (set_memory doc w))
    end.

(** The reduction [save] applies before storing. *)
Definition plain (obj : pyobj) : value :=
  match obj with
  | Plain v => v
  | Model fields => VDict fields
  | LegacyModel fields => VDict fields
  end.

Definition no_active_session : exn :=
  Exn "RuntimeError" "No active session. Call create_session() first.".

Definition save (key : string) (obj : pyobj) : M world unit :=
  let* sid := gets session_id in
  match sid with
  | None => raise no_active_session
  | Some _ =>
      do* modify (fun w => set_memory (<[key := plain obj]> (memory w)) w) in
      let* t := now in
      do* modify (fun w => set_memory (<["updated_at" := VStr (isoformat t)]> (memory w)) w) in
      _persist
  end.

Definition get (key : string) (default : value) : M world value :=
  gets (fun w => match memory w !! key with Some v => v | None => default end).

Definition set_workflow_state (state : string) : M world unit :=
  do* modify (log (EvMirror state)) in
  save "workflow_state" (Plain (VStr state)).

Definition get_workflow_state : M world value :=
  get "workflow_state" (VStr "pending").

Definition delete_session (sid : string) : M world bool :=
  fun w =>
    match files w !! sid with
    | Some _ => (Ok true, set_files (delete sid (files w)) w)
    | None => (Ok false, w)
    end.

End SharedMemory.

(** ** [agents/brand_strategist.py] *)

Module BrandStrategistAgent.

Definition TypeError (msg : string) : exn := Exn "TypeError" msg.
Definition AttributeError (msg : string) : exn := Exn "AttributeError" msg.
Definition ValidationError (cls : string) : exn :=
  Exn "ValidationError" ("validation error for " +:+ cls).

(** [for t in x]: the items a loop over a parsed JSON value visits.  A
    list gives its elements, a string its characters, an object its
    keys; the other values are not iterable. *)
Fixpoint characters (s : string) : list value :=
  match s with
  | EmptyString => []
  | String c rest => VStr (String c EmptyString) :: characters rest
  end.

Definition iterate (v : value) : outcome (list value) :=
  match v with
  | VList xs => Ok xs
  | VStr s => Ok (characters s)
  | VDict kvs => Ok (map (fun kv => VStr kv.1) kvs)
  | _ => Raise (TypeError "object is not iterable")
  end.

(** The body of the loop over the tone labels: the member with that
    value, or [PROFESSIONAL] when the lookup raises [ValueError]. *)
Definition tone_of_label (t : value) : ToneOfVoice :=
  match ToneOfVoice_of t with
  | Some tone => tone
  | None => PROFESSIONAL
  end.

(** Validation of a field by pydantic: [str], [List[str]] and
    [Dict[str, Any]] accept exactly the JSON strings, the lists of
    strings and the objects. *)
Fixpoint str_items (xs : list value) : option (list string) :=
  match xs with
  | [] => Some []
  | VStr s :: rest => match str_items rest with Some l => Some (s :: l) | None => None end
  | _ :: _ => None
  end.

Definition valid_str (cls : string) (v : value) : outcome string :=
  match v with VStr s => Ok s | _ => Raise (ValidationError cls) end.

Definition valid_str_list (cls : string) (v : value) : outcome (list string) :=
  match v with
  | VList xs => match str_items xs with
                | Some l => Ok l
                | None => Raise (ValidationError cls)
                end
  | _ => Raise (ValidationError cls)
  end.

Definition valid_dict (cls : string) (v : value) : outcome (list (string * value)) :=
  match v with VDict kvs => Ok kvs | _ => Raise (ValidationError cls) end.

(** [d.get(key, default)] followed by the validation of the field. *)
Definition field {A} (kvs : list (string * value)) (key : string) (default : A)
    (valid : value → outcome A) : outcome A :=
  match dict_get kvs key with
  | Some v => valid v
  | None => Ok default
  end.

Definition obind {A B} (o : outcome A) (k : A → outcome B) : outcome B :=
  match o with Ok a => k a | Raise e => Raise e end.

(** [TargetAudience] built from the keywords unpacked from [d]: [d] must
    be a mapping; a missing field takes
    the default of the class, an extra key is ignored. *)
Definition TargetAudience_of (d : value) : outcome TargetAudience :=
  match d with
  | VDict kvs =>
      obind (field kvs "demographics" [] (valid_dict "TargetAudience")) (fun demographics =>
      obind (field kvs "psychographics" [] (valid_dict "TargetAudience")) (fun psychographics =>
      obind (field kvs "pain_points" [] (valid_str_list "TargetAudience")) (fun pain_points =>
      obind (field kvs "goals" [] (valid_str_list "TargetAudience")) (fun goals =>
      Ok {| ta_demographics := demographics; ta_psychographics := psychographics;
            ta_pain_points := pain_points; ta_goals := goals |}))))
  | _ => Raise (TypeError "argument after ** must be a mapping")
  end.

(** The part of [_extract_brand_profile] after [json.loads]: from the
    parsed reply [result] to the [BrandProfile]. *)
Definition brand_profile_of_document (result : value) : outcome BrandProfile :=
  match result with
  | VDict kvs =>
      obind (iterate (match dict_get kvs "tone_of_voice" with
                      | Some v => v
                      | None => VList [VStr "professional"]
                      end)) (fun labels =>
      let tone_list := map tone_of_label labels in
      obind (TargetAudience_of (match dict_get kvs "target_audience" with
                                | Some v => v
                                | None => VDict []
                                end)) (fun target_audience =>
      obind (field kvs "brand_name" "Unknown" (valid_str "BrandProfile")) (fun brand_name =>
      obind (field kvs "industry" "Unknown" (valid_str "BrandProfile")) (fun industry =>
      obind (field kvs "value_proposition" "" (valid_str "BrandProfile")) (fun value_proposition =>
      obind (field kvs "key_messages" [] (valid_str_list "BrandProfile")) (fun key_messages =>
      obind (field kvs "brand_keywords" [] (valid_str_list "BrandProfile")) (fun brand_keywords =>
      obind (field kvs "competitors" [] (valid_str_list "BrandProfile")) (fun competitors =>
      Ok {| bp_brand_name := brand_name;
            bp_industry := industry;
            bp_website_url := None;
            bp_tone_of_voice := tone_list;
            bp_value_proposition := value_proposition;
            bp_key_messages := key_messages;
            bp_target_audience := target_audience;
            bp_brand_keywords := brand_keywords;
            bp_competitors := competitors |}))))))))
  | _ => Raise (AttributeError "object has no attribute 'get'")
  end.

Definition _extract_brand_profile (E : env) : M world BrandProfile :=
  let* result := ask E brand_profile_reply in
  fun w => (brand_profile_of_document result, w).

Definition _perform_swot_analysis (E : env) : M world SWOTAnalysis :=
  ask E swot_reply.

Definition _generate_positioning_strategy (E : env) : M world PositioningStrategy :=
  ask E positioning_reply.

(** [analyze_brand]: the three steps in sequence, then the result is
    saved under ["brand_analysis"].  [_collect_brand_data] only feeds the
    prompt and has no effect of its own. *)
Definition analyze_brand (E : env) : M world BrandAnalysisResult :=
  do* invoke "analyze_brand" in
  let* brand_profile := _extract_brand_profile E in
  let* swot_analysis := _perform_swot_analysis E in
  let* positioning_strategy := _generate_positioning_strategy E in
  let* analysis_id := uuid4 E in
  let* created_at := now in
  let result := {| ba_brand_profile := brand_profile;
                   ba_swot_analysis := swot_analysis;
                   ba_positioning_strategy := positioning_strategy;
                   ba_created_at := created_at;
                   ba_analysis_id := analysis_id |} in
  do* SharedMemory.save "brand_analysis" (Model (Dump.BrandAnalysisResult_fields result)) in
  ret result.

(** [refine_strategy]: returns the analysis it was given. *)
Definition refine_strategy (current_analysis : BrandAnalysisResult) (feedback : value)
  : M world BrandAnalysisResult :=
  do* invoke "refine_strategy" in
  ret current_analysis.

End BrandStrategistAgent.

(** ** [agents/creative_engine.py] *)

Module CreativeEngineAgent.

Definition _get_content_type (platform : Platform) : ContentType :=
  match platform with
  | LINKEDIN => POST
  | FACEBOOK => POST
  | INSTAGRAM => POST
  | GOOGLE_ADS => AD_COPY
  | EMAIL => EMAIL_CAMPAIGN
  | TWITTER => POST
  end.

Definition _generate_platform_content (E : env) (brand_profile : BrandProfile)
    (platform : Platform) (variant_num : nat) : M world ContentAsset :=
  let* result := ask E platform_content_reply in
  let* content_id := uuid4 E in
  ret {| ca_content_id := content_id;
         ca_platform := platform;
         ca_content_type := _get_content_type platform;
         ca_content := cd_content result;
         ca_headline := cd_headline result;
         ca_subject_line := cd_subject_line result;
         ca_cta := cd_cta result;
         ca_hashtags := cd_hashtags result;
         ca_keywords := bp_brand_keywords brand_profile;
         ca_visual_prompt := cd_visual_prompt result;
         ca_tone := match bp_tone_of_voice brand_profile with
                    | t :: _ => t
                    | [] => PROFESSIONAL
                    end;
         ca_estimated_engagement_score := None |}.

Definition _generate_visual_prompt (E : env) (content : ContentAsset)
    (brand_profile : BrandProfile) : M world VisualAsset :=
  let* result := ask E visual_prompt_reply in
  let* asset_id := uuid4 E in
  ret {| va_asset_id := asset_id;
         va_prompt := result.1;
         va_generated_url := None;
         va_local_path := None;
         va_style := result.2 |}.

(** [platform in [Platform.INSTAGRAM, Platform.FACEBOOK, Platform.LINKEDIN]] *)
Definition needs_visual (platform : Platform) : bool :=
  bool_decide (platform ∈ [INSTAGRAM; FACEBOOK; LINKEDIN]).

(** The inner loop, over [range(num_variants)]; the two lists being
    appended to are carried along. *)
Fixpoint variants_loop (E : env) (brand_profile : BrandProfile) (platform : Platform)
    (variant_nums : list nat) (assets : list ContentAsset * list VisualAsset)
  : M world (list ContentAsset * list VisualAsset) :=
  match variant_nums with
  | [] => ret assets
  | variant_num :: rest =>
      let* content := _generate_platform_content E brand_profile platform variant_num in
      let content_assets := assets.1 ++ [content] in
      let* visual_assets :=
        (if needs_visual platform
         then let* visual := _generate_visual_prompt E content brand_profile in
              ret (assets.2 ++ [visual])
         else ret assets.2) in
      variants_loop E brand_profile platform rest (content_assets, visual_assets)
  end.

(** The outer loop, over [target_platforms]. *)
Fixpoint platforms_loop (E : env) (brand_profile : BrandProfile)
    (target_platforms : list Platform) (num_variants : Z)
    (assets : list ContentAsset * list VisualAsset)
  : M world (list ContentAsset * list VisualAsset) :=
  match target_platforms with
  | [] => ret assets
  | platform :: rest =>
      let* assets := variants_loop E brand_profile platform
                       (seq 0 (Z.to_nat num_variants)) assets in
      platforms_loop E brand_profile rest num_variants assets
  end.

Definition generate_content (E : env) (brand_profile : BrandProfile)
    (campaign_brief : string) (target_platforms : list Platform) (num_variants : Z)
  : M world ContentGenerationResult :=
  do* invoke "generate_content" in
  let* assets := platforms_loop E brand_profile target_platforms num_variants ([], []) in
  let* created_at := now in
  let result :=
    {| cg_content_assets := assets.1;
       cg_visual_assets := assets.2;
       cg_generation_metadata :=
         [("num_platforms", VInt (Z.of_nat (length target_platforms)));
          ("num_variants", VInt num_variants);
          ("total_assets", VInt (Z.of_nat (length assets.1)))];
       cg_created_at := created_at |} in
  do* SharedMemory.save "content_generation"
        (Model (Dump.ContentGenerationResult_fields result)) in
  ret result.

End CreativeEngineAgent.

(** ** [agents/campaign_manager.py] *)

Module CampaignManagerAgent.

Record benchmark : Type := {
  avg_cpm : Q;
  avg_cpc : Q;
  avg_ctr : Q;
  avg_conversion_rate : Q;
  reach_multiplier : Z }.

(** [self.channel_benchmarks], entry by entry. *)
Definition channel_benchmarks : list (Platform * benchmark) :=
  [(LINKEDIN, {| avg_cpm := 15; avg_cpc := 5; avg_ctr := 25 # 1000;
                 avg_conversion_rate := 2 # 100; reach_multiplier := 1000 |});
   (GOOGLE_ADS, {| avg_cpm := 10; avg_cpc := 25 # 10; avg_ctr := 3 # 100;
                   avg_conversion_rate := 25 # 1000; reach_multiplier := 2000 |});
   (FACEBOOK, {| avg_cpm := 8; avg_cpc := 15 # 10; avg_ctr := 35 # 1000;
                 avg_conversion_rate := 15 # 1000; reach_multiplier := 1500 |});
   (INSTAGRAM, {| avg_cpm := 9; avg_cpc := 18 # 10; avg_ctr := 4 # 100;
                  avg_conversion_rate := 18 # 1000; reach_multiplier := 1800 |});
   (EMAIL, {| avg_cpm := 5; avg_cpc := 5 # 10; avg_ctr := 5 # 100;
              avg_conversion_rate := 3 # 100; reach_multiplier := 500 |})].

(** [table[key]] on the items of a dictionary keyed by platform. *)
Fixpoint getitem {V} (table : list (Platform * V)) (key : Platform) : option V :=
  match table with
  | [] => None
  | (k, v) :: rest => if decide (k = key) then Some v else getitem rest key
  end.

Definition platform_name (p : Platform) : string :=
  match p with
  | LINKEDIN => "LINKEDIN" | GOOGLE_ADS => "GOOGLE_ADS" | FACEBOOK => "FACEBOOK"
  | INSTAGRAM => "INSTAGRAM" | EMAIL => "EMAIL" | TWITTER => "TWITTER"
  end.

(** [KeyError(platform)]; its text is the [repr] of the member. *)
Definition KeyError (p : Platform) : exn :=
  Exn "KeyError" ("<Platform." +:+ platform_name p +:+ ": '" +:+ platform_value p +:+ "'>").
Definition IndexError : exn := Exn "IndexError" "list index out of range".

(** One step of "group content by platform": append to the list of the
    platform, opening it at the end of the dictionary when it is new. *)
Fixpoint add_asset (platform_content : list (Platform * list ContentAsset))
    (asset : ContentAsset) : list (Platform * list ContentAsset) :=
  match platform_content with
  | [] => [(ca_platform asset, [asset])]
  | (p, assets) :: rest =>
      if decide (p = ca_platform asset)
      then (p, assets ++ [asset]) :: rest
      else (p, assets) :: add_asset rest asset
  end.

Definition group_by_platform (content_assets : list ContentAsset)
  : list (Platform * list ContentAsset) :=
  fold_left add_asset content_assets [].

(** The loop that builds [channel_strategies], in the order of the
    dictionary; the benchmark lookups are the two subscripts of the
    source. *)
Fixpoint channel_strategies_loop (brand_profile : BrandProfile)
    (items : list (Platform * list ContentAsset)) (channel_strategies : list ChannelStrategy)
  : outcome (list ChannelStrategy) :=
  match items with
  | [] => Ok channel_strategies
  | (platform, assets) :: rest =>
      match assets with
      | [] => Raise IndexError
      | selected_asset :: _ =>
          match getitem channel_benchmarks platform with
          | None => Raise (KeyError platform)
          | Some b =>
              let strategy :=
                {| cs_channel := platform;
                   cs_content_id := ca_content_id selected_asset;
                   cs_target_audience := bp_target_audience brand_profile;
                   cs_budget_allocation :=
                     {| al_channel := platform;
                        al_allocated_budget := 0;
                        al_estimated_reach := 0;
                        al_estimated_cpm := avg_cpm b;
                        al_estimated_cpc := avg_cpc b |};
                   cs_schedule := None |} in
              channel_strategies_loop brand_profile rest (channel_strategies ++ [strategy])
          end
      end
  end.

Definition _create_campaign_plan (E : env) (content_assets : list ContentAsset)
    (brand_profile : BrandProfile) (total_budget : Q) (target_kpis : gmap string Q)
  : M world CampaignPlan :=
  let platform_content := group_by_platform content_assets in
  let* channel_strategies :=
    (fun w => (channel_strategies_loop brand_profile platform_content [], w)) in
  let* campaign_id := uuid4 E in
  let* start_date := now in
  ret {| cp_campaign_id := campaign_id;
         cp_campaign_name := bp_brand_name brand_profile +:+ " Campaign";
         cp_total_budget := total_budget;
         cp_budget_allocations := [];
         cp_channel_strategies := channel_strategies;
         cp_influencer_outreach := [];
         cp_start_date := Some start_date;
         cp_end_date := None;
         cp_target_kpis := target_kpis |}.

Definition set_budget_allocations (l : list BudgetAllocation) (p : CampaignPlan)
  : CampaignPlan :=
  {| cp_campaign_id := cp_campaign_id p; cp_campaign_name := cp_campaign_name p;
     cp_total_budget := cp_total_budget p; cp_budget_allocations := l;
     cp_channel_strategies := cp_channel_strategies p;
     cp_influencer_outreach := cp_influencer_outreach p;
     cp_start_date := cp_start_date p; cp_end_date := cp_end_date p;
     cp_target_kpis := cp_target_kpis p |}.

(** [execute_campaign].  Steps 2 to 4 (the budget heuristic, the
    simulator with its random jitter and the feedback request) are one
    interaction with the outside: [campaign_run_reply] gives the
    allocations, the metrics and the feedback, or the exception one of
    them raised. *)
Definition execute_campaign (E : env) (content_assets : list ContentAsset)
    (brand_profile : BrandProfile) (total_budget : Q) (target_kpis : gmap string Q)
  : M world CampaignResult :=
  do* invoke "execute_campaign" in
  let* campaign_plan :=
    _create_campaign_plan E content_assets brand_profile total_budget target_kpis in
  let* run := ask E campaign_run_reply in
  let campaign_plan := set_budget_allocations run.1.1 campaign_plan in
  let* executed_at := now in
  let result := {| cr_campaign_plan := campaign_plan;
                   cr_performance_metrics := run.1.2;
                   cr_optimization_feedback := run.2;
                   cr_executed_at := executed_at |} in
  do* SharedMemory.save "campaign_result" (Model (Dump.CampaignResult_fields result)) in
  ret result.

End CampaignManagerAgent.

(** ** [core/coordinator.py]: [AgentCoordinator] *)

Module AgentCoordinator.

Import SharedMemory BrandStrategistAgent CreativeEngineAgent CampaignManagerAgent.

(** The two settings of the constructor; the client and the store are
    the [env] and the [world]. *)
Record config : Type := {
  enable_feedback_loop : bool;
  max_iterations : Z }.

Definition default_config : config :=
  {| enable_feedback_loop := true; max_iterations := 2 |}.

(** *** [_execute_with_retry] *)

Definition raise_None : exn :=
  Exn "TypeError" "exceptions must derive from BaseException".

(** The loop [for attempt in range(max_retries)], entered at [attempt]
    with [remaining] rounds to go. *)
Fixpoint retry_loop {A} (func : M world A) (max_retries : Z)
    (attempt remaining : nat) (last_error : option exn) : M world A :=
  match remaining with
  | O => match last_error with
         | Some e => raise e
         | None => raise raise_None
         end
  | S remaining' =>
      fun w =>
        match func w with
        | (Ok a, w') => (Ok a, w')
        | (Raise e, w') =>
            (do* (if (Z.of_nat attempt <? max_retries - 1)%Z
                  then sleep (2 ^ attempt)
                  else ret tt) in
             retry_loop func max_retries (S attempt) remaining' (Some e)) w'
        end
  end.

Definition _execute_with_retry {A} (func : M world A) (max_retries : Z) : M world A :=
  retry_loop func max_retries 0 (Z.to_nat max_retries) None.

(** *** [_should_optimize] *)

(** [x < y] on the numbers of the metrics and of the targets. *)
Definition Qltb (x y : Q) : bool := (Qnum x * QDen y <? Qnum y * QDen x)%Z.

Fixpoint kpi_loop (performance : PerformanceMetrics) (items : list (string * Q)) : bool :=
  match items with
  | [] => false
  | (kpi, target_value) :: rest =>
      if String.eqb kpi "roi" && Qltb (pm_roi performance) target_value then true
      else if String.eqb kpi "conversions"
              && Qltb (inject_Z (pm_conversions performance)) target_value then true
      else if String.eqb kpi "ctr" && Qltb (pm_ctr performance) target_value then true
      else kpi_loop performance rest
  end.

Definition _should_optimize (campaign_result : CampaignResult)
    (workflow_input : WorkflowInput) : bool :=
  if bool_decide (size (wi_target_kpis workflow_input) = 0)
  then false
  else kpi_loop (cr_performance_metrics campaign_result)
                (map_to_list (wi_target_kpis workflow_input)).

(** *** The three stages *)

Definition _stage_brand_analysis (E : env) (workflow_input : WorkflowInput)
  : M world BrandAnalysisResult :=
  do* invoke "_stage_brand_analysis" in
  analyze_brand E.

Definition _stage_content_generation (E : env) (brand_analysis : BrandAnalysisResult)
    (workflow_input : WorkflowInput) : M world ContentGenerationResult :=
  do* invoke "_stage_content_generation" in
  generate_content E (ba_brand_profile brand_analysis)
    (wi_campaign_brief workflow_input) (wi_target_platforms workflow_input) 1.

Definition _stage_campaign_execution (E : env)
    (content_generation : ContentGenerationResult) (brand_analysis : BrandAnalysisResult)
    (workflow_input : WorkflowInput) : M world CampaignResult :=
  do* invoke "_stage_campaign_execution" in
  execute_campaign E (cg_content_assets content_generation)
    (ba_brand_profile brand_analysis) (wi_budget workflow_input)
    (wi_target_kpis workflow_input).

(** *** [execute_workflow] *)

(** The body of the [try] runs on the local [result] object and the
    world. *)
Definition wstate : Type := WorkflowResult * world.

Definition lift {A} (m : M world A) : M wstate A :=
  fun s => match m s.2 with (o, w) => (o, (s.1, w)) end.

Definition set_state (st : WorkflowState) (r : WorkflowResult) : WorkflowResult :=
  {| wr_workflow_id := wr_workflow_id r; wr_state := st;
     wr_brand_analysis := wr_brand_analysis r;
     wr_content_generation := wr_content_generation r;
     wr_campaign_result := wr_campaign_result r;
     wr_error_message := wr_error_message r;
     wr_started_at := wr_started_at r; wr_completed_at := wr_completed_at r |}.
Definition set_brand_analysis (x : BrandAnalysisResult) (r : WorkflowResult) : WorkflowResult :=
  {| wr_workflow_id := wr_workflow_id r; wr_state := wr_state r;
     wr_brand_analysis := Some x;
     wr_content_generation := wr_content_generation r;
     wr_campaign_result := wr_campaign_result r;
     wr_error_message := wr_error_message r;
     wr_started_at := wr_started_at r; wr_completed_at := wr_completed_at r |}.
Definition set_content_generation (x : ContentGenerationResult) (r : WorkflowResult)
  : WorkflowResult :=
  {| wr_workflow_id := wr_workflow_id r; wr_state := wr_state r;
     wr_brand_analysis := wr_brand_analysis r;
     wr_content_generation := Some x;
     wr_campaign_result := wr_campaign_result r;
     wr_error_message := wr_error_message r;
     wr_started_at := wr_started_at r; wr_completed_at := wr_completed_at r |}.
Definition set_campaign_result (x : CampaignResult) (r : WorkflowResult) : WorkflowResult :=
  {| wr_workflow_id := wr_workflow_id r; wr_state := wr_state r;
     wr_brand_analysis := wr_brand_analysis r;
     wr_content_generation := wr_content_generation r;
     wr_campaign_result := Some x;
     wr_error_message := wr_error_message r;
     wr_started_at := wr_started_at r; wr_completed_at := wr_completed_at r |}.
Definition set_error_message (x : string) (r : WorkflowResult) : WorkflowResult :=
  {| wr_workflow_id := wr_workflow_id r; wr_state := wr_state r;
     wr_brand_analysis := wr_brand_analysis r;
     wr_content_generation := wr_content_generation r;
     wr_campaign_result := wr_campaign_result r;
     wr_error_message := Some x;
     wr_started_at := wr_started_at r; wr_completed_at := wr_completed_at r |}.
Definition set_completed_at (t : N) (r : WorkflowResult) : WorkflowResult :=
  {| wr_workflow_id := wr_workflow_id r; wr_state := wr_state r;
     wr_brand_analysis := wr_brand_analysis r;
     wr_content_generation := wr_content_generation r;
     wr_campaign_result := wr_campaign_result r;
     wr_error_message := wr_error_message r;
     wr_started_at := wr_started_at r; wr_completed_at := Some t |}.

Definition update_result (f : WorkflowResult → WorkflowResult) : M wstate unit :=
  modify (fun s => (f s.1, s.2)).

(** [result.state = st] followed by
    [self.memory.set_workflow_state(result.state.value)]. *)
Definition enter_state (st : WorkflowState) : M wstate unit :=
  do* modify (fun s => (set_state st s.1, log (EvState st) s.2)) in
  lift (set_workflow_state (state_value st)).

(** Stages 1 to 3, each behind the retry wrapper with its default
    bound. *)
Definition run_stages (E : env) (workflow_input : WorkflowInput)
  : M wstate (BrandAnalysisResult * ContentGenerationResult * CampaignResult) :=
  do* enter_state ANALYZING_BRAND in
  let* brand_analysis :=
    lift (_execute_with_retry (_stage_brand_analysis E workflow_input) 3) in
  do* update_result (set_brand_analysis brand_analysis) in
  do* enter_state GENERATING_CONTENT in
  let* content_generation :=
    lift (_execute_with_retry
            (_stage_content_generation E brand_analysis workflow_input) 3) in
  do* update_result (set_content_generation content_generation) in
  do* enter_state EXECUTING_CAMPAIGN in
  let* campaign_result :=
    lift (_execute_with_retry
            (_stage_campaign_execution E content_generation brand_analysis workflow_input) 3) in
  do* update_result (set_campaign_result campaign_result) in
  ret (brand_analysis, content_generation, campaign_result).

(** One round of the optimization loop; the answer is whether the loop
    goes on ([false] is the [break]).  [brand_analysis] and
    [campaign_result] are those of the initial run in every round: the
    loop does not rebind them. *)
Definition feedback_iteration (E : env) (workflow_input : WorkflowInput)
    (brand_analysis : BrandAnalysisResult) (campaign_result : CampaignResult)
  : M wstate bool :=
  let* improved_analysis :=
    lift (refine_strategy brand_analysis
            (Dump.OptimizationFeedback_dump (cr_optimization_feedback campaign_result))) in
  let* improved_content :=
    lift (generate_content E (ba_brand_profile improved_analysis)
            (wi_campaign_brief workflow_input) (wi_target_platforms workflow_input) 1) in
  let* improved_campaign :=
    lift (execute_campaign E (cg_content_assets improved_content)
            (ba_brand_profile improved_analysis) (wi_budget workflow_input)
            (wi_target_kpis workflow_input)) in
  do* update_result (set_brand_analysis improved_analysis) in
  do* update_result (set_content_generation improved_content) in
  do* update_result (set_campaign_result improved_campaign) in
  ret (_should_optimize improved_campaign workflow_input).

(** [for iteration in range(self.max_iterations - 1)], with [rounds]
    rounds to go. *)
Fixpoint feedback_loop (E : env) (workflow_input : WorkflowInput)
    (brand_analysis : BrandAnalysisResult) (campaign_result : CampaignResult)
    (rounds : nat) : M wstate unit :=
  match rounds with
  | O => ret tt
  | S rounds' =>
      let* again := feedback_iteration E workflow_input brand_analysis campaign_result in
      if again
      then feedback_loop E workflow_input brand_analysis campaign_result rounds'
      else ret tt
  end.

(** The body of the [try]. *)
Definition try_body (self : config) (E : env) (workflow_input : WorkflowInput)
  : M wstate unit :=
  let* results := run_stages E workflow_input in
  let brand_analysis := results.1.1 in
  let campaign_result := results.2 in
  do* (if enable_feedback_loop self && _should_optimize campaign_result workflow_input
       then feedback_loop E workflow_input brand_analysis campaign_result
              (Z.to_nat (max_iterations self - 1))
       else ret tt) in
  do* modify (fun s => (set_state COMPLETED s.1, log (EvState COMPLETED) s.2)) in
  let* t := lift now in
  do* update_result (set_completed_at t) in
  lift (set_workflow_state (state_value COMPLETED)).

(** How a call ends: with the result, or with an exception raised in
    or after the [try], or with an exception raised before the local
    [result] object exists.  The first two give [result] as the call
    left it. *)
Inductive ending : Type :=
  | Returned (result : WorkflowResult)
  | Raised (e : exn) (result : WorkflowResult)
  | Aborted (e : exn).

Definition result_of (x : ending) : option WorkflowResult :=
  match x with
  | Returned r => Some r
  | Raised _ r => Some r
  | Aborted _ => None
  end.

(** The [except Exception as e] clause. *)
Definition on_exception (e : exn) (s : wstate) : ending * world :=
  let r := set_state FAILED s.1 in
  let w := log (EvState FAILED) s.2 in
  let r := set_error_message (exn_str e) r in
  let r := set_completed_at (clock w) r in
  match set_workflow_state (state_value FAILED) w with
  | (Ok _, w') => (Raised e r, w')
  | (Raise e', w') => (Raised e' r, w')
  end.

(** The statements before the [try]: the session, the identifier and
    the [result] object in its [PENDING] state. *)
Definition start_workflow (E : env) : M world WorkflowResult :=
  let* session_id := create_session None in
  let* workflow_id := uuid4 E in
  let* started_at := now in
  do* modify (log (EvState PENDING)) in
  ret {| wr_workflow_id := workflow_id; wr_state := PENDING;
         wr_brand_analysis := None; wr_content_generation := None;
         wr_campaign_result := None; wr_error_message := None;
         wr_started_at := started_at; wr_completed_at := None |}.

Definition execute_workflow (self : config) (E : env) (workflow_input : WorkflowInput)
    (w : world) : ending * world :=
  match start_workflow E w with
  | (Raise e, w0) => (Aborted e, w0)
  | (Ok result, w0) =>
      match try_body self E workflow_input (result, w0) with
      | (Ok _, (result', w')) => (Returned result', w')
      | (Raise e, s) => on_exception e s
      end
  end.

End AgentCoordinator.

(** ** [core/memory.py]: the operations of [SharedMemory] beside the workflow *)

Module SharedMemoryOps.

Import SharedMemory BrandStrategistAgent.

(** [type(v).__name__], as the messages of [AttributeError] spell it. *)
Definition type_name (v : value) : string :=
  match v with
  | VNone => "NoneType" | VBool _ => "bool" | VInt _ => "int" | VFloat _ => "float"
  | VStr _ => "str" | VList _ => "list" | VDict _ => "dict"
  | VDatetime _ => "datetime.datetime"
  end.

Definition no_attribute (v : value) (attr : string) : exn :=
  AttributeError ("'" +:+ type_name v +:+ "' object has no attribute '" +:+ attr +:+ "'").

(** [update(updates)]: one [save] per item, in the order of the
    dictionary. *)
Fixpoint update (updates : list (string * pyobj)) : M world unit :=
  match updates with
  | [] => ret tt
  | (key, obj) :: rest => do* save key obj in update rest
  end.

(** What [append_message] is given: plain data, or an [AgentMessage],
    known by the fields [model_dump] gives.  (An object with [dict] but
    no [model_dump] would be stored undumped; the program has no such
    class.) *)
Inductive message : Type :=
  | PlainMessage (v : value)
  | AgentMessage (fields : list (string * value)).

Definition message_dump (m : message) : value :=
  match m with
  | PlainMessage v => v
  | AgentMessage fields => VDict fields
  end.

(** [append_message(message)].  There is no check for an open session;
    [_persist] writes nothing without one. *)
Definition append_message (m : message) : M world unit :=
  do* modify (fun w => match memory w !! "messages" with
                       | Some _ => w
                       | None => set_memory (<["messages" := VList []]> (memory w)) w
                       end) in
  let* messages := get "messages" VNone in
  match messages with
  | VList xs =>
      do* modify (fun w =>
                    set_memory (<["messages" := VList (xs ++ [message_dump m])]> (memory w)) w) in
      _persist
  | v => raise (no_attribute v "append")
  end.

(** [[m for m in messages if m.get(key) == agent]] *)
Fixpoint select (key agent : string) (items : list value) : outcome (list value) :=
  match items with
  | [] => Ok []
  | VDict kvs :: rest =>
      obind (select key agent rest) (fun selected =>
      Ok (match dict_get kvs key with
          | Some (VStr s) => if String.eqb s agent then VDict kvs :: selected else selected
          | _ => selected
          end))
  | v :: _ => Raise (no_attribute v "get")
  end.

(** One of the two filters of [get_messages]; [None] and the empty
    string are both falsy: no filtering. *)
Definition filter_messages (key : string) (agent : option string) (messages : value)
  : outcome value :=
  match agent with
  | None => Ok messages
  | Some a =>
      if String.eqb a ""
      then Ok messages
      else obind (iterate messages) (fun items =>
           obind (select key a items) (fun selected => Ok (VList selected)))
  end.

Definition get_messages (from_agent to_agent : option string) : M world value :=
  let* messages := get "messages" (VList []) in
  fun w =>
    (obind (filter_messages "from_agent" from_agent messages)
           (filter_messages "to_agent" to_agent), w).

(** [clear()]: only with a session whose id is truthy. *)
Definition clear : M world unit :=
  let* sid := gets session_id in
  match sid with
  | None => ret tt
  | Some s =>
      if String.eqb s ""
      then ret tt
      else
        let* created_at := now in
        let* cleared_at := now in
        do* modify (set_memory (<["session_id" := VStr s]>
                               (<["created_at" := VStr (isoformat created_at)]>
                               (<["cleared_at" := VStr (isoformat cleared_at)]> ∅)))) in
        _persist
  end.

(** [Path(name).stem] for the file [session_id + ".json"]: the name
    without its suffix; the file of the empty id, [.json], is a name
    without a suffix. *)
Definition session_file_stem (session_id : string) : string :=
  if String.eqb session_id "" then ".json" else session_id.

(** [list_sessions()]: the stems of the session files; the order of the
    directory listing is not specified. *)
Definition list_sessions : M world (list string) :=
  gets (fun w => session_file_stem <$> (map_to_list (files w)).*1).

(** [open(session_file)] on a missing file; the directory part of the
    path is left out of the text. *)
Definition FileNotFoundError (sid : string) : exn :=
  Exn "FileNotFoundError"
      ("[Errno 2] No such file or directory: '" +:+ sid +:+ ".json'").

(** [export_session(session_id)]: the file of another session, or the
    mapping in memory. *)
Definition export_session (sid : option string) : M world (gmap string value) :=
  fun w =>
    match sid with
    | None => (Ok (memory w), w)
    | Some s =>
        if negb (String.eqb s "") && negb (bool_decide (Some s = session_id w))
        then match files w !! s with
             | Some doc => (Ok doc, w)
             | None => (Raise (FileNotFoundError s), w)
             end
        else (Ok (memory w), w)
    end.

End SharedMemoryOps.

(** ** [agents/brand_strategist.py]: the reply of the positioning request *)

Module PositioningParser.

Import BrandStrategistAgent.

(** The loop over [result.get("recommended_channels", [])]: a channel
    that is a value of [Platform] is appended, any other is skipped. *)
Fixpoint channels_loop (channels : list value) (recommended_channels : list Platform)
  : list Platform :=
  match channels with
  | [] => recommended_channels
  | channel :: rest =>
      match Platform_of channel with
      | Some p => channels_loop rest (recommended_channels ++ [p])
      | None => channels_loop rest recommended_channels
      end
  end.

(** The part of [_generate_positioning_strategy] after [json.loads]. *)
Definition positioning_strategy_of_document (result : value) : outcome PositioningStrategy :=
  match result with
  | VDict kvs =>
      obind (iterate (match dict_get kvs "recommended_channels" with
                      | Some v => v
                      | None => VList []
                      end)) (fun channels =>
      let recommended_channels := channels_loop channels [] in
      obind (field kvs "key_messages" [] (valid_str_list "PositioningStrategy"))
            (fun key_messages =>
      obind (field kvs "differentiation_points" [] (valid_str_list "PositioningStrategy"))
            (fun differentiation_points =>
      obind (field kvs "content_themes" [] (valid_str_list "PositioningStrategy"))
            (fun content_themes =>
      Ok {| ps_key_messages := key_messages;
            ps_differentiation_points := differentiation_points;
            ps_recommended_channels := recommended_channels;
            ps_content_themes := content_themes |}))))
  | _ => Raise (AttributeError "object has no attribute 'get'")
  end.

End PositioningParser.

(** ** [core/coordinator.py]: status and export *)

Module WorkflowStatus.

Import SharedMemory SharedMemoryOps.

(** [x is not None] *)
Definition is_not_None (v : value) : bool :=
  match v with VNone => false | _ => true end.

Definition get_workflow_status : M world value :=
  let* state := get_workflow_state in
  let* sid := gets session_id in
  let* brand_analysis := get "brand_analysis" VNone in
  let* content_generation := get "content_generation" VNone in
  let* campaign_result := get "campaign_result" VNone in
  ret (VDict [("state", state);
              ("session_id", Dump.opt VStr sid);
              ("brand_analysis", VBool (is_not_None brand_analysis));
              ("content_generation", VBool (is_not_None content_generation));
              ("campaign_result", VBool (is_not_None campaign_result))]).

Definition export_results : M world (gmap string value) := export_session None.

End WorkflowStatus.

(** * Specification vocabulary

    The notions the statements below are written in.  Nothing here is
    part of the program. *)

Import SharedMemory BrandStrategistAgent CreativeEngineAgent CampaignManagerAgent
  AgentCoordinator.

(** ** Footprints *)

(** [w'] is the world some time after [w], with the same session open. *)
Definition later (w w' : world) : Prop :=
  session_id w' = session_id w ∧ (clock w ≤ clock w')%N.

(** ... and nothing was stored or logged in between. *)
Definition undisturbed (w w' : world) : Prop :=
  later w w' ∧ memory w' = memory w ∧ files w' = files w ∧ trace w' = trace w.

(** A computation that leaves the world undisturbed, however it ends. *)
Definition quiet {A} (m : M world A) : Prop := ∀ w, undisturbed w (m w).2.

(** A computation that keeps the session and does not turn back the clock. *)
Definition stable {A} (m : M world A) : Prop := ∀ w, later w (m w).2.

(** What [save] does to an open session. *)
Definition saved (key : string) (v : value) (w w' : world) : Prop :=
  session_id w' = session_id w ∧ clock w' = clock w ∧ trace w' = trace w
  ∧ memory w' = <["updated_at" := VStr (isoformat (clock w))]> (<[key := v]> (memory w))
  ∧ ∃ sid, session_id w = Some sid
           ∧ files w' = <[sid := json_roundtrip <$> memory w']> (files w).

(** An agent entry point named [f] that stores its result under [key]:
    entering it is logged; when it raises with a session open the store
    is as before, when it returns the result has been saved. *)
Definition agent_call {A} (f key : string) (fields : A → list (string * value))
    (m : M world A) : Prop :=
  ∀ w, match m w with
       | (o, w') =>
           later w w' ∧ trace w' = trace w ++ [EvInvoke f]
           ∧ match o with
             | Raise e =>
                 is_Some (session_id w) → memory w' = memory w ∧ files w' = files w
             | Ok x =>
                 ∃ w1, undisturbed (log (EvInvoke f) w) w1 ∧ saved key (VDict (fields x)) w1 w'
             end
       end.

(** The world once [enter_state st] has run in [w]. *)
Definition entered (st : WorkflowState) (w : world) : world :=
  (set_workflow_state (state_value st) (log (EvState st) w)).2.

(** The store holds [st] as the workflow state: in the mapping in memory
    and in the file of the open session. *)
Definition mirrored (st : WorkflowState) (w : world) : Prop :=
  memory w !! "workflow_state" = Some (VStr (state_value st))
  ∧ ∃ sid doc, session_id w = Some sid ∧ files w !! sid = Some doc
               ∧ doc !! "workflow_state" = Some (VStr (state_value st)).

(** ** The local result object *)

Definition populated (r : WorkflowResult) : Prop :=
  is_Some (wr_brand_analysis r) ∧ is_Some (wr_content_generation r)
  ∧ is_Some (wr_campaign_result r).

(** Between two points of the [try]: the world is a later one of the
    same session, the start time is as it was, and the stage results,
    once all present, stay present. *)
Definition wlater (s s' : wstate) : Prop :=
  later s.2 s'.2 ∧ wr_started_at s'.1 = wr_started_at s.1
  ∧ (populated s.1 → populated s'.1).

Definition wstable {A} (m : M wstate A) : Prop := ∀ s, wlater s (m s).2.

(** Where a call that raises [e] from [w'] ends: state [FAILED], the
    message of [e], a completion time after the start time, and [e]
    given back to the caller; the state and its mirror are the only
    events after [w']. *)
Definition ends_failed (self : config) (E : env) (inp : WorkflowInput)
    (w : world) (e : exn) (w' : world) : Prop :=
  ∃ result w'',
    execute_workflow self E inp w = (Raised e result, w'')
    ∧ wr_state result = FAILED
    ∧ wr_error_message result = Some (exn_str e)
    ∧ (∃ t, wr_completed_at result = Some t ∧ (wr_started_at result < t)%N)
    ∧ trace w'' = trace w' ++ [EvState FAILED; EvMirror "failed"]
    ∧ memory w'' !! "workflow_state" = Some (VStr "failed").

(** ** The feedback loop *)

(** What one full round of the loop does, in order. *)
Definition round_events : list event :=
  [EvInvoke "refine_strategy"; EvInvoke "generate_content"; EvInvoke "execute_campaign"].

(** The state [i] rounds after [s]. *)
Fixpoint round_state (E : env) (inp : WorkflowInput) (ba : BrandAnalysisResult)
    (cr : CampaignResult) (i : nat) (s : wstate) : wstate :=
  match i with
  | O => s
  | S i' => round_state E inp ba cr i' (feedback_iteration E inp ba cr s).2
  end.

(** ** The retry wrapper *)

(** An asynchronous operation known by its outcomes: the [i]-th time it
    is entered (counting from 0) it ends as [script i] says. *)
Definition scripted {A} (name : string) (script : nat → outcome A) : M world A :=
  fun w => (script (invocations name w), log (EvInvoke name) w).

(** The backoff waited before the retries that follow attempts
    [first], ..., [first + count - 1]. *)
Definition backoff (first count : nat) : list nat :=
  map (fun attempt => 2 ^ attempt) (seq first count).

(** What a stage behind the retry wrapper does when its first [failed]
    attempts fail and one more attempt is made: the stage and its agent
    are entered at each attempt, and the wrapper sleeps after each of
    the failed ones. *)
Definition attempts (stage agent : string) (failed : nat) : list event :=
  flat_map (fun attempt => [EvInvoke stage; EvInvoke agent; EvSleep (2 ^ attempt)])
    (seq 0 failed)
  ++ [EvInvoke stage; EvInvoke agent].

(** ** The KPI predicate *)

(** The actual value the predicate compares with the target of [kpi];
    [None] for a name it does not recognize. *)
Definition actual_value (performance : PerformanceMetrics) (kpi : string) : option Q :=
  if String.eqb kpi "roi" then Some (pm_roi performance)
  else if String.eqb kpi "conversions" then Some (inject_Z (pm_conversions performance))
  else if String.eqb kpi "ctr" then Some (pm_ctr performance)
  else None.

Definition below_target (performance : PerformanceMetrics) (kpi : string) (target : Q)
  : Prop :=
  ∃ actual, actual_value performance kpi = Some actual ∧ (actual < target)%Q.

Definition with_target_kpis (kpis : gmap string Q) (i : WorkflowInput) : WorkflowInput :=
  {| wi_website_url := wi_website_url i; wi_brand_materials := wi_brand_materials i;
     wi_campaign_brief := wi_campaign_brief i; wi_budget := wi_budget i;
     wi_target_platforms := wi_target_platforms i; wi_target_kpis := kpis |}.

(** ** Brand-profile documents *)

(** The JSON types the fields of a brand-profile document are declared
    with: what a present field must be for pydantic to accept it. *)
Definition is_str (v : value) : bool :=
  match v with VStr _ => true | _ => false end.
Definition is_str_list (v : value) : bool :=
  match v with VList xs => forallb is_str xs | _ => false end.
Definition is_dict (v : value) : bool :=
  match v with VDict _ => true | _ => false end.
Definition is_iterable (v : value) : bool :=
  match v with VList _ | VStr _ | VDict _ => true | _ => false end.

Definition present_ok (kvs : list (string * value)) (key : string) (check : value → bool)
  : bool :=
  match dict_get kvs key with Some v => check v | None => true end.

Definition audience_ok (v : value) : bool :=
  match v with
  | VDict a => present_ok a "demographics" is_dict && present_ok a "psychographics" is_dict
               && present_ok a "pain_points" is_str_list && present_ok a "goals" is_str_list
  | _ => false
  end.

(** Every field that is present has its declared type; any field may be
    missing, and the tone labels may be anything. *)
Definition document_well_typed (kvs : list (string * value)) : bool :=
  present_ok kvs "tone_of_voice" is_iterable
  && present_ok kvs "target_audience" audience_ok
  && present_ok kvs "brand_name" is_str
  && present_ok kvs "industry" is_str
  && present_ok kvs "value_proposition" is_str
  && present_ok kvs "key_messages" is_str_list
  && present_ok kvs "brand_keywords" is_str_list
  && present_ok kvs "competitors" is_str_list.

(** [TargetAudience()], every field at its default. *)
Definition TargetAudience_default : TargetAudience :=
  {| ta_demographics := []; ta_psychographics := []; ta_pain_points := []; ta_goals := [] |}.

(** ** Campaign plans *)

(** Every list of the grouping dictionary holds at least one asset. *)
Definition inhabited_groups (groups : list (Platform * list ContentAsset)) : Prop :=
  Forall (fun kv => kv.2 ≠ []) groups.

(** ** The message log *)

(** Whether [get_messages] keeps a message for the name [agent] given
    for [key]: no name, or the empty one, keeps every message. *)
Definition addressed (key : string) (agent : option string) (kvs : list (string * value))
  : bool :=
  match agent with
  | None => true
  | Some a =>
      if String.eqb a "" then true
      else match dict_get kvs key with
           | Some (VStr s) => String.eqb s a
           | _ => false
           end
  end.

(** ** Generated content *)

(** What [generate_content] decides of an asset for [platform] itself
    (the rest is the reply of the service). *)
Definition asset_for (brand_profile : BrandProfile) (platform : Platform)
    (a : ContentAsset) : Prop :=
  ca_platform a = platform
  ∧ ca_content_type a = _get_content_type platform
  ∧ ca_keywords a = bp_brand_keywords brand_profile
  ∧ ca_tone a = hd PROFESSIONAL (bp_tone_of_voice brand_profile).

(** The platforms of the assets of a run, in the order they are
    generated: [n] variants for each target platform in turn. *)
Definition asset_platforms (target_platforms : list Platform) (n : nat) : list Platform :=
  flat_map (fun p => replicate n p) target_platforms.

(** ** The channel strategies of a plan *)

(** The assets for [platform], in their order. *)
Definition assets_of (platform : Platform) (content_assets : list ContentAsset)
  : list ContentAsset :=
  List.filter (fun asset => bool_decide (ca_platform asset = platform)) content_assets.

(** What the loop builds for one item. *)
Definition strategy_for (brand_profile : BrandProfile)
    (item : Platform * list ContentAsset) (strategy : ChannelStrategy) : Prop :=
  cs_channel strategy = item.1
  ∧ Some (cs_content_id strategy) = ca_content_id <$> head item.2
  ∧ cs_target_audience strategy = bp_target_audience brand_profile
  ∧ al_channel (cs_budget_allocation strategy) = item.1
  ∧ al_allocated_budget (cs_budget_allocation strategy) = 0%Q
  ∧ al_estimated_reach (cs_budget_allocation strategy) = 0%Z.

(** ** Frames *)

(** A computation that, run with a session open, takes every world to
    one related to it by [R]. *)
Definition respects (R : world → world → Prop) {A} (m : M world A) : Prop :=
  ∀ w, is_Some (session_id w) → R w (m w).2.

(** The slot [key] of the store is as it was. *)
Definition keeps (key : string) (w w' : world) : Prop :=
  memory w' !! key = memory w !! key.

(** [f] has not been entered in between. *)
Definition no_call (f : string) (w w' : world) : Prop :=
  invocations f w' = invocations f w.

(** The keys a workflow run writes. *)
Definition workflow_keys : list string :=
  ["brand_analysis"; "content_generation"; "campaign_result"; "workflow_state";
   "updated_at"].

(** The store and the local result object agree on the three stage
    results: a result the object holds is the one the store holds,
    dumped. *)
Definition agrees (r : WorkflowResult) (w : world) : Prop :=
  (∀ x, wr_brand_analysis r = Some x →
        memory w !! "brand_analysis" = Some (VDict (Dump.BrandAnalysisResult_fields x)))
  ∧ (∀ x, wr_content_generation r = Some x →
          memory w !! "content_generation"
          = Some (VDict (Dump.ContentGenerationResult_fields x)))
  ∧ (∀ x, wr_campaign_result r = Some x →
          memory w !! "campaign_result" = Some (VDict (Dump.CampaignResult_fields x))).

(** ** Status *)

(** The dictionary [get_workflow_status] returns. *)
Definition status_report (state : value) (sid : option string)
    (brand_analysis content_generation campaign_result : bool) : value :=
  VDict [("state", state);
         ("session_id", Dump.opt VStr sid);
         ("brand_analysis", VBool brand_analysis);
         ("content_generation", VBool content_generation);
         ("campaign_result", VBool campaign_result)].

(** ** Concrete runs *)

Module Scenario.

Definition empty_world : world :=
  {| clock := 0; asked := 0; trace := []; session_id := None; memory := ∅; files := ∅ |}.

Definition metrics (roi : Q) : PerformanceMetrics :=
  {| pm_impressions := 1000; pm_clicks := 30; pm_ctr := 3 # 100; pm_conversions := 2;
     pm_conversion_rate := 1 # 15; pm_total_cost := 100; pm_revenue := 250;
     pm_roi := roi; pm_cost_per_acquisition := 50; pm_engagement_score := 60 |}.

Definition no_feedback : OptimizationFeedback :=
  {| of_insights := []; of_recommendations := [];
     of_suggested_budget_reallocation := None; of_suggested_content_adjustments := [] |}.

Definition boom : exn := Exn "APIError" "service unavailable".

(** A service that answers every request; the simulated ROI of the
    campaign run asked at [n] is [roi_at n], and [fails_at n] makes that
    run raise. *)
Definition service (roi_at : nat → Q) (fails_at : nat → bool) : env :=
  {| elapsed := fun _ => 5%N;
     uuid4_at := fun n => "id-" +:+ pretty n;
     brand_profile_reply := fun _ =>
       Ok (VDict [("brand_name", VStr "Acme");
                  ("tone_of_voice", VList [VStr "friendly"; VStr "zany"])]);
     swot_reply := fun _ =>
       Ok {| swot_strengths := ["reach"]; swot_weaknesses := []; swot_opportunities := [];
             swot_threats := [] |};
     positioning_reply := fun _ =>
       Ok {| ps_key_messages := []; ps_differentiation_points := [];
             ps_recommended_channels := [EMAIL]; ps_content_themes := [] |};
     platform_content_reply := fun n =>
       Ok {| cd_content := "copy-" +:+ pretty n; cd_headline := None;
             cd_subject_line := Some "hello"; cd_cta := None; cd_hashtags := [];
             cd_visual_prompt := None |};
     visual_prompt_reply := fun _ => Ok ("a prompt", "modern");
     campaign_run_reply := fun n =>
       if fails_at n then Raise boom else Ok ([], metrics (roi_at n), no_feedback) |}.

(** The service is down: no request is answered. *)
Definition outage : env :=
  {| elapsed := fun _ => 5%N;
     uuid4_at := fun n => "id-" +:+ pretty n;
     brand_profile_reply := fun _ => Raise boom;
     swot_reply := fun _ => Raise boom;
     positioning_reply := fun _ => Raise boom;
     platform_content_reply := fun _ => Raise boom;
     visual_prompt_reply := fun _ => Raise boom;
     campaign_run_reply := fun _ => Raise boom |}.

(** One e-mail campaign whose target is an ROI of 2. *)
Definition email_input : WorkflowInput :=
  {| wi_website_url := None; wi_brand_materials := []; wi_campaign_brief := "spring sale";
     wi_budget := 100; wi_target_platforms := [EMAIL];
     wi_target_kpis := {["roi" := 2%Q]} |}.

Definition never_met : env := service (fun _ => 3 # 2) (fun _ => false).
Definition met_after_one_round : env :=
  service (fun n => if (n <? 9)%nat then 3 # 2 else 5 # 2) (fun _ => false).
Definition fails_in_first_round : env :=
  service (fun _ => 3 # 2) (fun n => (9 <=? n)%nat).
(** The first campaign run fails; the retry succeeds. *)
Definition hiccup : env := service (fun _ => 3 # 2) (fun n => (n <? 9)%nat).

Definition three_rounds : config :=
  {| enable_feedback_loop := true; max_iterations := 3 |}.
Definition no_loop : config := {| enable_feedback_loop := false; max_iterations := 2 |}.
Definition one_round : config := default_config.

Definition tweet : ContentAsset :=
  {| ca_content_id := "c1"; ca_platform := TWITTER; ca_content_type := POST;
     ca_content := "hello"; ca_headline := None; ca_subject_line := None; ca_cta := None;
     ca_hashtags := []; ca_keywords := []; ca_visual_prompt := None;
     ca_tone := PROFESSIONAL; ca_estimated_engagement_score := None |}.

Definition acme : BrandProfile :=
  {| bp_brand_name := "Acme"; bp_industry := "Unknown"; bp_website_url := None;
     bp_tone_of_voice := [FRIENDLY]; bp_value_proposition := ""; bp_key_messages := [];
     bp_target_audience :=
       {| ta_demographics := []; ta_psychographics := []; ta_pain_points := [];
          ta_goals := [] |};
     bp_brand_keywords := []; bp_competitors := [] |}.

(** An operation that fails twice and then gives 42. *)
Definition flaky (i : nat) : outcome nat :=
  if (i <? 2)%nat then Raise boom else Ok 42.

(** An operation that never succeeds; its failures are numbered. *)
Definition hopeless (i : nat) : outcome nat :=
  Raise (Exn "APIError" ("failure " +:+ pretty i)).

End Scenario.

Import Scenario.

(** Further inputs. *)

(** An e-mail and Twitter campaign. *)
Definition twitter_input : WorkflowInput :=
  {| wi_website_url := None; wi_brand_materials := []; wi_campaign_brief := "spring sale";
     wi_budget := 100; wi_target_platforms := [EMAIL; TWITTER];
     wi_target_kpis := {["roi" := 2%Q]} |}.

(** Two assets by their identifier. *)
Definition mail (content_id : string) : ContentAsset :=
  {| ca_content_id := content_id; ca_platform := EMAIL; ca_content_type := EMAIL_CAMPAIGN;
     ca_content := "hello"; ca_headline := None; ca_subject_line := None; ca_cta := None;
     ca_hashtags := []; ca_keywords := []; ca_visual_prompt := None;
     ca_tone := PROFESSIONAL; ca_estimated_engagement_score := None |}.
Definition post (content_id : string) : ContentAsset :=
  {| ca_content_id := content_id; ca_platform := LINKEDIN; ca_content_type := POST;
     ca_content := "hello"; ca_headline := None; ca_subject_line := None; ca_cta := None;
     ca_hashtags := []; ca_keywords := []; ca_visual_prompt := None;
     ca_tone := PROFESSIONAL; ca_estimated_engagement_score := None |}.

(** * Properties *)

(** ** Footprints of the operations *)

Lemma later_refl w : later w w.
Proof. split; [done|lia]. Qed.

Lemma later_trans w1 w2 w3 : later w1 w2 → later w2 w3 → later w1 w3.
Proof. intros [? ?] [? ?]. split; [congruence|lia]. Qed.

Lemma undisturbed_refl w : undisturbed w w.
Proof. repeat split; lia. Qed.

Lemma undisturbed_trans w1 w2 w3 : undisturbed w1 w2 → undisturbed w2 w3 → undisturbed w1 w3.
Proof.
  intros (L1 & ? & ? & ?) (L2 & ? & ? & ?).
  split; [by eapply later_trans|]. repeat split; congruence.
Qed.

Lemma undisturbed_later w w' : undisturbed w w' → later w w'.
Proof. by intros [? _]. Qed.

Lemma quiet_stable {A} (m : M world A) : quiet m → stable m.
Proof. intros H w. apply undisturbed_later, H. Qed.

Lemma quiet_ret {A} (a : A) : quiet (ret a).
Proof. intros w. apply undisturbed_refl. Qed.

Lemma quiet_raise {A} (e : exn) : quiet (@raise world A e).
Proof. intros w. apply undisturbed_refl. Qed.

Lemma quiet_pure {A} (o : outcome A) : quiet (fun w => (o, w)).
Proof. intros w. apply undisturbed_refl. Qed.

Lemma quiet_bind {A B} (m : M world A) (k : A → M world B) :
  quiet m → (∀ a, quiet (k a)) → quiet (bind m k).
Proof.
  intros Hm Hk w. unfold bind. specialize (Hm w). destruct (m w) as [[a|e] w1]; simpl in *.
  - eapply undisturbed_trans; [exact Hm|apply Hk].
  - done.
Qed.

Lemma stable_bind {A B} (m : M world A) (k : A → M world B) :
  stable m → (∀ a, stable (k a)) → stable (bind m k).
Proof.
  intros Hm Hk w. unfold bind. specialize (Hm w). destruct (m w) as [[a|e] w1]; simpl in *.
  - eapply later_trans; [exact Hm|apply Hk].
  - done.
Qed.

Lemma quiet_now : quiet now.
Proof. intros w. apply undisturbed_refl. Qed.

Lemma quiet_ask {A} (E : env) (oracle : env → nat → outcome A) : quiet (ask E oracle).
Proof. intros w. unfold ask; simpl. repeat split; simpl; lia. Qed.

Lemma quiet_uuid4 E : quiet (uuid4 E).
Proof. apply quiet_ask. Qed.

Lemma stable_invoke f : stable (invoke f).
Proof. intros w. split; simpl; [done|lia]. Qed.

Lemma stable_sleep secs : stable (sleep secs).
Proof. intros w. split; simpl; [done|lia]. Qed.

Lemma stable_save key obj : stable (save key obj).
Proof.
  intros w. unfold save, bind, gets; simpl. destruct (session_id w) eqn:Hs; simpl.
  - unfold _persist, modify; simpl. rewrite Hs. split; simpl; [done|lia].
  - apply later_refl.
Qed.

Lemma stable_set_workflow_state st : stable (set_workflow_state st).
Proof.
  unfold set_workflow_state. apply stable_bind; [|intros; apply stable_save].
  intros w. split; simpl; [done|lia].
Qed.

Create HintDb footprint.
#[local] Hint Resolve quiet_ret quiet_raise quiet_pure quiet_now quiet_ask quiet_uuid4
  quiet_stable stable_invoke stable_sleep stable_save stable_set_workflow_state : footprint.

Ltac footprint :=
  repeat first
    [ solve [eauto with footprint]
    | apply quiet_bind; [|intros]
    | apply stable_bind; [|intros] ].

(** *** The agents *)

Lemma quiet_extract_brand_profile E : quiet (_extract_brand_profile E).
Proof. unfold _extract_brand_profile. footprint. Qed.

Lemma quiet_generate_platform_content E bp platform n :
  quiet (_generate_platform_content E bp platform n).
Proof. unfold _generate_platform_content. footprint. Qed.

Lemma quiet_generate_visual_prompt E content bp : quiet (_generate_visual_prompt E content bp).
Proof. unfold _generate_visual_prompt. footprint. Qed.

Lemma quiet_variants_loop E bp platform nums assets :
  quiet (variants_loop E bp platform nums assets).
Proof.
  revert assets. induction nums as [|n nums IH]; intros assets; simpl; [apply quiet_ret|].
  apply quiet_bind; [apply quiet_generate_platform_content|]. intros content.
  apply quiet_bind; [|intros; apply IH].
  destruct (needs_visual platform); [|apply quiet_ret].
  apply quiet_bind; [apply quiet_generate_visual_prompt|intros; apply quiet_ret].
Qed.

Lemma quiet_platforms_loop E bp platforms num_variants assets :
  quiet (platforms_loop E bp platforms num_variants assets).
Proof.
  revert assets. induction platforms as [|p platforms IH]; intros assets; simpl;
    [apply quiet_ret|].
  apply quiet_bind; [apply quiet_variants_loop|intros; apply IH].
Qed.

Lemma quiet_create_campaign_plan E assets bp budget kpis :
  quiet (_create_campaign_plan E assets bp budget kpis).
Proof. unfold _create_campaign_plan. footprint. Qed.

#[local] Hint Resolve quiet_extract_brand_profile quiet_platforms_loop
  quiet_create_campaign_plan : footprint.

Lemma saved_later key v w w' : saved key v w w' → later w w'.
Proof. intros (? & Hc & _). split; [done|]. rewrite Hc. lia. Qed.

Lemma save_open key obj w :
  is_Some (session_id w) →
  ∃ w', save key obj w = (Ok tt, w') ∧ saved key (plain obj) w w'.
Proof.
  intros [sid Hs]. unfold save, bind, gets. rewrite Hs. eexists. split; [done|].
  unfold saved, _persist, modify; simpl. rewrite Hs.
  repeat split; simpl; try done. by exists sid.
Qed.

Lemma save_closed key obj w :
  session_id w = None → save key obj w = (Raise no_active_session, w).
Proof. intros H. unfold save, bind, gets. by rewrite H. Qed.

Lemma agent_call_intro {A} f key fields (body : M world A) (m : M world A) :
  quiet body →
  (∀ w, m w = match body (log (EvInvoke f) w) with
              | (Ok x, w1) => match save key (Model (fields x)) w1 with
                              | (Ok _, w') => (Ok x, w')
                              | (Raise e, w') => (Raise e, w')
                              end
              | (Raise e, w1) => (Raise e, w1)
              end) →
  agent_call f key fields m.
Proof.
  intros Hq Hm w. rewrite Hm. specialize (Hq (log (EvInvoke f) w)).
  destruct (body (log (EvInvoke f) w)) as [[x|e] w1]; simpl in Hq.
  - destruct Hq as (Hl & Hmem & Hfiles & Htr).
    destruct (session_id w1) as [sid|] eqn:Hs.
    + destruct (save_open key (Model (fields x)) w1) as (w' & -> & Hsaved); [by eexists|].
      split; [|split].
      * eapply later_trans; [exact Hl|]. by eapply saved_later.
      * destruct Hsaved as (_ & _ & -> & _). exact Htr.
      * exists w1. split; [|done]. exact (conj Hl (conj Hmem (conj Hfiles Htr))).
    + rewrite save_closed by done. split; [exact Hl|]. split; [exact Htr|].
      intros [sid' Hs']. destruct Hl as [Hl _]. simpl in Hl. congruence.
  - destruct Hq as (Hl & Hmem & Hfiles & Htr).
    split; [exact Hl|]. split; [exact Htr|]. by intros _.
Qed.

Ltac case_outcome :=
  match goal with
  | |- context [match ?o with Ok _ => _ | Raise _ => _ end] =>
      lazymatch o with
      | context [match _ with _ => _ end] => fail
      | _ => destruct o; simpl
      end
  | |- context [match ?m with (_, _) => _ end] =>
      lazymatch m with
      | context [match _ with _ => _ end] => fail
      | _ => destruct m as [[?|?] ?]; simpl
      end
  end.
Ltac case_outcomes := repeat case_outcome.

Lemma analyze_brand_call E :
  agent_call "analyze_brand" "brand_analysis" Dump.BrandAnalysisResult_fields (analyze_brand E).
Proof.
  eapply (agent_call_intro _ _ _
    (let* brand_profile := _extract_brand_profile E in
     let* swot_analysis := _perform_swot_analysis E in
     let* positioning_strategy := _generate_positioning_strategy E in
     let* analysis_id := uuid4 E in
     let* created_at := now in
     ret {| ba_brand_profile := brand_profile;
            ba_swot_analysis := swot_analysis;
            ba_positioning_strategy := positioning_strategy;
            ba_created_at := created_at;
            ba_analysis_id := analysis_id |})).
  - unfold _perform_swot_analysis, _generate_positioning_strategy. footprint.
  - intros w. unfold analyze_brand, _extract_brand_profile, _perform_swot_analysis,
      _generate_positioning_strategy, uuid4, ask, bind, invoke, modify, ret, now, gets; simpl.
    by case_outcomes.
Qed.

Lemma generate_content_call E bp brief platforms num_variants :
  agent_call "generate_content" "content_generation" Dump.ContentGenerationResult_fields
    (generate_content E bp brief platforms num_variants).
Proof.
  eapply (agent_call_intro _ _ _
    (let* assets := platforms_loop E bp platforms num_variants ([], []) in
     let* created_at := now in
     ret {| cg_content_assets := assets.1;
            cg_visual_assets := assets.2;
            cg_generation_metadata :=
              [("num_platforms", VInt (Z.of_nat (length platforms)));
               ("num_variants", VInt num_variants);
               ("total_assets", VInt (Z.of_nat (length assets.1)))];
            cg_created_at := created_at |})).
  - footprint.
  - intros w. unfold generate_content, bind, invoke, modify, ret, now, gets; simpl.
    by case_outcomes.
Qed.

Lemma execute_campaign_call E assets bp budget kpis :
  agent_call "execute_campaign" "campaign_result" Dump.CampaignResult_fields
    (execute_campaign E assets bp budget kpis).
Proof.
  eapply (agent_call_intro _ _ _
    (let* campaign_plan := _create_campaign_plan E assets bp budget kpis in
     let* run := ask E campaign_run_reply in
     let* executed_at := now in
     ret {| cr_campaign_plan := set_budget_allocations run.1.1 campaign_plan;
            cr_performance_metrics := run.1.2;
            cr_optimization_feedback := run.2;
            cr_executed_at := executed_at |})).
  - footprint.
  - intros w. unfold execute_campaign, bind, invoke, modify, ret, now, gets; simpl.
    destruct (_create_campaign_plan E _ _ _ _ _) as [[?|?] ?]; [|done].
    unfold ask; simpl. by case_outcomes.
Qed.

(** ** The session store *)

(** C7: [save] raises the no-active-session error exactly when no session
    is open, and then changes nothing; with a session open it returns,
    overwrites the slot with the plain form of the value, stamps
    ["updated_at"] with the time of the call and writes the whole session
    to its file; [load_session] of an id that has no file returns [False]
    instead of raising. *)
Theorem save_spec (key : string) (obj : pyobj) (w : world) :
  ((∃ e, (save key obj w).1 = Raise e) ↔ session_id w = None)
  ∧ (session_id w = None → save key obj w = (Raise no_active_session, w))
  ∧ (∀ sid, session_id w = Some sid →
       ∃ w', save key obj w = (Ok tt, w')
         ∧ memory w' = <["updated_at" := VStr (isoformat (clock w))]>
                         (<[key := plain obj]> (memory w))
         ∧ files w' = <[sid := json_roundtrip <$> memory w']> (files w)
         ∧ session_id w' = Some sid
         ∧ clock w' = clock w ∧ trace w' = trace w)
  ∧ (∀ sid, files w !! sid = None → load_session sid w = (Ok false, w)).
Proof.
  split; [|split; [|split]].
  - split.
    + intros [e He]. destruct (session_id w) as [sid|] eqn:Hs; [|done].
      destruct (save_open key obj w) as (w' & Hsave & _); [by rewrite Hs|].
      by rewrite Hsave in He.
    + intros Hs. exists no_active_session. by rewrite save_closed.
  - apply save_closed.
  - intros sid Hs.
    destruct (save_open key obj w) as (w' & Hsave & Hsid & Hc & Ht & Hm & sid' & Hs' & Hf);
      [by rewrite Hs|].
    exists w'. rewrite Hs in Hs'. injection Hs' as <-.
    repeat split; try done. by rewrite Hsid.
  - intros sid Hf. unfold load_session. by rewrite Hf.
Qed.

Lemma save_spec_witness :
  let w := (create_session (Some "s1") empty_world).2 in
  (save "k" (Plain VNone) empty_world).1 = Raise no_active_session
  ∧ (∃ w', save "brand_analysis" (Model [("analysis_id", VStr "a")]) w = (Ok tt, w')
       ∧ memory w' !! "brand_analysis" = Some (VDict [("analysis_id", VStr "a")])
       ∧ files w' !! "s1" = Some (memory w'))
  ∧ load_session "nowhere" w = (Ok false, w).
Proof.
  intros w.
  destruct (save_spec "k" (Plain VNone) empty_world) as (_ & Hclosed & _).
  destruct (save_spec "brand_analysis" (Model [("analysis_id", VStr "a")]) w)
    as (_ & _ & Hopen & Hload).
  split; [by rewrite Hclosed|]. split.
  - destruct (Hopen "s1" eq_refl) as (w' & -> & Hm & Hf & _). exists w'.
    split; [done|]. rewrite Hf, Hm. split; [by vm_compute|]. rewrite lookup_insert_eq.
    by vm_compute.
  - apply Hload. by vm_compute.
Defined.

Lemma get_pure key default w :
  get key default w = (Ok (match memory w !! key with Some v => v | None => default end), w).
Proof. reflexivity. Qed.

Lemma json_roundtrip_initial sid t :
  json_roundtrip <$> initial_memory sid t = initial_memory sid t.
Proof. unfold initial_memory. rewrite !fmap_insert, fmap_empty. reflexivity. Qed.

Lemma create_session_run sid_opt w :
  let sid := match sid_opt with
             | Some s => s
             | None => "session_" +:+ strftime_seconds (clock w)
             end in
  create_session sid_opt w =
    (Ok sid, set_files (<[sid := initial_memory sid (clock w)]> (files w))
               (set_memory (initial_memory sid (clock w)) (set_session_id (Some sid) w))).
Proof.
  destruct w, sid_opt; unfold create_session, bind, ret, now, gets, modify, _persist; simpl;
    by rewrite json_roundtrip_initial.
Qed.

(** The slot a [save] has just written, read back. *)
Lemma save_then_get key obj default w w' :
  save key obj w = (Ok tt, w') →
  get key default w'
  = (Ok (if decide (key = "updated_at") then VStr (isoformat (clock w)) else plain obj), w').
Proof.
  intros Hsave. destruct (session_id w) as [sid|] eqn:Hs.
  - destruct (save_open key obj w) as (w1 & Hsave' & _ & _ & _ & Hm & _); [by rewrite Hs|].
    rewrite Hsave in Hsave'. injection Hsave' as <-. rewrite get_pure, Hm.
    destruct (decide (key = "updated_at")) as [->|Hne].
    + by rewrite lookup_insert_eq.
    + rewrite lookup_insert_ne by done. by rewrite lookup_insert_eq.
  - by rewrite save_closed in Hsave.
Qed.

(** C8: with a session open, [save] under any key other than
    ["updated_at"] followed by [get] of that key returns the plain form of
    the saved value; [get] returns the stored value or the default and
    leaves the world as it was; a session created and then loaded by
    another store instance over the same files has the same mapping. *)
Theorem store_roundtrip :
  (∀ w key obj default, is_Some (session_id w) → key ≠ "updated_at" →
     ∃ w', save key obj w = (Ok tt, w') ∧ get key default w' = (Ok (plain obj), w'))
  ∧ (∀ w key default,
       get key default w =
         (Ok (match memory w !! key with Some v => v | None => default end), w))
  ∧ (∀ w sid_opt, ∃ sid w1 w2,
       create_session sid_opt w = (Ok sid, w1)
       ∧ load_session sid (init (files w1) w1) = (Ok true, w2)
       ∧ memory w2 = memory w1 ∧ session_id w2 = session_id w1).
Proof.
  split; [|split].
  - intros w key obj default Hs Hne.
    destruct (save_open key obj w Hs) as (w' & Hsave & _). exists w'. split; [done|].
    rewrite (save_then_get key obj default w w' Hsave). by destruct (decide _).
  - intros. apply get_pure.
  - intros w sid_opt. pose proof (create_session_run sid_opt w) as Hc. simpl in Hc.
    eexists _, _, _. split; [exact Hc|].
    unfold load_session, init. simpl. rewrite lookup_insert_eq. done.
Qed.

Lemma store_roundtrip_witness :
  let w := (create_session (Some "s1") empty_world).2 in
  ∃ w', save "campaign_result" (Model [("roi", VFloat (3 # 2))]) w = (Ok tt, w')
        ∧ get "campaign_result" VNone w' = (Ok (VDict [("roi", VFloat (3 # 2))]), w').
Proof.
  intros w. destruct store_roundtrip as (H & _).
  apply (H w "campaign_result" (Model [("roi", VFloat (3 # 2))]) VNone); [by eexists|done].
Defined.

(** Saving under the key ["updated_at"] does not read back: the stamp of
    the save overwrites the slot. *)
Lemma save_get_updated_at_counterexample :
  let w := (create_session (Some "s1") empty_world).2 in
  is_Some (session_id w)
  ∧ ∃ w', save "updated_at" (Plain (VInt 7)) w = (Ok tt, w')
          ∧ get "updated_at" VNone w' ≠ (Ok (plain (Plain (VInt 7))), w').
Proof.
  intros w. split; [by eexists|].
  destruct (save_open "updated_at" (Plain (VInt 7)) w) as (w' & Hsave & _); [by eexists|].
  exists w'. split; [done|].
  rewrite (save_then_get _ _ VNone w w' Hsave). simpl. intros [=].
Qed.

(** ** Brand-profile extraction *)

Lemma ToneOfVoice_of_value tone : ToneOfVoice_of (VStr (tone_value tone)) = Some tone.
Proof. by destruct tone. Qed.

Lemma ToneOfVoice_of_Some t tone : ToneOfVoice_of t = Some tone → t = VStr (tone_value tone).
Proof.
  destruct t; try discriminate. unfold ToneOfVoice_of. intros H.
  apply find_some in H as [_ H]. by apply String.eqb_eq in H as <-.
Qed.

Lemma tone_of_label_unrecognized t :
  (∀ tone, t ≠ VStr (tone_value tone)) → tone_of_label t = PROFESSIONAL.
Proof.
  intros H. unfold tone_of_label. destruct (ToneOfVoice_of t) as [tone|] eqn:Ht; [|done].
  apply ToneOfVoice_of_Some in Ht. by destruct (H tone).
Qed.

Lemma str_items_ok xs : forallb is_str xs = true → is_Some (str_items xs).
Proof.
  induction xs as [|x xs IH]; simpl; [by eexists|].
  intros [Hx Hxs]%andb_true_iff. destruct x; try discriminate.
  destruct (IH Hxs) as [l ->]. by eexists.
Qed.

Lemma field_str kvs key default cls :
  present_ok kvs key is_str = true →
  ∃ s, field kvs key default (valid_str cls) = Ok s ∧ (dict_get kvs key = None → s = default).
Proof.
  unfold present_ok, field. destruct (dict_get kvs key) as [v|]; [|by eexists].
  destruct v; try discriminate. intros _. by eexists.
Qed.

Lemma field_str_list kvs key cls :
  present_ok kvs key is_str_list = true →
  ∃ l, field kvs key [] (valid_str_list cls) = Ok l ∧ (dict_get kvs key = None → l = []).
Proof.
  unfold present_ok, field. destruct (dict_get kvs key) as [v|]; [|by eexists].
  destruct v; try discriminate. simpl. intros [l Hl]%str_items_ok. rewrite Hl. by eexists.
Qed.

Lemma field_dict kvs key cls :
  present_ok kvs key is_dict = true →
  ∃ d, field kvs key [] (valid_dict cls) = Ok d ∧ (dict_get kvs key = None → d = []).
Proof.
  unfold present_ok, field. destruct (dict_get kvs key) as [v|]; [|by eexists].
  destruct v; try discriminate. intros _. by eexists.
Qed.

Lemma TargetAudience_of_ok v :
  audience_ok v = true → ∃ a, TargetAudience_of v = Ok a ∧ (v = VDict [] → a = TargetAudience_default).
Proof.
  destruct v; try discriminate. simpl.
  intros [[[H1 H2]%andb_true_iff H3]%andb_true_iff H4]%andb_true_iff.
  destruct (field_dict _ _ "TargetAudience" H1) as (d1 & -> & E1).
  destruct (field_dict _ _ "TargetAudience" H2) as (d2 & -> & E2).
  destruct (field_str_list _ _ "TargetAudience" H3) as (l3 & -> & E3).
  destruct (field_str_list _ _ "TargetAudience" H4) as (l4 & -> & E4).
  simpl. eexists. split; [done|]. intros [= ->].
  by rewrite E1, E2, E3, E4.
Qed.

Lemma iterate_ok v : is_iterable v = true → ∃ items, iterate v = Ok items.
Proof. destruct v; try discriminate; by eexists. Qed.

(** C9: for every parsed document whose present fields have the JSON
    types the model declares, brand-profile extraction returns a profile:
    a tone label that is a recognized value gives that tone, any other
    label gives [PROFESSIONAL], and an omitted field takes its default
    (["Unknown"] for the brand name and the industry, the empty string or
    list elsewhere, [TargetAudience()] for the audience). *)
Theorem extract_brand_profile_total (kvs : list (string * value)) :
  document_well_typed kvs = true →
  ∃ profile, brand_profile_of_document (VDict kvs) = Ok profile
    ∧ (∀ v labels, dict_get kvs "tone_of_voice" = Some v → iterate v = Ok labels →
         length (bp_tone_of_voice profile) = length labels
         ∧ ∀ i t, labels !! i = Some t →
             (∀ tone, t = VStr (tone_value tone) → bp_tone_of_voice profile !! i = Some tone)
             ∧ ((∀ tone, t ≠ VStr (tone_value tone)) →
                bp_tone_of_voice profile !! i = Some PROFESSIONAL))
    ∧ (dict_get kvs "tone_of_voice" = None → bp_tone_of_voice profile = [PROFESSIONAL])
    ∧ (dict_get kvs "brand_name" = None → bp_brand_name profile = "Unknown")
    ∧ (dict_get kvs "industry" = None → bp_industry profile = "Unknown")
    ∧ (dict_get kvs "value_proposition" = None → bp_value_proposition profile = "")
    ∧ (dict_get kvs "key_messages" = None → bp_key_messages profile = [])
    ∧ (dict_get kvs "brand_keywords" = None → bp_brand_keywords profile = [])
    ∧ (dict_get kvs "competitors" = None → bp_competitors profile = [])
    ∧ (dict_get kvs "target_audience" = None →
         bp_target_audience profile = TargetAudience_default)
    ∧ bp_website_url profile = None.
Proof.
  unfold document_well_typed. repeat rewrite andb_true_iff.
  intros [[[[[[[Htone Haud] Hname] Hind] Hvp] Hkm] Hbk] Hco].
  unfold brand_profile_of_document.
  assert (∃ items, iterate (match dict_get kvs "tone_of_voice" with
                             | Some v => v | None => VList [VStr "professional"] end) = Ok items
           ∧ (∀ v labels, dict_get kvs "tone_of_voice" = Some v → iterate v = Ok labels →
                items = labels)
           ∧ (dict_get kvs "tone_of_voice" = None → items = [VStr "professional"]))
    as (items & -> & Hitems & Hnone).
  { unfold present_ok in Htone. destruct (dict_get kvs "tone_of_voice") as [v|].
    - destruct (iterate_ok _ Htone) as [items Hi]. exists items. split; [done|].
      split; [|done]. intros v' labels [= ->] Hl. congruence.
    - eexists. split; [done|]. split; [done|]. done. }
  assert (∃ a, TargetAudience_of (match dict_get kvs "target_audience" with
                                  | Some v => v | None => VDict [] end) = Ok a
           ∧ (dict_get kvs "target_audience" = None → a = TargetAudience_default))
    as (a & -> & Ha).
  { unfold present_ok in Haud. destruct (dict_get kvs "target_audience") as [v|].
    - destruct (TargetAudience_of_ok _ Haud) as (a & Ha & _). by exists a.
    - destruct (TargetAudience_of_ok (VDict []) eq_refl) as (a & Ha & Hd). exists a. auto. }
  destruct (field_str _ _ "Unknown" "BrandProfile" Hname) as (name & -> & Ename).
  destruct (field_str _ _ "Unknown" "BrandProfile" Hind) as (ind & -> & Eind).
  destruct (field_str _ _ "" "BrandProfile" Hvp) as (vp & -> & Evp).
  destruct (field_str_list _ _ "BrandProfile" Hkm) as (km & -> & Ekm).
  destruct (field_str_list _ _ "BrandProfile" Hbk) as (bk & -> & Ebk).
  destruct (field_str_list _ _ "BrandProfile" Hco) as (co & -> & Eco).
  simpl. eexists. split; [done|]. simpl.
  split; [|split; [by intros ->%Hnone|done]].
  intros v labels Hv Hlabels. rewrite (Hitems _ _ Hv Hlabels).
  split; [by rewrite length_map|]. intros i t Hi. rewrite list_lookup_fmap, Hi. simpl.
  split.
  - intros tone ->. unfold tone_of_label. by rewrite ToneOfVoice_of_value.
  - intros Hun. by rewrite tone_of_label_unrecognized.
Qed.

Lemma extract_brand_profile_total_witness :
  ∃ profile,
    brand_profile_of_document
      (VDict [("brand_name", VStr "Acme");
              ("tone_of_voice", VList [VStr "friendly"; VStr "zany"; VInt 3])]) = Ok profile
    ∧ bp_tone_of_voice profile = [FRIENDLY; PROFESSIONAL; PROFESSIONAL]
    ∧ bp_industry profile = "Unknown"
    ∧ bp_key_messages profile = [].
Proof.
  destruct (extract_brand_profile_total
              [("brand_name", VStr "Acme");
               ("tone_of_voice", VList [VStr "friendly"; VStr "zany"; VInt 3])] eq_refl)
    as (profile & Hp & Htones & _ & _ & Hind & _ & Hkm & _).
  exists profile. split; [exact Hp|].
  split; [|split; [by apply Hind | by apply Hkm]].
  destruct (Htones _ _ eq_refl eq_refl) as [Hlen Hat].
  destruct (Hat 0 _ eq_refl) as [H0 _]. specialize (H0 FRIENDLY eq_refl).
  destruct (Hat 1 _ eq_refl) as [_ H1]. 
  destruct (Hat 2 _ eq_refl) as [_ H2].
  assert (bp_tone_of_voice profile !! 1 = Some PROFESSIONAL) as H1' by (apply H1; by intros []).
  assert (bp_tone_of_voice profile !! 2 = Some PROFESSIONAL) as H2' by (apply H2; by intros []).
  destruct (bp_tone_of_voice profile) as [|a [|b [|c [|]]]]; simpl in *; try discriminate.
  congruence.
Defined.

(** Extraction is not total: a field that is present but null is not
    defaulted.  A null [tone_of_voice] stops the loop over the labels
    with [TypeError]; a null [competitors] is refused by the validation
    of [BrandProfile]. *)
Lemma extract_brand_profile_null_counterexample :
  brand_profile_of_document
    (VDict [("brand_name", VStr "Acme"); ("tone_of_voice", VNone)])
  = Raise (TypeError "object is not iterable")
  ∧ brand_profile_of_document
      (VDict [("brand_name", VStr "Acme"); ("competitors", VNone)])
    = Raise (ValidationError "BrandProfile").
Proof. split; reflexivity. Qed.

(** ** The campaign plan *)

Section platform_groups.

Implicit Types (groups : list (Platform * list ContentAsset)) (asset : ContentAsset).

Lemma add_asset_inhabited groups asset :
  inhabited_groups groups → inhabited_groups (add_asset groups asset).
Proof.
  unfold inhabited_groups. induction groups as [|[p l] rest IH]; simpl; intros H.
  - repeat constructor. done.
  - apply Forall_cons in H as [Hl Hrest]. case_decide.
    + constructor; [|done]. simpl. by destruct l.
    + constructor; [done|]. by apply IH.
Qed.

Lemma add_asset_key groups asset : ca_platform asset ∈ (add_asset groups asset).*1.
Proof.
  induction groups as [|[p l] rest IH]; simpl; [by left|].
  case_decide as Hp; simpl; [rewrite Hp; by left|by right].
Qed.

Lemma add_asset_keeps groups asset p : p ∈ groups.*1 → p ∈ (add_asset groups asset).*1.
Proof.
  induction groups as [|[q l] rest IH]; simpl; intros Hin; [by apply elem_of_nil in Hin|].
  apply elem_of_cons in Hin as [->|Hin]; case_decide; simpl;
    first [by left | right; by auto].
Qed.

Lemma fold_add_asset_inhabited assets groups :
  inhabited_groups groups → inhabited_groups (fold_left add_asset assets groups).
Proof.
  revert groups. induction assets as [|a assets IH]; simpl; [done|].
  intros groups H. by apply IH, add_asset_inhabited.
Qed.

Lemma fold_add_asset_keeps assets groups p :
  p ∈ groups.*1 → p ∈ (fold_left add_asset assets groups).*1.
Proof.
  revert groups. induction assets as [|a assets IH]; simpl; [done|].
  intros groups H. by apply IH, add_asset_keeps.
Qed.

Lemma fold_add_asset_key assets groups asset :
  asset ∈ assets → ca_platform asset ∈ (fold_left add_asset assets groups).*1.
Proof.
  revert groups. induction assets as [|a assets IH]; simpl; intros groups Hin.
  - by apply elem_of_nil in Hin.
  - apply elem_of_cons in Hin as [->|Hin]; [|by apply IH].
    apply fold_add_asset_keeps, add_asset_key.
Qed.

Lemma channel_strategies_loop_twitter brand_profile groups strategies :
  inhabited_groups groups → TWITTER ∈ groups.*1 →
  channel_strategies_loop brand_profile groups strategies = Raise (KeyError TWITTER).
Proof.
  revert strategies. induction groups as [|[p l] rest IH]; intros strategies Hne Hin.
  - by apply elem_of_nil in Hin.
  - apply Forall_cons in Hne as [Hl Hrest]. simpl in *.
    destruct l as [|selected l]; [done|].
    apply elem_of_cons in Hin as [<-|Hin]; [done|].
    destruct p; simpl; by auto.
Qed.

End platform_groups.

(** C10: ["twitter"] is a value of [Platform], the benchmark table has no
    entry for it, and whenever some content asset is for [TWITTER],
    building the campaign plan raises [KeyError] and so does
    [execute_campaign], before anything is asked of the services or
    stored. *)
Theorem twitter_asset_fails (E : env) (content_assets : list ContentAsset)
    (brand_profile : BrandProfile) (total_budget : Q) (target_kpis : gmap string Q)
    (w : world) :
  (∃ asset, asset ∈ content_assets ∧ ca_platform asset = TWITTER) →
  Platform_of (VStr "twitter") = Some TWITTER
  ∧ getitem channel_benchmarks TWITTER = None
  ∧ _create_campaign_plan E content_assets brand_profile total_budget target_kpis w
    = (Raise (KeyError TWITTER), w)
  ∧ execute_campaign E content_assets brand_profile total_budget target_kpis w
    = (Raise (KeyError TWITTER), log (EvInvoke "execute_campaign") w).
Proof.
  intros (asset & Hin & Hp).
  assert (channel_strategies_loop brand_profile (group_by_platform content_assets) []
          = Raise (KeyError TWITTER)) as Hloop.
  { apply channel_strategies_loop_twitter.
    - apply fold_add_asset_inhabited. constructor.
    - rewrite <- Hp. by apply fold_add_asset_key. }
  split; [done|]. split; [done|].
  assert (∀ w, _create_campaign_plan E content_assets brand_profile total_budget target_kpis w
               = (Raise (KeyError TWITTER), w)) as Hplan.
  { intros w'. unfold _create_campaign_plan, bind. by rewrite Hloop. }
  split; [apply Hplan|].
  unfold execute_campaign, bind, invoke, modify. by rewrite Hplan.
Qed.

Lemma twitter_asset_fails_witness :
  execute_campaign never_met [tweet] acme 1000 ∅ empty_world
  = (Raise (KeyError TWITTER), log (EvInvoke "execute_campaign") empty_world).
Proof.
  apply (twitter_asset_fails never_met [tweet] acme 1000 ∅ empty_world).
  exists tweet. split; [by left|done].
Defined.

(** ** The KPI predicate *)

Lemma Qltb_lt (x y : Q) : Qltb x y = true ↔ (x < y)%Q.
Proof. unfold Qltb, Qlt. apply Z.ltb_lt. Qed.

Lemma kpi_loop_cons performance kpi target rest :
  kpi_loop performance ((kpi, target) :: rest)
  = match actual_value performance kpi with
    | Some actual => Qltb actual target
    | None => false
    end || kpi_loop performance rest.
Proof.
  cbn [kpi_loop]. unfold actual_value.
  destruct (String.eqb_spec kpi "roi") as [->|_]; simpl;
    [by destruct (Qltb (pm_roi performance) target)|].
  destruct (String.eqb_spec kpi "conversions") as [->|_]; simpl;
    [by destruct (Qltb (inject_Z (pm_conversions performance)) target)|].
  destruct (String.eqb_spec kpi "ctr") as [->|_]; simpl;
    [by destruct (Qltb (pm_ctr performance) target)|].
  done.
Qed.

Lemma kpi_loop_true performance items :
  kpi_loop performance items = true ↔
  ∃ kpi target, (kpi, target) ∈ items ∧ below_target performance kpi target.
Proof.
  induction items as [|[kpi target] rest IH].
  - split; [discriminate|]. intros (k & t & Hin & _). by apply elem_of_nil in Hin.
  - rewrite kpi_loop_cons, orb_true_iff, IH. unfold below_target. split.
    + intros [Hhere|(k & t & Hin & Hb)].
      * exists kpi, target. split; [left|].
        destruct (actual_value performance kpi) as [actual|]; [|done].
        exists actual. split; [done|]. by apply Qltb_lt.
      * exists k, t. split; [by right|done].
    + intros (k & t & Hin & actual & Hact & Hlt). apply elem_of_cons in Hin as [Heq|Hin].
      * injection Heq as -> ->. left. rewrite Hact. by apply Qltb_lt.
      * right. exists k, t. split; [done|]. by exists actual.
Qed.

Lemma should_optimize_true campaign_result workflow_input :
  _should_optimize campaign_result workflow_input = true ↔
  ∃ kpi target, wi_target_kpis workflow_input !! kpi = Some target ∧
                below_target (cr_performance_metrics campaign_result) kpi target.
Proof.
  unfold _should_optimize. case_bool_decide as Hsize.
  - apply map_size_empty_iff in Hsize. rewrite Hsize. split; [discriminate|].
    intros (k & t & Hl & _). by rewrite lookup_empty in Hl.
  - rewrite kpi_loop_true. split; intros (k & t & H & Hb); exists k, t; split; try done.
    + by apply elem_of_map_to_list in H.
    + by apply elem_of_map_to_list.
Qed.

Lemma below_target_cases performance kpi target :
  below_target performance kpi target ↔
    ((kpi = "roi" ∧ (pm_roi performance < target)%Q) ∨
     (kpi = "conversions" ∧ (inject_Z (pm_conversions performance) < target)%Q) ∨
     (kpi = "ctr" ∧ (pm_ctr performance < target)%Q)).
Proof.
  unfold below_target, actual_value.
  destruct (String.eqb_spec kpi "roi") as [->|Hroi]; simpl.
  { split; [intros (a & [= <-] & ?); auto | intros [[_ ?]|[[[=] _]|[[=] _]]]; eauto]. }
  destruct (String.eqb_spec kpi "conversions") as [->|Hconv]; simpl.
  { split; [intros (a & [= <-] & ?); auto | intros [[[=] _]|[[_ ?]|[[=] _]]]; eauto]. }
  destruct (String.eqb_spec kpi "ctr") as [->|Hctr]; simpl.
  { split; [intros (a & [= <-] & ?); auto | intros [[[=] _]|[[[=] _]|[_ ?]]]; eauto]. }
  split; [by intros (a & [=] & _) | intros [[? _]|[[? _]|[? _]]]; done].
Qed.

(** C3: [_should_optimize] answers [True] exactly when some key of the
    target mapping is ["roi"], ["conversions"] or ["ctr"] with the actual
    value strictly below the target; adding a target under any other
    name does not change the answer; the empty mapping gives [False]. *)
Theorem should_optimize_spec (campaign_result : CampaignResult) (workflow_input : WorkflowInput) :
  let performance := cr_performance_metrics campaign_result in
  (_should_optimize campaign_result workflow_input = true ↔
     ∃ kpi target, wi_target_kpis workflow_input !! kpi = Some target ∧
       ((kpi = "roi" ∧ (pm_roi performance < target)%Q) ∨
        (kpi = "conversions" ∧ (inject_Z (pm_conversions performance) < target)%Q) ∨
        (kpi = "ctr" ∧ (pm_ctr performance < target)%Q)))
  ∧ (∀ kpi target, kpi ∉ ["roi"; "conversions"; "ctr"] →
       _should_optimize campaign_result
         (with_target_kpis (<[kpi := target]> (wi_target_kpis workflow_input)) workflow_input)
       = _should_optimize campaign_result workflow_input)
  ∧ _should_optimize campaign_result (with_target_kpis ∅ workflow_input) = false.
Proof.
  intros performance. split; [|split].
  - rewrite should_optimize_true. by setoid_rewrite below_target_cases.
  - intros kpi target Hnot. apply Bool.eq_iff_eq_true.
    rewrite !should_optimize_true. simpl.
    split; intros (k & t & Hl & Hb); exists k, t; (split; [|done]).
    + rewrite lookup_insert_ne in Hl; [done|]. intros <-.
      apply below_target_cases in Hb. apply Hnot.
      destruct Hb as [[-> _]|[[-> _]|[-> _]]]; set_solver.
    + rewrite lookup_insert_ne; [done|]. intros <-.
      apply below_target_cases in Hb. apply Hnot.
      destruct Hb as [[-> _]|[[-> _]|[-> _]]]; set_solver.
  - unfold _should_optimize. simpl. by rewrite map_size_empty.
Qed.

(** ** The retry wrapper *)

(** Counting in the trace. *)
Lemma invocations_log_invoke name w :
  invocations name (log (EvInvoke name) w) = S (invocations name w).
Proof.
  unfold invocations, log; cbn [trace].
  rewrite filter_app, length_app, filter_cons_True by done. simpl. lia.
Qed.

Lemma invocations_log_sleep name secs w :
  invocations name (log (EvSleep secs) w) = invocations name w.
Proof.
  unfold invocations, log; cbn [trace].
  rewrite filter_app, length_app, filter_cons_False by done. simpl. lia.
Qed.

Lemma invocations_set_clock name f w : invocations name (set_clock f w) = invocations name w.
Proof. done. Qed.

Lemma sleeps_log_invoke name w : sleeps (log (EvInvoke name) w) = sleeps w.
Proof. unfold sleeps, log; simpl. rewrite omap_app. simpl. by rewrite app_nil_r. Qed.

Lemma sleeps_log_sleep secs w : sleeps (log (EvSleep secs) w) = sleeps w ++ [secs].
Proof. unfold sleeps, log; simpl. by rewrite omap_app. Qed.

Lemma sleeps_set_clock f w : sleeps (set_clock f w) = sleeps w.
Proof. done. Qed.

Section retry.

Context {A : Type} (name : string) (script : nat → outcome A) (max_retries : Z).

Lemma retry_loop_succeeds (k : nat) (v : A) :
  ∀ attempt remaining last_error w,
    Z.of_nat (attempt + remaining) = max_retries → k < remaining →
    (∀ i, i < k → ∃ e, script (invocations name w + i) = Raise e) →
    script (invocations name w + k) = Ok v →
    ∃ w', retry_loop (scripted name script) max_retries attempt remaining last_error w
          = (Ok v, w')
      ∧ invocations name w' = invocations name w + k + 1
      ∧ sleeps w' = sleeps w ++ backoff attempt k.
Proof.
  induction k as [|k IH]; intros attempt remaining last_error w Hsum Hlt Hfail Hok.
  - destruct remaining as [|remaining]; [lia|]. simpl. unfold scripted at 1.
    rewrite Nat.add_0_r in Hok. rewrite Hok. eexists. split; [done|].
    rewrite invocations_log_invoke, sleeps_log_invoke. unfold backoff; simpl.
    split; [lia|by rewrite app_nil_r].
  - destruct remaining as [|remaining]; [lia|]. simpl. unfold scripted at 1.
    destruct (Hfail 0 ltac:(lia)) as [e He]. rewrite Nat.add_0_r in He. rewrite He.
    unfold bind at 1.
    assert ((Z.of_nat attempt <? max_retries - 1)%Z = true) as -> by (apply Z.ltb_lt; lia).
    unfold sleep, modify.
    set (w1 := set_clock _ (log (EvSleep (2 ^ attempt)) (log (EvInvoke name) w))).
    assert (invocations name w1 = S (invocations name w)) as Hinv.
    { unfold w1. by rewrite invocations_set_clock, invocations_log_sleep,
        invocations_log_invoke. }
    assert (sleeps w1 = sleeps w ++ [2 ^ attempt]) as Hsl.
    { unfold w1. by rewrite sleeps_set_clock, sleeps_log_sleep, sleeps_log_invoke. }
    destruct (IH (S attempt) remaining (Some e) w1) as (w' & Hrun & Hcount & Hsleeps).
    + lia.
    + lia.
    + intros i Hi. rewrite Hinv. replace (S (invocations name w) + i)
        with (invocations name w + S i) by lia. apply Hfail. lia.
    + rewrite Hinv. by replace (S (invocations name w) + k)
        with (invocations name w + S k) by lia.
    + exists w'. split; [exact Hrun|]. rewrite Hcount, Hsleeps, Hinv, Hsl.
      split; [lia|]. unfold backoff. simpl. by rewrite <- app_assoc.
Qed.

Lemma retry_loop_exhausted :
  ∀ remaining attempt last_error w e_last,
    Z.of_nat (attempt + remaining) = max_retries →
    (∀ i, i < remaining → ∃ e, script (invocations name w + i) = Raise e) →
    match remaining with
    | O => last_error = Some e_last
    | S r => script (invocations name w + r) = Raise e_last
    end →
    ∃ w', retry_loop (scripted name script) max_retries attempt remaining last_error w
          = (Raise e_last, w')
      ∧ invocations name w' = invocations name w + remaining
      ∧ sleeps w' = sleeps w ++ backoff attempt (remaining - 1).
Proof.
  induction remaining as [|remaining IH]; intros attempt last_error w e_last Hsum Hfail Hlast.
  - simpl. rewrite Hlast. eexists. split; [done|]. unfold backoff. simpl.
    split; [lia|by rewrite app_nil_r].
  - simpl. unfold scripted at 1.
    destruct (Hfail 0 ltac:(lia)) as [e He]. rewrite Nat.add_0_r in He. rewrite He.
    unfold bind at 1.
    destruct remaining as [|remaining].
    + assert ((Z.of_nat attempt <? max_retries - 1)%Z = false) as ->
        by (apply Z.ltb_ge; lia).
      rewrite Nat.add_0_r in Hlast. rewrite He in Hlast. injection Hlast as ->.
      simpl. eexists. split; [done|]. rewrite invocations_log_invoke, sleeps_log_invoke.
      unfold backoff. simpl. split; [lia|by rewrite app_nil_r].
    + assert ((Z.of_nat attempt <? max_retries - 1)%Z = true) as ->
        by (apply Z.ltb_lt; lia).
      unfold sleep, modify.
      set (w1 := set_clock _ (log (EvSleep (2 ^ attempt)) (log (EvInvoke name) w))).
      assert (invocations name w1 = S (invocations name w)) as Hinv.
      { unfold w1. by rewrite invocations_set_clock, invocations_log_sleep,
          invocations_log_invoke. }
      assert (sleeps w1 = sleeps w ++ [2 ^ attempt]) as Hsl.
      { unfold w1. by rewrite sleeps_set_clock, sleeps_log_sleep, sleeps_log_invoke. }
      destruct (IH (S attempt) (Some e) w1 e_last) as (w' & Hrun & Hcount & Hsleeps).
      * lia.
      * intros i Hi. rewrite Hinv. replace (S (invocations name w) + i)
          with (invocations name w + S i) by lia. apply Hfail. lia.
      * rewrite Hinv. by replace (S (invocations name w) + remaining)
          with (invocations name w + S remaining) by lia.
      * exists w'. split; [exact Hrun|]. rewrite Hcount, Hsleeps, Hinv, Hsl.
        split; [lia|]. replace (S (S remaining) - 1) with (S remaining) by lia.
        replace (S remaining - 1) with remaining by lia.
        unfold backoff. simpl. by rewrite <- app_assoc.
Qed.

End retry.

(** C2: for a bound of at least 1, an operation that fails [k] times,
    [k] below the bound, and then succeeds makes [_execute_with_retry]
    return the success value after exactly [k + 1] invocations, having
    slept [2 ^ attempt] seconds after each failed attempt [0 .. k - 1]; an
    operation that fails every time is invoked exactly [max_retries]
    times, with a sleep after each attempt but the last, and the failure
    of the last attempt is raised. *)
Theorem execute_with_retry_spec {A : Type} (name : string) (script : nat → outcome A)
    (max_retries : Z) (w : world) :
  (1 ≤ max_retries)%Z →
  let before := invocations name w in
  (∀ (k : nat) (v : A),
      (Z.of_nat k < max_retries)%Z →
      (∀ i, i < k → ∃ e, script (before + i) = Raise e) →
      script (before + k) = Ok v →
      ∃ w', _execute_with_retry (scripted name script) max_retries w = (Ok v, w')
        ∧ invocations name w' = before + k + 1
        ∧ sleeps w' = sleeps w ++ map (fun attempt => 2 ^ attempt) (seq 0 k))
  ∧ (∀ e_last,
      (∀ i, (Z.of_nat i < max_retries)%Z → ∃ e, script (before + i) = Raise e) →
      script (before + (Z.to_nat max_retries - 1)) = Raise e_last →
      ∃ w', _execute_with_retry (scripted name script) max_retries w = (Raise e_last, w')
        ∧ invocations name w' = before + Z.to_nat max_retries
        ∧ sleeps w' = sleeps w
                      ++ map (fun attempt => 2 ^ attempt) (seq 0 (Z.to_nat max_retries - 1))).
Proof.
  intros Hmax before. split.
  - intros k v Hk Hfail Hok. unfold _execute_with_retry.
    apply (retry_loop_succeeds name script max_retries k v); [lia|lia|done|done].
  - intros e_last Hfail Hlast. unfold _execute_with_retry.
    apply (retry_loop_exhausted name script max_retries); [lia| |].
    + intros i Hi. apply Hfail. lia.
    + destruct (Z.to_nat max_retries) as [|r] eqn:Hr; [lia|].
      by replace (S r - 1) with r in Hlast by lia.
Qed.

Lemma execute_with_retry_spec_witness :
  (∃ w', _execute_with_retry (scripted "op" flaky) 3 empty_world = (Ok 42, w')
         ∧ invocations "op" w' = 3 ∧ sleeps w' = [1; 2])
  ∧ (∃ w', _execute_with_retry (scripted "op" hopeless) 3 empty_world
           = (Raise (Exn "APIError" "failure 2"), w')
           ∧ invocations "op" w' = 3 ∧ sleeps w' = [1; 2]).
Proof.
  split.
  - destruct (execute_with_retry_spec "op" flaky 3 empty_world ltac:(lia)) as [H _].
    destruct (H 2 42) as (w' & Hrun & Hinv & Hsl).
    + simpl. lia.
    + intros i Hi. exists boom. destruct i as [|[|i]]; [done|done|lia].
    + done.
    + exists w'. split; [exact Hrun|]. split; [exact Hinv|exact Hsl].
  - destruct (execute_with_retry_spec "op" hopeless 3 empty_world ltac:(lia)) as [_ H].
    destruct (H (Exn "APIError" "failure 2")) as (w' & Hrun & Hinv & Hsl).
    + intros i _. by eexists.
    + by vm_compute.
    + exists w'. split; [exact Hrun|]. split; [exact Hinv|exact Hsl].
Defined.

(** ** The workflow *)

(** *** The retry wrapper around a stage *)

Lemma stable_retry_loop {A} (func : M world A) max_retries remaining :
  stable func → ∀ attempt last_error,
    stable (retry_loop func max_retries attempt remaining last_error).
Proof.
  intros Hf. induction remaining as [|remaining IH]; intros attempt last_error w; simpl.
  - destruct last_error; apply later_refl.
  - specialize (Hf w). destruct (func w) as [[a|e] w1]; simpl in *; [done|].
    eapply later_trans; [exact Hf|]. apply stable_bind; [|intros; apply IH].
    destruct (_ <? _)%Z; [apply stable_sleep|apply quiet_stable, quiet_ret].
Qed.

Lemma stable_execute_with_retry {A} (func : M world A) max_retries :
  stable func → stable (_execute_with_retry func max_retries).
Proof. intros. by apply stable_retry_loop. Qed.

(** With the default bound the wrapper gives up only after the two
    waits of 1 and 2 seconds. *)
Lemma execute_with_retry_gives_up {A} (func : M world A) w e w' :
  stable func → _execute_with_retry func 3 w = (Raise e, w') →
  (clock w + 3000000 ≤ clock w')%N.
Proof.
  intros Hf. unfold _execute_with_retry. simpl.
  pose proof (Hf w) as [_ H1]. destruct (func w) as [[a|e1] w1]; [done|].
  unfold bind at 1. unfold sleep at 1, modify. simpl in *.
  set (w1' := set_clock _ (log _ w1)).
  pose proof (Hf w1') as [_ H2]. destruct (func w1') as [[a|e2] w2]; [done|].
  unfold bind at 1. unfold sleep at 1, modify. simpl in *.
  set (w2' := set_clock _ (log _ w2)).
  pose proof (Hf w2') as [_ H3]. destruct (func w2') as [[a|e3] w3]; [done|].
  unfold bind, ret, raise. simpl in *. intros [= _ <-]. lia.
Qed.

(** *** The stages *)

Lemma refine_strategy_run analysis feedback w :
  refine_strategy analysis feedback w = (Ok analysis, log (EvInvoke "refine_strategy") w).
Proof. reflexivity. Qed.

Lemma agent_call_stable {A} f key fields (m : M world A) :
  agent_call f key fields m → stable m.
Proof. intros H w. specialize (H w). destruct (m w). simpl. apply H. Qed.

Lemma stable_stage_brand_analysis E inp : stable (_stage_brand_analysis E inp).
Proof.
  apply stable_bind; [apply stable_invoke|intros].
  eapply agent_call_stable, analyze_brand_call.
Qed.

Lemma stable_stage_content_generation E ba inp :
  stable (_stage_content_generation E ba inp).
Proof.
  apply stable_bind; [apply stable_invoke|intros].
  eapply agent_call_stable, generate_content_call.
Qed.

Lemma stable_stage_campaign_execution E cg ba inp :
  stable (_stage_campaign_execution E cg ba inp).
Proof.
  apply stable_bind; [apply stable_invoke|intros].
  eapply agent_call_stable, execute_campaign_call.
Qed.

(** A stage [f] around the agent call [g]: both entries are logged, in
    this order, however the call ends. *)
Lemma stage_trace {A} f g key fields (m : M world A) w :
  agent_call g key fields m →
  trace ((do* invoke f in m) w).2 = trace w ++ [EvInvoke f; EvInvoke g].
Proof.
  intros H. unfold bind, invoke, modify. specialize (H (log (EvInvoke f) w)).
  destruct (m _) as [o w']. destruct H as (_ & Htr & _). simpl in *.
  rewrite Htr. by rewrite <- app_assoc.
Qed.

(** *** State transitions *)

Lemma set_workflow_state_open st w :
  is_Some (session_id w) →
  ∃ w', set_workflow_state st w = (Ok tt, w')
    ∧ session_id w' = session_id w ∧ clock w' = clock w
    ∧ trace w' = trace w ++ [EvMirror st]
    ∧ memory w' = <["updated_at" := VStr (isoformat (clock w))]>
                    (<["workflow_state" := VStr st]> (memory w)).
Proof.
  intros Hs. unfold set_workflow_state, bind, modify.
  destruct (save_open "workflow_state" (Plain (VStr st)) (log (EvMirror st) w) Hs)
    as (w' & -> & Hsid & Hc & Htr & Hm & _).
  by exists w'.
Qed.

Lemma entered_open st w :
  is_Some (session_id w) →
  set_workflow_state (state_value st) (log (EvState st) w) = (Ok tt, entered st w)
  ∧ session_id (entered st w) = session_id w ∧ clock (entered st w) = clock w
  ∧ trace (entered st w) = trace w ++ [EvState st; EvMirror (state_value st)]
  ∧ memory (entered st w)
    = <["updated_at" := VStr (isoformat (clock w))]>
        (<["workflow_state" := VStr (state_value st)]> (memory w)).
Proof.
  intros Hs. unfold entered.
  destruct (set_workflow_state_open (state_value st) (log (EvState st) w) Hs)
    as (w' & -> & Hsid & Hc & Htr & Hm).
  simpl. repeat split; try done. rewrite Htr. simpl. by rewrite <- app_assoc.
Qed.

Lemma enter_state_open st r w :
  is_Some (session_id w) → enter_state st (r, w) = (Ok tt, (set_state st r, entered st w)).
Proof.
  intros Hs. unfold enter_state, bind, modify, lift. simpl.
  by destruct (entered_open st w Hs) as (-> & _).
Qed.

(** *** The local result object *)

Lemma wlater_refl s : wlater s s.
Proof. split; [apply later_refl|done]. Qed.

Lemma wlater_trans s1 s2 s3 : wlater s1 s2 → wlater s2 s3 → wlater s1 s3.
Proof.
  intros (L1 & E1 & P1) (L2 & E2 & P2).
  split; [by eapply later_trans|]. split; [congruence|auto].
Qed.

Lemma wstable_ret {A} (a : A) : wstable (ret a).
Proof. intros s. apply wlater_refl. Qed.

Lemma wstable_bind {A B} (m : M wstate A) (k : A → M wstate B) :
  wstable m → (∀ a, wstable (k a)) → wstable (bind m k).
Proof.
  intros Hm Hk s. unfold bind. specialize (Hm s). destruct (m s) as [[a|e] s1]; simpl in *.
  - eapply wlater_trans; [exact Hm|apply Hk].
  - done.
Qed.

Lemma wstable_lift {A} (m : M world A) : stable m → wstable (lift m).
Proof.
  intros Hm [r w]. unfold lift. simpl. specialize (Hm w). destruct (m w) as [o w'].
  by split.
Qed.

Lemma wstable_set_state st :
  wstable (modify (fun s : wstate => (set_state st s.1, log (EvState st) s.2))).
Proof. intros [r w]. split; [split; simpl; [done|lia]|done]. Qed.

Lemma wstable_enter_state st : wstable (enter_state st).
Proof.
  apply wstable_bind; [apply wstable_set_state|intros].
  apply wstable_lift, stable_set_workflow_state.
Qed.

Lemma wstable_set_brand_analysis x : wstable (update_result (set_brand_analysis x)).
Proof.
  intros [r w]. split; [apply later_refl|]. split; [done|].
  intros (_ & ? & ?). by repeat split.
Qed.

Lemma wstable_set_content_generation x : wstable (update_result (set_content_generation x)).
Proof.
  intros [r w]. split; [apply later_refl|]. split; [done|].
  intros (? & _ & ?). by repeat split.
Qed.

Lemma wstable_set_campaign_result x : wstable (update_result (set_campaign_result x)).
Proof.
  intros [r w]. split; [apply later_refl|]. split; [done|].
  intros (? & ? & _). by repeat split.
Qed.

#[local] Hint Resolve wstable_ret wstable_lift wstable_set_state wstable_enter_state wstable_set_brand_analysis
  wstable_set_content_generation wstable_set_campaign_result
  stable_execute_with_retry stable_stage_brand_analysis stable_stage_content_generation
  stable_stage_campaign_execution : footprint.

Ltac wfootprint :=
  repeat first
    [ solve [eauto with footprint]
    | apply wstable_bind; [|intros] ].

Lemma stable_refine_strategy analysis feedback : stable (refine_strategy analysis feedback).
Proof. intros w. split; simpl; [done|lia]. Qed.

Lemma stable_generate_content E bp brief platforms n :
  stable (generate_content E bp brief platforms n).
Proof. eapply agent_call_stable, generate_content_call. Qed.

Lemma stable_execute_campaign E assets bp budget kpis :
  stable (execute_campaign E assets bp budget kpis).
Proof. eapply agent_call_stable, execute_campaign_call. Qed.

#[local] Hint Resolve stable_refine_strategy stable_generate_content
  stable_execute_campaign : footprint.

Lemma wstable_run_stages E inp : wstable (run_stages E inp).
Proof. unfold run_stages. wfootprint. Qed.

Lemma wstable_feedback_iteration E inp ba cr : wstable (feedback_iteration E inp ba cr).
Proof. unfold feedback_iteration. wfootprint. Qed.

Lemma wstable_feedback_loop E inp ba cr rounds : wstable (feedback_loop E inp ba cr rounds).
Proof.
  induction rounds as [|rounds IH]; simpl; [apply wstable_ret|].
  apply wstable_bind; [apply wstable_feedback_iteration|].
  intros [|]; [apply IH|apply wstable_ret].
Qed.

(** When the three stages return, their results are in [result]. *)
Lemma run_stages_populated E inp s ba cg cr s' :
  run_stages E inp s = (Ok (ba, cg, cr), s') →
  wr_brand_analysis s'.1 = Some ba ∧ wr_content_generation s'.1 = Some cg
  ∧ wr_campaign_result s'.1 = Some cr.
Proof.
  unfold run_stages, bind, update_result, modify, ret, lift.
  destruct (enter_state ANALYZING_BRAND s) as [[?|?] [r1 w1]]; [|done]. simpl.
  destruct (_execute_with_retry _ 3 w1) as [[ba'|?] w2]; [|done]. simpl.
  destruct (enter_state GENERATING_CONTENT _) as [[?|?] [r3 w3]] eqn:H3; [|done]. simpl.
  destruct (_execute_with_retry _ 3 w3) as [[cg'|?] w4]; [|done]. simpl.
  destruct (enter_state EXECUTING_CAMPAIGN _) as [[?|?] [r5 w5]] eqn:H5; [|done]. simpl.
  destruct (_execute_with_retry _ 3 w5) as [[cr'|?] w6]; [|done]. simpl.
  intros [= <- <- <- <-]. simpl.
  unfold enter_state, bind, modify, lift in H3, H5. simpl in *.
  destruct (set_workflow_state _ _) as [[?|?] ?] in H3; simplify_eq/=.
  destruct (set_workflow_state _ _) as [[?|?] ?] in H5; simplify_eq/=.
  done.
Qed.

(** *** The whole call *)

Lemma start_workflow_run E w :
  ∃ r0 w0, start_workflow E w = (Ok r0, w0)
    ∧ is_Some (session_id w0)
    ∧ wr_started_at r0 = clock w0 ∧ (clock w ≤ clock w0)%N
    ∧ trace w0 = trace w ++ [EvState PENDING]
    ∧ wr_state r0 = PENDING
    ∧ wr_brand_analysis r0 = None ∧ wr_content_generation r0 = None
    ∧ wr_campaign_result r0 = None
    ∧ wr_error_message r0 = None ∧ wr_completed_at r0 = None.
Proof.
  eexists _, _. split; [reflexivity|]. simpl.
  split; [by eexists|]. split; [done|]. split; [lia|]. done.
Qed.

(** When the body of the [try] returns, [result] is complete. *)
Lemma try_body_returns self E inp s s' :
  try_body self E inp s = (Ok tt, s') →
  wr_state s'.1 = COMPLETED
  ∧ populated s'.1
  ∧ wr_started_at s'.1 = wr_started_at s.1
  ∧ ∃ t, wr_completed_at s'.1 = Some t ∧ (clock s.2 ≤ t)%N.
Proof.
  unfold try_body, bind at 1.
  pose proof (wstable_run_stages E inp s) as Hstages.
  destruct (run_stages E inp s) as [[[[ba cg] cr]|e] s1] eqn:Hrun; [|done].
  apply run_stages_populated in Hrun as (Hba & Hcg & Hcr). simpl in Hstages.
  assert (populated s1.1) as Hpop by (unfold populated; rewrite Hba, Hcg, Hcr; eauto).
  unfold bind at 1. simpl.
  match goal with
  | |- context [(if ?c then ?a else ?b) s1] =>
      assert (wstable (if c then a else b)) as Hloop
        by (destruct c; [apply wstable_feedback_loop|apply wstable_ret]);
      specialize (Hloop s1);
      destruct ((if c then a else b) s1) as [[[]|e] [r2 w2]]; [|done]
  end.
  simpl in Hloop.
  destruct (wlater_trans _ _ _ Hstages Hloop) as ([_ Hclock] & Hstart & _).
  destruct Hloop as (_ & _ & Hpop2). specialize (Hpop2 Hpop).
  unfold bind, modify, lift, now, gets, update_result, modify. simpl.
  destruct (set_workflow_state _ _) as [[[]|e] w3]; [|done].
  intros [= <-]. simpl in *. repeat split; try apply Hpop2; try done.
  eexists. split; [done|]. done.
Qed.

Lemma try_body_raises self E inp s e s' :
  try_body self E inp s = (Raise e, s') →
  later s.2 s'.2 ∧ wr_started_at s'.1 = wr_started_at s.1.
Proof.
  assert (wstable (try_body self E inp)) as H.
  { unfold try_body. apply wstable_bind; [apply wstable_run_stages|intros].
    apply wstable_bind.
    { destruct (_ && _); [apply wstable_feedback_loop|apply wstable_ret]. }
    intros. apply wstable_bind; [apply wstable_set_state|intros].
    apply wstable_bind; [apply wstable_lift, quiet_stable, quiet_now|intros].
    apply wstable_bind; [|intros; apply wstable_lift, stable_set_workflow_state].
    intros [r w]. split; [apply later_refl|]. by split. }
  intros Hrun. specialize (H s). rewrite Hrun in H. destruct H as (? & ? & _). done.
Qed.

(** The handler: [FAILED], the message and the completion time. *)
Lemma on_exception_run e s :
  ∃ e' r w', on_exception e s = (Raised e' r, w')
    ∧ wr_state r = FAILED
    ∧ wr_error_message r = Some (exn_str e)
    ∧ wr_completed_at r = Some (clock s.2)
    ∧ wr_started_at r = wr_started_at s.1
    ∧ (is_Some (session_id s.2) →
         e' = e ∧ trace w' = trace s.2 ++ [EvState FAILED; EvMirror "failed"]
         ∧ memory w' = <["updated_at" := VStr (isoformat (clock s.2))]>
                         (<["workflow_state" := VStr "failed"]> (memory s.2))).
Proof.
  unfold on_exception.
  destruct (set_workflow_state _ _) as [[[]|e'] w'] eqn:Hset.
  - eexists e, _, w'. split; [reflexivity|]. do 4 (split; [done|]). intros Hs.
    destruct (entered_open FAILED s.2 Hs) as (Hrun & _ & _ & Htr & Hm).
    rewrite Hset in Hrun. by injection Hrun as ->.
  - eexists e', _, w'. split; [reflexivity|]. do 4 (split; [done|]). intros Hs.
    destruct (entered_open FAILED s.2 Hs) as (Hrun & _). by rewrite Hset in Hrun.
Qed.

(** How [execute_workflow] ends, read off the body of the [try]. *)
Lemma execute_workflow_ends self E inp w :
  ∃ r0 w0, start_workflow E w = (Ok r0, w0)
    ∧ match try_body self E inp (r0, w0) with
      | (Ok _, s') => execute_workflow self E inp w = (Returned s'.1, s'.2)
      | (Raise e, s') => execute_workflow self E inp w = on_exception e s'
      end.
Proof.
  destruct (start_workflow_run E w) as (r0 & w0 & Hstart & _).
  exists r0, w0. split; [done|]. unfold execute_workflow. rewrite Hstart.
  by destruct (try_body self E inp (r0, w0)) as [[[]|e] [r' w']].
Qed.

(** C5: whatever [WorkflowResult] a call leaves behind, returned or
    abandoned by a raise: in state [COMPLETED] the three stage results
    are present; in state [FAILED] the error message is present and the
    completion time is present and not before the start time. *)
Theorem workflow_result_invariant (self : config) (E : env) (workflow_input : WorkflowInput)
    (w : world) (result : WorkflowResult) :
  result_of (execute_workflow self E workflow_input w).1 = Some result →
  (wr_state result = COMPLETED →
     is_Some (wr_brand_analysis result) ∧ is_Some (wr_content_generation result)
     ∧ is_Some (wr_campaign_result result))
  ∧ (wr_state result = FAILED →
       is_Some (wr_error_message result)
       ∧ ∃ t, wr_completed_at result = Some t ∧ (wr_started_at result ≤ t)%N).
Proof.
  destruct (start_workflow_run E w) as (r0 & w0 & Hstart & _ & Hstarted & _).
  destruct (execute_workflow_ends self E workflow_input w) as (r0' & w0' & Hstart' & Hend).
  rewrite Hstart in Hstart'. injection Hstart' as <- <-.
  destruct (try_body self E workflow_input (r0, w0)) as [[[]|e] s'] eqn:Hbody.
  - rewrite Hend. simpl. intros [= <-].
    apply try_body_returns in Hbody as (Hst & Hpop & _). split; [done|].
    rewrite Hst. done.
  - apply try_body_raises in Hbody as ([_ Hclock] & Hsame). simpl in *.
    destruct (on_exception_run e s') as (e' & r & w' & Hrun & Hst & Herr & Hdone & Hstart0 & _).
    rewrite Hend, Hrun. simpl. intros [= <-]. split; [by rewrite Hst|].
    intros _. rewrite Herr. split; [by eexists|]. exists (clock s'.2). split; [done|].
    rewrite Hstart0, Hsame, Hstarted. done.
Qed.

(** *** The run stage by stage *)

Section stage_by_stage.

Context (self : config) (E : env) (inp : WorkflowInput).

Lemma raise_ends_failed w r0 w0 e r' w' :
  start_workflow E w = (Ok r0, w0) →
  try_body self E inp (r0, w0) = (Raise e, (r', w')) →
  (clock w0 < clock w')%N →
  ends_failed self E inp w e w'.
Proof.
  intros Hstart Hbody Hclock.
  destruct (start_workflow_run E w) as (r0' & w0' & Hstart' & Hs0 & Hstarted & _).
  rewrite Hstart in Hstart'. injection Hstart' as <- <-.
  destruct (execute_workflow_ends self E inp w) as (r0' & w0' & Hstart' & Hend).
  rewrite Hstart in Hstart'. injection Hstart' as <- <-. rewrite Hbody in Hend.
  apply try_body_raises in Hbody as ([Hsid _] & Hsame). simpl in *.
  destruct (on_exception_run e (r', w'))
    as (e' & r & w'' & Hrun & Hst & Herr & Hdone & Hstart0 & Hopen).
  destruct Hopen as (-> & Htr & Hm); [simpl; by rewrite Hsid|].
  exists r, w''. rewrite Hend. split; [done|]. split; [done|]. split; [done|].
  split; [|split; [done|]].
  - exists (clock w'). split; [done|]. rewrite Hstart0. simpl. by rewrite Hsame, Hstarted.
  - rewrite Hm. simpl. rewrite lookup_insert_ne by done. by rewrite lookup_insert_eq.
Qed.

Lemma try_body_raise_in_stages s e s' :
  run_stages E inp s = (Raise e, s') → try_body self E inp s = (Raise e, s').
Proof. intros H. unfold try_body, bind at 1. by rewrite H. Qed.

Lemma retry_keeps_session {A} (func : M world A) st w o w' :
  stable func → is_Some (session_id w) →
  _execute_with_retry func 3 (entered st w) = (o, w') →
  is_Some (session_id w') ∧ (clock w ≤ clock w')%N.
Proof.
  intros Hf Hs Hrun.
  pose proof (stable_execute_with_retry func 3 Hf (entered st w)) as [Hsid Hclock].
  rewrite Hrun in Hsid, Hclock. simpl in *.
  destruct (entered_open st w Hs) as (_ & Hsid' & Hclock' & _).
  rewrite Hsid, Hsid'. split; [done|]. by rewrite <- Hclock'.
Qed.

(** With a session open, [run_stages] is the three wrapped stages, each
    entered from the world its state was mirrored in. *)
Lemma run_stages_open r w :
  is_Some (session_id w) →
  run_stages E inp (r, w) =
    match _execute_with_retry (_stage_brand_analysis E inp) 3
            (entered ANALYZING_BRAND w) with
    | (Raise e, w') => (Raise e, (set_state ANALYZING_BRAND r, w'))
    | (Ok ba, w2) =>
        let r2 := set_brand_analysis ba (set_state ANALYZING_BRAND r) in
        match _execute_with_retry (_stage_content_generation E ba inp) 3
                (entered GENERATING_CONTENT w2) with
        | (Raise e, w') => (Raise e, (set_state GENERATING_CONTENT r2, w'))
        | (Ok cg, w3) =>
            let r3 := set_content_generation cg (set_state GENERATING_CONTENT r2) in
            match _execute_with_retry (_stage_campaign_execution E cg ba inp) 3
                    (entered EXECUTING_CAMPAIGN w3) with
            | (Raise e, w') => (Raise e, (set_state EXECUTING_CAMPAIGN r3, w'))
            | (Ok cr, w4) =>
                (Ok (ba, cg, cr),
                 (set_campaign_result cr (set_state EXECUTING_CAMPAIGN r3), w4))
            end
        end
    end.
Proof.
  intros Hs. unfold run_stages, bind at 1. rewrite enter_state_open by done.
  unfold bind at 1, lift at 1. simpl.
  destruct (_execute_with_retry _ 3 (entered ANALYZING_BRAND w)) as [[ba|e] w2] eqn:H1;
    [|done].
  apply retry_keeps_session in H1 as [Hs2 _];
    [|apply stable_stage_brand_analysis|done].
  unfold bind at 1, update_result at 1, modify at 1. simpl.
  unfold bind at 1. rewrite enter_state_open by done.
  unfold bind at 1, lift at 1. simpl.
  destruct (_execute_with_retry _ 3 (entered GENERATING_CONTENT w2)) as [[cg|e] w3] eqn:H2;
    [|done].
  apply retry_keeps_session in H2 as [Hs3 _];
    [|apply stable_stage_content_generation|done].
  unfold bind at 1, update_result at 1, modify at 1. simpl.
  unfold bind at 1. rewrite enter_state_open by done.
  unfold bind at 1, lift at 1. simpl.
  by destruct (_execute_with_retry _ 3 (entered EXECUTING_CAMPAIGN w3)) as [[cr|e] w4].
Qed.

End stage_by_stage.

(** The trace of a stage behind the retry wrapper. *)
Lemma retry_loop_trace {A} (func : M world A) (evs : list event) max_retries :
  (∀ w, trace (func w).2 = trace w ++ evs) →
  ∀ remaining attempt last_error w,
    0 < remaining → Z.of_nat (attempt + remaining) = max_retries →
    ∃ failed, failed < remaining ∧
      trace (retry_loop func max_retries attempt remaining last_error w).2
      = trace w ++ flat_map (fun i => evs ++ [EvSleep (2 ^ i)]) (seq attempt failed) ++ evs.
Proof.
  intros Hf. induction remaining as [|remaining IH]; intros attempt last_error w Hpos Hmax;
    [lia|].
  simpl. specialize (Hf w). destruct (func w) as [[a|e] w1]; simpl in Hf.
  - exists 0. split; [lia|]. simpl. by rewrite Hf.
  - destruct remaining as [|remaining].
    + exists 0. split; [lia|]. 
      replace (Z.of_nat attempt <? max_retries - 1)%Z with false
        by (symmetry; apply Z.ltb_ge; lia).
      simpl. by rewrite Hf.
    + replace (Z.of_nat attempt <? max_retries - 1)%Z with true
        by (symmetry; apply Z.ltb_lt; lia).
      destruct (IH (S attempt) (Some e)
                  (set_clock (fun t => t + N.of_nat (2 ^ attempt) * 1000000)%N
                     (log (EvSleep (2 ^ attempt)) w1)))
        as (failed & Hlt & Htr); [lia|lia|].
      exists (S failed). split; [lia|].
      unfold bind, sleep, modify. cbn [fst snd].
      rewrite Htr. cbn [trace set_clock log seq flat_map]. rewrite Hf.
      by rewrite <- !app_assoc.
Qed.

Lemma execute_with_retry_attempts {A} stage agent key fields (m : M world A) w :
  agent_call agent key fields m →
  ∃ failed, failed < 3 ∧
    trace (_execute_with_retry (do* invoke stage in m) 3 w).2
    = trace w ++ attempts stage agent failed.
Proof.
  intros Hm. unfold _execute_with_retry.
  destruct (retry_loop_trace (do* invoke stage in m) [EvInvoke stage; EvInvoke agent] 3
              (λ w, stage_trace stage agent key fields m w Hm) (Z.to_nat 3) 0 None w)
    as (failed & Hlt & Htr); [lia|lia|].
  exists failed. split; [lia|]. exact Htr.
Qed.

(** The tail of the [try] once the stages and the loop are through. *)
Lemma complete_workflow_open (r : WorkflowResult) (w : world) :
  is_Some (session_id w) →
  (do* modify (fun s : wstate => (set_state COMPLETED s.1, log (EvState COMPLETED) s.2)) in
   let* t := lift now in
   do* update_result (set_completed_at t) in
   lift (set_workflow_state (state_value COMPLETED))) (r, w)
  = (Ok tt, (set_completed_at (clock w) (set_state COMPLETED r), entered COMPLETED w)).
Proof.
  intros Hs. unfold bind, modify, lift, now, gets, update_result, modify.
  cbn -[set_workflow_state state_value entered].
  by destruct (entered_open COMPLETED w Hs) as (-> & _).
Qed.

(** Once a state has been entered the store holds it, in memory and on
    disk. *)
Lemma entered_mirrored st w : is_Some (session_id w) → mirrored st (entered st w).
Proof.
  intros Hs. unfold entered, set_workflow_state, bind, modify. cbn [fst snd].
  destruct (save_open "workflow_state" (Plain (VStr (state_value st)))
              (log (EvMirror (state_value st)) (log (EvState st) w)) Hs)
    as (w' & -> & Hsid & _ & _ & Hm & sid & Hs' & Hf).
  cbn [snd]. split.
  - rewrite Hm, lookup_insert_ne by done. by rewrite lookup_insert_eq.
  - exists sid, (json_roundtrip <$> memory w'). split; [by rewrite Hsid|].
    split; [by rewrite Hf, lookup_insert_eq|].
    rewrite lookup_fmap, Hm, lookup_insert_ne by done. by rewrite lookup_insert_eq.
Qed.

(** The session [start_workflow] creates holds the state ["pending"]. *)
Lemma start_workflow_mirrored E w r0 w0 :
  start_workflow E w = (Ok r0, w0) → mirrored PENDING w0.
Proof.
  unfold start_workflow, bind at 1. pose proof (create_session_run None w) as Hc.
  cbv zeta in Hc. rewrite Hc. unfold bind, uuid4, ask, now, gets, modify, ret.
  cbn [fst snd]. intros [= _ <-]. split; [done|].
  eexists _, _. cbn [session_id files memory log set_asked set_clock set_files set_memory
                     set_session_id].
  split; [reflexivity|]. split; [apply lookup_insert_eq|]. done.
Qed.

(** C4: the order of the state transitions.  First part: on a run with
    the feedback loop disabled where each of the three retry-wrapped
    stages returns, the call returns in state [COMPLETED] and what it
    did, in order, is: state [PENDING]; then for each stage its state,
    the mirror of that state in the store, and only then the attempts of
    the stage; then state [COMPLETED] and its mirror.  The mirror is in
    the store itself: the session is created holding ["pending"], the
    world each stage is started in holds the state of that stage under
    ["workflow_state"], in memory and in the session file, and the world
    the call ends in holds ["completed"].  Second part: when
    the retry wrapper of a stage raises [e] (the stages before it having
    returned), the call raises [e], the state goes from the state of
    that stage to [FAILED] with nothing in between, the message of [e]
    is recorded and the completion time is later than the start time. *)
Theorem workflow_state_order (self : config) (E : env) (workflow_input : WorkflowInput)
    (w : world) :
  (∀ r0 w0 ba w2 cg w3 cr w4,
     enable_feedback_loop self = false →
     start_workflow E w = (Ok r0, w0) →
     _execute_with_retry (_stage_brand_analysis E workflow_input) 3
       (entered ANALYZING_BRAND w0) = (Ok ba, w2) →
     _execute_with_retry (_stage_content_generation E ba workflow_input) 3
       (entered GENERATING_CONTENT w2) = (Ok cg, w3) →
     _execute_with_retry (_stage_campaign_execution E cg ba workflow_input) 3
       (entered EXECUTING_CAMPAIGN w3) = (Ok cr, w4) →
     ∃ result w5 failed1 failed2 failed3,
       execute_workflow self E workflow_input w = (Returned result, w5)
       ∧ wr_state result = COMPLETED
       ∧ memory w5 !! "workflow_state" = Some (VStr "completed")
       ∧ trace w5 = trace w ++
           [EvState PENDING; EvState ANALYZING_BRAND; EvMirror "analyzing_brand"]
           ++ attempts "_stage_brand_analysis" "analyze_brand" failed1
           ++ [EvState GENERATING_CONTENT; EvMirror "generating_content"]
           ++ attempts "_stage_content_generation" "generate_content" failed2
           ++ [EvState EXECUTING_CAMPAIGN; EvMirror "executing_campaign"]
           ++ attempts "_stage_campaign_execution" "execute_campaign" failed3
           ++ [EvState COMPLETED; EvMirror "completed"]
       ∧ mirrored PENDING w0
       ∧ mirrored ANALYZING_BRAND (entered ANALYZING_BRAND w0)
       ∧ mirrored GENERATING_CONTENT (entered GENERATING_CONTENT w2)
       ∧ mirrored EXECUTING_CAMPAIGN (entered EXECUTING_CAMPAIGN w3)
       ∧ mirrored COMPLETED w5)
  ∧ (∀ r0 w0,
       start_workflow E w = (Ok r0, w0) →
       (∀ e w',
          _execute_with_retry (_stage_brand_analysis E workflow_input) 3
            (entered ANALYZING_BRAND w0) = (Raise e, w') →
          ends_failed self E workflow_input w e w')
       ∧ (∀ ba w2 e w',
            _execute_with_retry (_stage_brand_analysis E workflow_input) 3
              (entered ANALYZING_BRAND w0) = (Ok ba, w2) →
            _execute_with_retry (_stage_content_generation E ba workflow_input) 3
              (entered GENERATING_CONTENT w2) = (Raise e, w') →
            ends_failed self E workflow_input w e w')
       ∧ (∀ ba w2 cg w3 e w',
            _execute_with_retry (_stage_brand_analysis E workflow_input) 3
              (entered ANALYZING_BRAND w0) = (Ok ba, w2) →
            _execute_with_retry (_stage_content_generation E ba workflow_input) 3
              (entered GENERATING_CONTENT w2) = (Ok cg, w3) →
            _execute_with_retry (_stage_campaign_execution E cg ba workflow_input) 3
              (entered EXECUTING_CAMPAIGN w3) = (Raise e, w') →
            ends_failed self E workflow_input w e w')).
Proof.
  split.
  - intros r0 w0 ba w2 cg w3 cr w4 Hoff Hstart R1 R2 R3.
    destruct (start_workflow_run E w) as (r0' & w0' & Hstart' & Hs0 & _ & _ & Htr0 & _).
    rewrite Hstart in Hstart'. injection Hstart' as <- <-.
    destruct (retry_keeps_session _ _ _ _ _
                (stable_stage_brand_analysis E workflow_input) Hs0 R1) as [Hs2 _].
    destruct (retry_keeps_session _ _ _ _ _
                (stable_stage_content_generation E ba workflow_input) Hs2 R2) as [Hs3 _].
    destruct (retry_keeps_session _ _ _ _ _
                (stable_stage_campaign_execution E cg ba workflow_input) Hs3 R3) as [Hs4 _].
    destruct (execute_workflow_ends self E workflow_input w) as (r0' & w0' & Hstart' & Hend).
    rewrite Hstart in Hstart'. injection Hstart' as <- <-.
    unfold try_body, bind at 1 in Hend.
    rewrite (run_stages_open E workflow_input r0 w0 Hs0), R1, R2, R3 in Hend.
    cbv zeta in Hend. rewrite Hoff in Hend. simpl andb in Hend. cbv iota in Hend.
    unfold bind at 1, ret at 1 in Hend.
    rewrite complete_workflow_open in Hend by done.
    destruct (entered_open COMPLETED w4 Hs4) as (_ & _ & _ & Htr5 & Hm5).
    destruct (entered_open EXECUTING_CAMPAIGN w3 Hs3) as (_ & _ & _ & Htr4 & _).
    destruct (entered_open GENERATING_CONTENT w2 Hs2) as (_ & _ & _ & Htr3 & _).
    destruct (entered_open ANALYZING_BRAND w0 Hs0) as (_ & _ & _ & Htr1 & _).
    destruct (execute_with_retry_attempts "_stage_brand_analysis" _ _ _ _
                (entered ANALYZING_BRAND w0) (analyze_brand_call E)) as (f1 & _ & T1).
    destruct (execute_with_retry_attempts "_stage_content_generation" _ _ _ _
                (entered GENERATING_CONTENT w2)
                (generate_content_call E (ba_brand_profile ba)
                   (wi_campaign_brief workflow_input) (wi_target_platforms workflow_input) 1))
      as (f2 & _ & T2).
    destruct (execute_with_retry_attempts "_stage_campaign_execution" _ _ _ _
                (entered EXECUTING_CAMPAIGN w3)
                (execute_campaign_call E (cg_content_assets cg) (ba_brand_profile ba)
                   (wi_budget workflow_input) (wi_target_kpis workflow_input)))
      as (f3 & _ & T3).
    fold (_stage_brand_analysis E workflow_input) in T1.
    fold (_stage_content_generation E ba workflow_input) in T2.
    fold (_stage_campaign_execution E cg ba workflow_input) in T3.
    rewrite R1 in T1. rewrite R2 in T2. rewrite R3 in T3. simpl in T1, T2, T3.
    eexists _, _, f1, f2, f3. split; [exact Hend|]. split; [done|].
    split.
    { simpl. rewrite Hm5. rewrite lookup_insert_ne by done. by rewrite lookup_insert_eq. }
    split.
    { cbn [fst snd]. rewrite Htr5, T3, Htr4, T2, Htr3, T1, Htr1, Htr0.
      by rewrite <- !app_assoc. }
    split; [by eapply start_workflow_mirrored|].
    split; [by apply entered_mirrored|]. split; [by apply entered_mirrored|].
    split; [by apply entered_mirrored|]. cbn [fst snd]. by apply entered_mirrored.
  - intros r0 w0 Hstart.
    destruct (start_workflow_run E w) as (r0' & w0' & Hstart' & Hs0 & _).
    rewrite Hstart in Hstart'. injection Hstart' as <- <-.
    split; [|split].
    + intros e w' R1.
      pose proof (run_stages_open E workflow_input r0 w0 Hs0) as Hrun. rewrite R1 in Hrun.
      eapply raise_ends_failed; [exact Hstart|by apply try_body_raise_in_stages|].
      apply execute_with_retry_gives_up in R1; [|apply stable_stage_brand_analysis].
      destruct (entered_open ANALYZING_BRAND w0 Hs0) as (_ & _ & Hc & _). lia.
    + intros ba w2 e w' R1 R2.
      pose proof (run_stages_open E workflow_input r0 w0 Hs0) as Hrun.
      rewrite R1, R2 in Hrun.
      eapply raise_ends_failed; [exact Hstart|by apply try_body_raise_in_stages|].
      destruct (retry_keeps_session _ _ _ _ _
                  (stable_stage_brand_analysis E workflow_input) Hs0 R1) as [Hs2 Hc2].
      apply execute_with_retry_gives_up in R2; [|apply stable_stage_content_generation].
      destruct (entered_open GENERATING_CONTENT w2 Hs2) as (_ & _ & Hc & _). lia.
    + intros ba w2 cg w3 e w' R1 R2 R3.
      pose proof (run_stages_open E workflow_input r0 w0 Hs0) as Hrun.
      rewrite R1, R2, R3 in Hrun.
      eapply raise_ends_failed; [exact Hstart|by apply try_body_raise_in_stages|].
      destruct (retry_keeps_session _ _ _ _ _
                  (stable_stage_brand_analysis E workflow_input) Hs0 R1) as [Hs2 Hc2].
      destruct (retry_keeps_session _ _ _ _ _
                  (stable_stage_content_generation E ba workflow_input) Hs2 R2) as [Hs3 Hc3].
      apply execute_with_retry_gives_up in R3; [|apply stable_stage_campaign_execution].
      destruct (entered_open EXECUTING_CAMPAIGN w3 Hs3) as (_ & _ & Hc & _). lia.
Qed.

(** *** The feedback loop *)

Section feedback.

Context (E : env) (inp : WorkflowInput) (ba : BrandAnalysisResult) (cr : CampaignResult).

Lemma feedback_iteration_unfold r w :
  feedback_iteration E inp ba cr (r, w) =
    match generate_content E (ba_brand_profile ba) (wi_campaign_brief inp)
            (wi_target_platforms inp) 1 (log (EvInvoke "refine_strategy") w) with
    | (Raise e, w1) => (Raise e, (r, w1))
    | (Ok improved_content, w1) =>
        match execute_campaign E (cg_content_assets improved_content)
                (ba_brand_profile ba) (wi_budget inp) (wi_target_kpis inp) w1 with
        | (Raise e, w2) => (Raise e, (r, w2))
        | (Ok improved_campaign, w2) =>
            (Ok (_should_optimize improved_campaign inp),
             (set_campaign_result improved_campaign
                (set_content_generation improved_content (set_brand_analysis ba r)), w2))
        end
    end.
Proof.
  unfold feedback_iteration, bind, lift, update_result, modify, ret.
  rewrite refine_strategy_run. cbn [fst snd].
  destruct (generate_content _ _ _ _ _ _) as [[ic|e] w1]; [|done]. cbn [fst snd].
  by destruct (execute_campaign _ _ _ _ _ _) as [[icamp|e] w2].
Qed.

Lemma feedback_iteration_returns s again s' :
  feedback_iteration E inp ba cr s = (Ok again, s') →
  trace s'.2 = trace s.2 ++ round_events.
Proof.
  destruct s as [r w]. rewrite feedback_iteration_unfold.
  pose proof (generate_content_call E (ba_brand_profile ba) (wi_campaign_brief inp)
                (wi_target_platforms inp) 1 (log (EvInvoke "refine_strategy") w)) as G.
  destruct (generate_content _ _ _ _ _ _) as [[ic|e] w1]; [|done].
  pose proof (execute_campaign_call E (cg_content_assets ic) (ba_brand_profile ba)
                (wi_budget inp) (wi_target_kpis inp) w1) as X.
  destruct (execute_campaign _ _ _ _ _ _) as [[icamp|e] w2]; [|done].
  intros [= _ <-]. simpl. destruct G as (_ & G & _). destruct X as (_ & X & _).
  rewrite X, G. simpl. by rewrite <- !app_assoc.
Qed.

(** As long as the predicate stays unsatisfied the loop goes through
    all its rounds. *)
Lemma feedback_loop_exhausts rounds :
  ∀ s, (∀ i, i < rounds →
             (feedback_iteration E inp ba cr (round_state E inp ba cr i s)).1 = Ok true) →
       feedback_loop E inp ba cr rounds s = (Ok tt, round_state E inp ba cr rounds s)
       ∧ trace (round_state E inp ba cr rounds s).2
         = trace s.2 ++ concat (replicate rounds round_events).
Proof.
  induction rounds as [|rounds IH]; intros s Hall.
  - split; [done|]. simpl. by rewrite app_nil_r.
  - pose proof (Hall 0 ltac:(lia)) as H0. simpl in H0.
    destruct (feedback_iteration E inp ba cr s) as [o s1] eqn:Hit. simpl in H0. subst o.
    destruct (IH s1) as [Hloop Htr].
    { intros i Hi. specialize (Hall (S i) ltac:(lia)). simpl in Hall.
      by rewrite Hit in Hall. }
    simpl. unfold bind. rewrite Hit. simpl. split; [done|].
    rewrite Htr. apply feedback_iteration_returns in Hit. rewrite Hit.
    by rewrite <- app_assoc.
Qed.

(** The first round after which the predicate is satisfied is the last. *)
Lemma feedback_loop_breaks rounds s :
  (feedback_iteration E inp ba cr s).1 = Ok false →
  feedback_loop E inp ba cr (S rounds) s = (Ok tt, (feedback_iteration E inp ba cr s).2)
  ∧ trace (feedback_iteration E inp ba cr s).2.2 = trace s.2 ++ round_events.
Proof.
  intros H. simpl. unfold bind.
  destruct (feedback_iteration E inp ba cr s) as [o s1] eqn:Hit. simpl in *. subst o.
  split; [done|]. by apply feedback_iteration_returns in Hit.
Qed.

(** A loop that raises does so in a round that all earlier rounds led to. *)
Lemma feedback_loop_raises rounds :
  ∀ s e s', feedback_loop E inp ba cr rounds s = (Raise e, s') →
    ∃ i, i < rounds
      ∧ (∀ j, j < i → (feedback_iteration E inp ba cr (round_state E inp ba cr j s)).1 = Ok true)
      ∧ feedback_iteration E inp ba cr (round_state E inp ba cr i s) = (Raise e, s').
Proof.
  induction rounds as [|rounds IH]; intros s e s'; simpl; [done|].
  unfold bind. destruct (feedback_iteration E inp ba cr s) as [[[|]|e1] s1] eqn:Hit.
  - intros Hloop. destruct (IH _ _ _ Hloop) as (i & Hi & Hbefore & Hraise).
    exists (S i). split; [lia|]. split.
    + intros [|j] Hj; simpl; rewrite Hit; [done|]. apply Hbefore. lia.
    + simpl. by rewrite Hit.
  - done.
  - intros [= <- <-]. exists 0. split; [lia|]. split; [intros; lia|done].
Qed.

(** And conversely. *)
Lemma feedback_loop_raises_at rounds :
  ∀ i s e s', i < rounds →
    (∀ j, j < i → (feedback_iteration E inp ba cr (round_state E inp ba cr j s)).1 = Ok true) →
    feedback_iteration E inp ba cr (round_state E inp ba cr i s) = (Raise e, s') →
    feedback_loop E inp ba cr rounds s = (Raise e, s').
Proof.
  induction rounds as [|rounds IH]; intros i s e s' Hi Hbefore Hraise; [lia|].
  simpl. unfold bind. destruct i as [|i]; simpl in Hraise.
  - by rewrite Hraise.
  - pose proof (Hbefore 0 ltac:(lia)) as H0. simpl in H0.
    destruct (feedback_iteration E inp ba cr s) as [o s1] eqn:Hit. simpl in *. subst o.
    apply (IH i); [lia| |done].
    intros j Hj. specialize (Hbefore (S j) ltac:(lia)). simpl in Hbefore.
    by rewrite Hit in Hbefore.
Qed.

Lemma round_state_later i : ∀ s, wlater s (round_state E inp ba cr i s).
Proof.
  induction i as [|i IH]; intros s; simpl; [apply wlater_refl|].
  eapply wlater_trans; [apply wstable_feedback_iteration|apply IH].
Qed.

End feedback.

Lemma try_body_with_loop self E inp s ba cg cr s3 :
  run_stages E inp s = (Ok (ba, cg, cr), s3) →
  enable_feedback_loop self = true → _should_optimize cr inp = true →
  try_body self E inp s =
    match feedback_loop E inp ba cr (Z.to_nat (max_iterations self - 1)) s3 with
    | (Ok _, s4) =>
        (do* modify (fun s : wstate =>
                       (set_state COMPLETED s.1, log (EvState COMPLETED) s.2)) in
         let* t := lift now in
         do* update_result (set_completed_at t) in
         lift (set_workflow_state (state_value COMPLETED))) s4
    | (Raise e, s4) => (Raise e, s4)
    end.
Proof.
  intros Hrun Hon Hopt. unfold try_body, bind at 1. rewrite Hrun. cbn [fst snd].
  rewrite Hon, Hopt. simpl andb. cbv iota. unfold bind at 1.
  by destruct (feedback_loop _ _ _ _ _ _) as [[[]|e] s4].
Qed.

Lemma run_stages_session E inp r0 w0 x s3 :
  is_Some (session_id w0) → run_stages E inp (r0, w0) = (Ok x, s3) →
  is_Some (session_id s3.2).
Proof.
  intros Hs Hrun. pose proof (wstable_run_stages E inp (r0, w0)) as ([Hsid _] & _).
  rewrite Hrun in Hsid. simpl in Hsid. by rewrite Hsid.
Qed.

(** C1: the feedback loop.  With the loop enabled, [max_iterations = N],
    the three stages returned and the KPI predicate unsatisfied after
    them: when every round ends with the predicate still unsatisfied,
    the loop runs [N - 1] rounds (none for [N] below 1), each of them
    refine, regenerate, re-execute once, and the call then completes;
    when the first round ends with the predicate satisfied ([N] at least
    2, so that there is a first round), that round is the only one.  And
    whenever the call returns, the state is [COMPLETED] and the
    completion time is set. *)
Theorem feedback_loop_rounds (self : config) (E : env) (workflow_input : WorkflowInput)
    (w : world) :
  (∀ r0 w0 ba cg cr s3,
     enable_feedback_loop self = true →
     start_workflow E w = (Ok r0, w0) →
     run_stages E workflow_input (r0, w0) = (Ok (ba, cg, cr), s3) →
     _should_optimize cr workflow_input = true →
     let rounds := Z.to_nat (max_iterations self - 1) in
     ((1 ≤ max_iterations self)%Z → Z.of_nat rounds = (max_iterations self - 1)%Z)
     ∧ ((∀ i, i < rounds →
           (feedback_iteration E workflow_input ba cr
              (round_state E workflow_input ba cr i s3)).1 = Ok true) →
        ∃ result w',
          execute_workflow self E workflow_input w = (Returned result, w')
          ∧ wr_state result = COMPLETED ∧ is_Some (wr_completed_at result)
          ∧ trace w' = trace s3.2 ++ concat (replicate rounds round_events)
                       ++ [EvState COMPLETED; EvMirror "completed"])
     ∧ ((2 ≤ max_iterations self)%Z →
        (feedback_iteration E workflow_input ba cr s3).1 = Ok false →
        ∃ result w',
          execute_workflow self E workflow_input w = (Returned result, w')
          ∧ wr_state result = COMPLETED ∧ is_Some (wr_completed_at result)
          ∧ trace w' = trace s3.2 ++ round_events
                       ++ [EvState COMPLETED; EvMirror "completed"]))
  ∧ (∀ result w',
       execute_workflow self E workflow_input w = (Returned result, w') →
       wr_state result = COMPLETED ∧ is_Some (wr_completed_at result)).
Proof.
  split.
  - intros r0 w0 ba cg cr s3 Hon Hstart Hrun Hopt rounds.
    destruct (start_workflow_run E w) as (r0' & w0' & Hstart' & Hs0 & _).
    rewrite Hstart in Hstart'. injection Hstart' as <- <-.
    pose proof (run_stages_session _ _ _ _ _ _ Hs0 Hrun) as Hs3.
    destruct (execute_workflow_ends self E workflow_input w) as (r0' & w0' & Hstart' & Hend).
    rewrite Hstart in Hstart'. injection Hstart' as <- <-.
    rewrite (try_body_with_loop _ _ _ _ _ _ _ _ Hrun Hon Hopt) in Hend. fold rounds in Hend.
    split; [lia|]. split.
    + intros Hall.
      destruct (feedback_loop_exhausts E workflow_input ba cr rounds s3 Hall) as [Hloop Htr].
      rewrite Hloop in Hend.
      set (s4 := round_state E workflow_input ba cr rounds s3) in *.
      assert (is_Some (session_id s4.2)) as Hs4.
      { destruct (round_state_later E workflow_input ba cr rounds s3) as ([Hsid _] & _).
        fold s4 in Hsid. by rewrite Hsid. }
      destruct s4 as [r4 w4]. rewrite complete_workflow_open in Hend by done.
      eexists _, _. split; [exact Hend|]. split; [done|]. split; [by eexists|].
      destruct (entered_open COMPLETED w4 Hs4) as (_ & _ & _ & Htr5 & _).
      simpl in *. rewrite Htr5, Htr. by rewrite <- app_assoc.
    + intros Hmax2 Hsat.
      destruct rounds as [|rounds'] eqn:Hrounds; [lia|].
      destruct (feedback_loop_breaks E workflow_input ba cr rounds' s3 Hsat) as [Hloop Htr].
      rewrite Hloop in Hend.
      set (s4 := (feedback_iteration E workflow_input ba cr s3).2) in *.
      assert (is_Some (session_id s4.2)) as Hs4.
      { destruct (wstable_feedback_iteration E workflow_input ba cr s3) as ([Hsid _] & _).
        fold s4 in Hsid. by rewrite Hsid. }
      destruct s4 as [r4 w4]. rewrite complete_workflow_open in Hend by done.
      eexists _, _. split; [exact Hend|]. split; [done|]. split; [by eexists|].
      destruct (entered_open COMPLETED w4 Hs4) as (_ & _ & _ & Htr5 & _).
      simpl in *. rewrite Htr5, Htr. by rewrite <- app_assoc.
  - intros result w' Hret.
    destruct (execute_workflow_ends self E workflow_input w) as (r0 & w0 & Hstart & Hend).
    destruct (try_body self E workflow_input (r0, w0)) as [[[]|e] s'] eqn:Hbody.
    + rewrite Hend in Hret. injection Hret as <- <-.
      apply try_body_returns in Hbody as (Hst & _ & _ & t & Ht & _).
      split; [done|]. by eexists.
    + destruct (on_exception_run e s') as (e' & r & w'' & Hrun & _).
      rewrite Hend, Hrun in Hret. done.
Qed.

(** *** A round of the loop that raises *)

Section aborted_round.

Context (E : env) (inp : WorkflowInput) (ba : BrandAnalysisResult) (cr : CampaignResult).

(** Either [generate_content] raised, and the store is as the round
    found it; or it returned and saved its result, and
    [execute_campaign] raised. *)
Lemma feedback_iteration_raises r w e s' :
  is_Some (session_id w) →
  feedback_iteration E inp ba cr (r, w) = (Raise e, s') →
  s'.1 = r
  ∧ ((trace s'.2 = trace w ++ [EvInvoke "refine_strategy"; EvInvoke "generate_content"]
      ∧ memory s'.2 = memory w ∧ files s'.2 = files w)
     ∨ (∃ improved_content w1,
          generate_content E (ba_brand_profile ba) (wi_campaign_brief inp)
            (wi_target_platforms inp) 1 (log (EvInvoke "refine_strategy") w)
          = (Ok improved_content, w1)
          ∧ trace s'.2 = trace w ++ round_events
          ∧ memory s'.2
            = <["updated_at" := VStr (isoformat (clock w1))]>
                (<["content_generation" :=
                     VDict (Dump.ContentGenerationResult_fields improved_content)]>
                   (memory w)))).
Proof.
  intros Hs. rewrite feedback_iteration_unfold.
  pose proof (generate_content_call E (ba_brand_profile ba) (wi_campaign_brief inp)
                (wi_target_platforms inp) 1 (log (EvInvoke "refine_strategy") w)) as G.
  destruct (generate_content _ _ _ _ _ _) as [[ic|e1] w1].
  - destruct G as ([Hsid1 _] & Gtr & w1' & (_ & Gm & _ & _) & (_ & Gc & _ & Gsaved & _)).
    pose proof (execute_campaign_call E (cg_content_assets ic) (ba_brand_profile ba)
                  (wi_budget inp) (wi_target_kpis inp) w1) as X.
    destruct (execute_campaign _ _ _ _ _ _) as [[icamp|e2] w2]; [done|].
    intros [= <- <-]. split; [done|]. right. exists ic, w1. split; [done|].
    destruct X as (_ & Xtr & Xm). destruct Xm as [Xm _]; [simpl in Hsid1; by rewrite Hsid1|].
    simpl in *. split.
    + rewrite Xtr, Gtr. by rewrite <- !app_assoc.
    + rewrite Xm, Gsaved, Gm, Gc. done.
  - intros [= <- <-]. split; [done|]. left.
    destruct G as (_ & Gtr & Gm). destruct (Gm Hs) as [Hm Hf]. simpl in *.
    split; [|done]. rewrite Gtr. by rewrite <- app_assoc.
Qed.

End aborted_round.

Lemma raise_propagates self E inp w r0 w0 e r' w' :
  start_workflow E w = (Ok r0, w0) →
  try_body self E inp (r0, w0) = (Raise e, (r', w')) →
  ∃ result w'',
    execute_workflow self E inp w = (Raised e result, w'')
    ∧ wr_state result = FAILED
    ∧ wr_error_message result = Some (exn_str e)
    ∧ trace w'' = trace w' ++ [EvState FAILED; EvMirror "failed"]
    ∧ memory w'' = <["updated_at" := VStr (isoformat (clock w'))]>
                     (<["workflow_state" := VStr "failed"]> (memory w')).
Proof.
  intros Hstart Hbody.
  destruct (start_workflow_run E w) as (r0' & w0' & Hstart' & Hs0 & _).
  rewrite Hstart in Hstart'. injection Hstart' as <- <-.
  destruct (execute_workflow_ends self E inp w) as (r0' & w0' & Hstart' & Hend).
  rewrite Hstart in Hstart'. injection Hstart' as <- <-. rewrite Hbody in Hend.
  apply try_body_raises in Hbody as ([Hsid _] & _). simpl in *.
  destruct (on_exception_run e (r', w')) as (e' & r & w'' & Hrun & Hst & Herr & _ & _ & Hopen).
  destruct Hopen as (-> & Htr & Hm); [simpl; by rewrite Hsid|].
  exists r, w''. by rewrite Hend.
Qed.

(** C6, as the code has it: a round of the feedback loop that raises.
    Its sub-calls were entered at most once each (no retry), the
    exception leaves the workflow call (after the handler has recorded
    [FAILED]), and of the store: the slots ["brand_analysis"] and
    ["campaign_result"] are as the round found them; when
    [generate_content] raised the whole store is as the round found it;
    when [execute_campaign] raised the slot ["content_generation"] holds
    the content regenerated in the aborted round. *)
Theorem feedback_failure (self : config) (E : env) (workflow_input : WorkflowInput)
    (w : world) (r0 : WorkflowResult) (w0 : world) (ba : BrandAnalysisResult)
    (cg : ContentGenerationResult) (cr : CampaignResult) (s3 : wstate)
    (i : nat) (e : exn) (s' : wstate) :
  start_workflow E w = (Ok r0, w0) →
  run_stages E workflow_input (r0, w0) = (Ok (ba, cg, cr), s3) →
  enable_feedback_loop self = true →
  _should_optimize cr workflow_input = true →
  i < Z.to_nat (max_iterations self - 1) →
  (∀ j, j < i →
     (feedback_iteration E workflow_input ba cr
        (round_state E workflow_input ba cr j s3)).1 = Ok true) →
  feedback_iteration E workflow_input ba cr (round_state E workflow_input ba cr i s3)
    = (Raise e, s') →
  let pre := (round_state E workflow_input ba cr i s3).2 in
  (∃ result w'',
     execute_workflow self E workflow_input w = (Raised e result, w'')
     ∧ wr_state result = FAILED
     ∧ wr_error_message result = Some (exn_str e)
     ∧ trace w'' = trace s'.2 ++ [EvState FAILED; EvMirror "failed"]
     ∧ memory w'' = <["updated_at" := VStr (isoformat (clock s'.2))]>
                      (<["workflow_state" := VStr "failed"]> (memory s'.2)))
  ∧ memory s'.2 !! "brand_analysis" = memory pre !! "brand_analysis"
  ∧ memory s'.2 !! "campaign_result" = memory pre !! "campaign_result"
  ∧ ((trace s'.2 = trace pre ++ [EvInvoke "refine_strategy"; EvInvoke "generate_content"]
      ∧ memory s'.2 = memory pre ∧ files s'.2 = files pre)
     ∨ (∃ improved_content w1,
          generate_content E (ba_brand_profile ba) (wi_campaign_brief workflow_input)
            (wi_target_platforms workflow_input) 1 (log (EvInvoke "refine_strategy") pre)
          = (Ok improved_content, w1)
          ∧ trace s'.2 = trace pre ++ round_events
          ∧ memory s'.2 !! "content_generation"
            = Some (VDict (Dump.ContentGenerationResult_fields improved_content)))).
Proof.
  intros Hstart Hrun Hon Hopt Hi Hbefore Hraise pre.
  destruct (start_workflow_run E w) as (r0' & w0' & Hstart' & Hs0 & _).
  rewrite Hstart in Hstart'. injection Hstart' as <- <-.
  pose proof (run_stages_session _ _ _ _ _ _ Hs0 Hrun) as Hs3.
  assert (is_Some (session_id pre)) as Hpre.
  { destruct (round_state_later E workflow_input ba cr i s3) as ([Hsid _] & _).
    unfold pre. by rewrite Hsid. }
  split.
  - destruct s' as [r' w']. eapply raise_propagates; [exact Hstart|].
    rewrite (try_body_with_loop _ _ _ _ _ _ _ _ Hrun Hon Hopt).
    by rewrite (feedback_loop_raises_at E workflow_input ba cr _ i s3 e (r', w') Hi Hbefore Hraise).
  - unfold pre in *. destruct (round_state E workflow_input ba cr i s3) as [r w_pre].
    apply feedback_iteration_raises in Hraise as (_ & Hcases); [|done]. simpl in *.
    destruct Hcases as [(Htr & Hm & Hf)|(ic & w1 & Hgen & Htr & Hm)].
    + rewrite Hm. split; [done|]. split; [done|]. by left.
    + rewrite Hm. split; [|split].
      * rewrite lookup_insert_ne by done. by rewrite lookup_insert_ne.
      * rewrite lookup_insert_ne by done. by rewrite lookup_insert_ne.
      * right. exists ic, w1. split; [done|]. split; [done|].
        rewrite lookup_insert_ne by done. by rewrite lookup_insert_eq.
Qed.

(** * Concrete runs *)

(** [run m as H]: run the closed computation [m] and keep how it ended,
    [H : m = (outcome, snd m)]; the world it ends in stays unexpanded. *)
Tactic Notation "run" constr(m) "as" ident(H) :=
  let o := eval vm_compute in (fst m) in
  let Hf := fresh in
  assert (Hf : fst m = o) by (vm_compute; reflexivity);
  pose proof (eq_trans (surjective_pairing m) (f_equal (fun x => (x, snd m)) Hf)) as H;
  cbv beta in H; clear Hf.

Ltac by_running := vm_compute; reflexivity.

Lemma feedback_loop_rounds_witness :
  (∃ result w',
     execute_workflow three_rounds never_met email_input empty_world = (Returned result, w')
     ∧ wr_state result = COMPLETED
     ∧ invocations "refine_strategy" w' = 2)
  ∧ (∃ result w',
       execute_workflow three_rounds met_after_one_round email_input empty_world
       = (Returned result, w')
       ∧ wr_state result = COMPLETED
       ∧ invocations "refine_strategy" w' = 1).
Proof.
  split.
  - destruct (feedback_loop_rounds three_rounds never_met email_input empty_world) as [H _].
    run (start_workflow never_met empty_world) as Hstart.
    match type of Hstart with _ = (Ok ?r0, ?w0) =>
      run (run_stages never_met email_input (r0, w0)) as Hrun
    end.
    match type of Hrun with _ = (Ok (?ba, ?cg, ?cr), ?s3) =>
      pose proof (H _ _ ba cg cr s3 eq_refl Hstart Hrun) as H2
    end.
    assert (H3 := H2 ltac:(by_running)). destruct H3 as (_ & Hall & _).
    destruct Hall as (result & w' & Hend & Hst & _ & Htr).
    { intros [|[|i]] Hi; [by_running|by_running|].
      exfalso. revert Hi. vm_compute. lia. }
    exists result, w'. split; [exact Hend|]. split; [exact Hst|].
    unfold invocations. rewrite Htr. by_running.
  - destruct (feedback_loop_rounds three_rounds met_after_one_round email_input empty_world)
      as [H _].
    run (start_workflow met_after_one_round empty_world) as Hstart.
    match type of Hstart with _ = (Ok ?r0, ?w0) =>
      run (run_stages met_after_one_round email_input (r0, w0)) as Hrun
    end.
    match type of Hrun with _ = (Ok (?ba, ?cg, ?cr), ?s3) =>
      pose proof (H _ _ ba cg cr s3 eq_refl Hstart Hrun) as H2
    end.
    assert (H3 := H2 ltac:(by_running)). destruct H3 as (_ & _ & Hone).
    destruct Hone as (result & w' & Hend & Hst & _ & Htr); [simpl; lia|by_running|].
    exists result, w'. split; [exact Hend|]. split; [exact Hst|].
    unfold invocations. rewrite Htr. by_running.
Defined.

Lemma workflow_state_order_witness :
  (∃ result w',
     execute_workflow no_loop hiccup email_input empty_world = (Returned result, w')
     ∧ wr_state result = COMPLETED
     ∧ mirrored ANALYZING_BRAND
         (entered ANALYZING_BRAND (start_workflow hiccup empty_world).2)
     ∧ mirrored COMPLETED w')
  ∧ ends_failed no_loop outage email_input empty_world boom
      (snd (_execute_with_retry (_stage_brand_analysis outage email_input) 3
              (entered ANALYZING_BRAND (snd (start_workflow outage empty_world))))).
Proof.
  split.
  - destruct (workflow_state_order no_loop hiccup email_input empty_world) as [H _].
    run (start_workflow hiccup empty_world) as Hstart.
    match type of Hstart with _ = (Ok ?r0, ?w0) =>
      run (_execute_with_retry (_stage_brand_analysis hiccup email_input) 3
             (entered ANALYZING_BRAND w0)) as H1
    end.
    match type of H1 with _ = (Ok ?ba, ?w2) =>
      run (_execute_with_retry (_stage_content_generation hiccup ba email_input) 3
             (entered GENERATING_CONTENT w2)) as H2
    end.
    match type of H1 with _ = (Ok ?ba, _) =>
    match type of H2 with _ = (Ok ?cg, ?w3) =>
      run (_execute_with_retry (_stage_campaign_execution hiccup cg ba email_input) 3
             (entered EXECUTING_CAMPAIGN w3)) as H3
    end end.
    match type of Hstart with _ = (Ok ?r0, ?w0) =>
    match type of H1 with _ = (Ok ?ba, ?w2) =>
    match type of H2 with _ = (Ok ?cg, ?w3) =>
    match type of H3 with _ = (Ok ?cr, ?w4) =>
      destruct (H r0 w0 ba w2 cg w3 cr w4 eq_refl Hstart H1 H2 H3)
        as (result & w5 & _ & _ & _ & Hend & Hst & _ & _ & _ & Hm1 & _ & _ & Hm5)
    end end end end.
    exists result, w5. split; [exact Hend|]. split; [exact Hst|].
    split; [exact Hm1|exact Hm5].
  - destruct (workflow_state_order no_loop outage email_input empty_world) as [_ H].
    run (start_workflow outage empty_world) as Hstart.
    match type of Hstart with _ = (Ok ?r0, ?w0) =>
      destruct (H r0 w0 Hstart) as (H1 & _);
      run (_execute_with_retry (_stage_brand_analysis outage email_input) 3
             (entered ANALYZING_BRAND w0)) as Hretry
    end.
    match type of Hretry with _ = (Raise ?e, ?w') => exact (H1 e w' Hretry) end.
Defined.

Lemma workflow_result_invariant_witness :
  ∃ result,
    result_of (execute_workflow default_config outage email_input empty_world).1 = Some result
    ∧ wr_state result = FAILED
    ∧ is_Some (wr_error_message result)
    ∧ ∃ t, wr_completed_at result = Some t ∧ (wr_started_at result ≤ t)%N.
Proof.
  set (o := result_of (execute_workflow default_config outage email_input empty_world).1).
  let v := eval vm_compute in o in
    assert (Ho : o = v) by by_running.
  match type of Ho with _ = Some ?r =>
    exists r; split; [exact Ho|];
    destruct (workflow_result_invariant default_config outage email_input empty_world r Ho)
      as [_ HF]
  end.
  split; [reflexivity|]. exact (HF eq_refl).
Defined.

Lemma feedback_failure_witness :
  ∃ result w'',
    execute_workflow one_round fails_in_first_round email_input empty_world
    = (Raised boom result, w'')
    ∧ wr_state result = FAILED.
Proof.
  run (start_workflow fails_in_first_round empty_world) as Hstart.
  match type of Hstart with _ = (Ok ?r0, ?w0) =>
    run (run_stages fails_in_first_round email_input (r0, w0)) as Hrun
  end.
  match type of Hrun with _ = (Ok (?ba, ?cg, ?cr), ?s3) =>
    run (feedback_iteration fails_in_first_round email_input ba cr
           (round_state fails_in_first_round email_input ba cr 0 s3)) as Hraise
  end.
  match type of Hstart with _ = (Ok ?r0, ?w0) =>
  match type of Hrun with _ = (Ok (?ba, ?cg, ?cr), ?s3) =>
  match type of Hraise with _ = (Raise ?e, ?s') =>
    pose proof (feedback_failure one_round fails_in_first_round email_input empty_world
                  r0 w0 ba cg cr s3 0 e s' Hstart Hrun eq_refl) as H
  end end end.
  assert (H2 := H ltac:(by_running) ltac:(vm_compute; lia) ltac:(intros j Hj; lia) Hraise).
  destruct H2 as ((result & w'' & Hend & Hst & _) & _).
  exists result, w''. split; [exact Hend|exact Hst].
Defined.

(** The store after a round aborted in [execute_campaign] does not hold
    the content of before the round. *)
Lemma feedback_failure_counterexample :
  let E := fails_in_first_round in
  let started := start_workflow E empty_world in
  ∃ r0 ba cg cr e,
    started = (Ok r0, snd started)
    ∧ let staged := run_stages E email_input (r0, snd started) in
      staged = (Ok (ba, cg, cr), snd staged)
      ∧ _should_optimize cr email_input = true
      ∧ let aborted := feedback_iteration E email_input ba cr (snd staged) in
        aborted = (Raise e, snd aborted)
        ∧ let ended := execute_workflow one_round E email_input empty_world in
          (∃ result, fst ended = Raised e result)
          ∧ memory (snd ended) !! "content_generation"
            ≠ memory (snd staged).2 !! "content_generation".
Proof.
  intros E started.
  run (start_workflow fails_in_first_round empty_world) as Hstart.
  match type of Hstart with _ = (Ok ?r0, ?w0) =>
    run (run_stages fails_in_first_round email_input (r0, w0)) as Hrun
  end.
  match type of Hrun with _ = (Ok (?ba, ?cg, ?cr), ?s3) =>
    run (feedback_iteration fails_in_first_round email_input ba cr s3) as Hraise
  end.
  match type of Hstart with _ = (Ok ?r0, _) =>
  match type of Hrun with _ = (Ok (?ba, ?cg, ?cr), _) =>
  match type of Hraise with _ = (Raise ?e, _) =>
    exists r0, ba, cg, cr, e
  end end end.
  split; [exact Hstart|]. intros staged. split; [exact Hrun|]. split; [by_running|].
  intros aborted. split; [exact Hraise|]. intros ended. split.
  - eexists. by_running.
  - vm_compute. intros [=].
Qed.

(** * Further properties *)

Import SharedMemoryOps.

(** ** The session store beside the workflow *)

(** *** [update] *)

Lemma update_open updates : ∀ w,
  is_Some (session_id w) → NoDup updates.*1 →
  ∃ w', update updates w = (Ok tt, w')
    ∧ session_id w' = session_id w ∧ clock w' = clock w ∧ trace w' = trace w
    ∧ (∀ key obj, (key, obj) ∈ updates → key ≠ "updated_at" →
         memory w' !! key = Some (plain obj))
    ∧ (∀ key, key ∉ updates.*1 → key ≠ "updated_at" → memory w' !! key = memory w !! key).
Proof.
  induction updates as [|[key obj] rest IH]; intros w Hs Hnd.
  - exists w. repeat split; try done. intros key obj Hin. by apply elem_of_nil in Hin.
  - apply NoDup_cons in Hnd as [Hfresh Hnd]. simpl in Hfresh.
    destruct (save_open key obj w Hs) as (w1 & Hsave & Hsid & Hc & Ht & Hm & _).
    destruct (IH w1) as (w' & Hupd & Hsid' & Hc' & Ht' & Hset & Hrest);
      [by rewrite Hsid|done|].
    exists w'. cbn [update]. unfold bind at 1. rewrite Hsave.
    split; [exact Hupd|]. split; [congruence|]. split; [congruence|]. split; [congruence|].
    split.
    + intros k o Hin Hk. apply elem_of_cons in Hin as [[= -> ->]|Hin]; [|by apply Hset].
      rewrite Hrest by done. rewrite Hm, lookup_insert_ne by done.
      by rewrite lookup_insert_eq.
    + intros k Hk Hne. simpl in Hk. apply not_elem_of_cons in Hk as [Hk1 Hk2].
      rewrite Hrest by done. rewrite Hm, lookup_insert_ne by done.
      by rewrite lookup_insert_ne.
Qed.

(** X1: [update] saves every item: with a session open each key other
    than ["updated_at"] then reads back the plain form of its value and
    the keys it was not given are as before; without a session it
    raises at the first item and changes nothing, except that the empty
    update returns, session or not. *)
Theorem update_spec (updates : list (string * pyobj)) (w : world) :
  (updates = [] → update updates w = (Ok tt, w))
  ∧ (session_id w = None → updates ≠ [] →
       update updates w = (Raise no_active_session, w))
  ∧ (is_Some (session_id w) → NoDup updates.*1 →
       ∃ w', update updates w = (Ok tt, w')
         ∧ (∀ key obj default, (key, obj) ∈ updates → key ≠ "updated_at" →
              get key default w' = (Ok (plain obj), w'))
         ∧ (∀ key default, key ∉ updates.*1 → key ≠ "updated_at" →
              (get key default w').1 = (get key default w).1)).
Proof.
  split; [by intros ->|]. split.
  - intros Hs Hne. destruct updates as [|[key obj] rest]; [done|].
    cbn [update]. unfold bind. by rewrite save_closed.
  - intros Hs Hnd.
    destruct (update_open updates w Hs Hnd) as (w' & Hupd & _ & _ & _ & Hset & Hrest).
    exists w'. split; [done|]. split.
    + intros key obj default Hin Hk. rewrite get_pure. by rewrite (Hset key obj).
    + intros key default Hk Hne. rewrite !get_pure. simpl. by rewrite Hrest.
Qed.

Lemma update_spec_witness :
  let w := (create_session (Some "s1") empty_world).2 in
  ∃ w', update [("a", Plain (VInt 1)); ("b", Model [("x", VNone)])] w = (Ok tt, w')
        ∧ get "b" VNone w' = (Ok (VDict [("x", VNone)]), w')
        ∧ (get "workflow_state" VNone w').1 = Ok (VStr "pending").
Proof.
  intros w.
  destruct (update_spec [("a", Plain (VInt 1)); ("b", Model [("x", VNone)])] w)
    as (_ & _ & H).
  destruct H as (w' & Hupd & Hset & Hrest).
  - by eexists.
  - compute_done.
  - exists w'. split; [exact Hupd|]. split.
    + apply (Hset "b" (Model [("x", VNone)])); [by right; left|done].
    + rewrite (Hrest "workflow_state" VNone); [done|compute_done|done].
Defined.

(** *** Messages *)

(** What a successful [append_message] leaves. *)
Lemma append_message_run m w xs :
  memory w !! "messages" = Some (VList xs) ∨ (memory w !! "messages" = None ∧ xs = []) →
  append_message m w
  = (Ok tt,
     let mem := <["messages" := VList (xs ++ [message_dump m])]> (memory w) in
     match session_id w with
     | Some sid => set_files (<[sid := json_roundtrip <$> mem]> (files w)) (set_memory mem w)
     | None => set_memory mem w
     end).
Proof.
  intros Hmsg. destruct w as [c a t sid mem fs]. cbn [memory session_id files] in *.
  unfold append_message, bind at 1, modify at 1. cbn [memory].
  destruct Hmsg as [Hm|[Hm ->]]; rewrite Hm.
  - unfold bind, get, gets, modify, _persist. cbn. rewrite Hm. cbn. by destruct sid.
  - unfold bind, get, gets, modify, _persist. cbn. rewrite lookup_insert_eq. cbn.
    rewrite insert_insert_eq. by destruct sid.
Qed.

(** X2: [append_message] puts the (dumped) message at the end of the
    message list, which it creates when the key is missing; no other key
    changes (there is no [updated_at] stamp), and no session is needed:
    without one the message is kept in memory and nothing is written.
    When ["messages"] holds something that is not a list, the call
    raises [AttributeError] and changes nothing. *)
Theorem append_message_spec (m : message) (w : world) :
  (∀ xs, memory w !! "messages" = Some (VList xs)
         ∨ (memory w !! "messages" = None ∧ xs = []) →
     ∃ w', append_message m w = (Ok tt, w')
       ∧ get_messages None None w' = (Ok (VList (xs ++ [message_dump m])), w')
       ∧ (∀ key, key ≠ "messages" → memory w' !! key = memory w !! key)
       ∧ session_id w' = session_id w ∧ clock w' = clock w ∧ trace w' = trace w
       ∧ files w' = match session_id w with
                    | None => files w
                    | Some sid => <[sid := json_roundtrip <$> memory w']> (files w)
                    end)
  ∧ (∀ v, memory w !! "messages" = Some v → (∀ xs, v ≠ VList xs) →
       append_message m w = (Raise (no_attribute v "append"), w)).
Proof.
  split.
  - intros xs Hmsg. rewrite (append_message_run m w xs Hmsg). cbv zeta.
    eexists. split; [reflexivity|].
    destruct (session_id w) as [sid|] eqn:Hsid;
      unfold get_messages, bind, get, gets;
      cbn [fst snd memory files session_id clock trace set_memory set_files
           filter_messages obind];
      rewrite lookup_insert_eq, ?Hsid;
      (split; [done|]);
      (split; [intros key Hk; by rewrite lookup_insert_ne|done]).
  - intros v Hm Hv. unfold append_message, bind at 1, modify at 1. rewrite Hm.
    unfold bind, get, gets. cbn [fst snd]. rewrite Hm.
    destruct v; try done. by destruct (Hv xs).
Qed.

Lemma append_message_spec_witness :
  ∃ w', append_message (AgentMessage [("from_agent", VStr "coordinator")]) empty_world
        = (Ok tt, w')
        ∧ get_messages None None w'
          = (Ok (VList [VDict [("from_agent", VStr "coordinator")]]), w')
        ∧ files w' = ∅.
Proof.
  destruct (append_message_spec (AgentMessage [("from_agent", VStr "coordinator")])
              empty_world) as [H _].
  destruct (H []) as (w' & Happ & Hget & _ & _ & _ & _ & Hf); [by right|].
  exists w'. split; [exact Happ|]. split; [exact Hget|exact Hf].
Defined.

Lemma select_dicts key agent (ds : list (list (string * value))) :
  select key agent (map VDict ds)
  = Ok (map VDict (List.filter (addressed key (Some agent)) ds))
    ∨ agent = "".
Proof.
  destruct (String.eqb_spec agent "") as [->|Hne]; [by right|left].
  induction ds as [|kvs ds IH]; [done|].
  cbn [map select List.filter]. rewrite IH. cbn [obind].
  unfold addressed. apply String.eqb_neq in Hne. rewrite Hne.
  destruct (dict_get kvs key) as [[]|]; try done.
  by destruct (String.eqb s agent).
Qed.

Lemma filter_messages_dicts key agent (ds : list (list (string * value))) :
  filter_messages key agent (VList (map VDict ds))
  = Ok (VList (map VDict (List.filter (addressed key agent) ds))).
Proof.
  assert (∀ f : list (string * value) → bool, (∀ d, f d = true) → List.filter f ds = ds)
    as Hall.
  { intros f Hf. induction ds as [|d ds IH]; [done|]. simpl. by rewrite Hf, IH. }
  destruct agent as [a|]; cbn [filter_messages]; [|by rewrite Hall].
  destruct (String.eqb_spec a "") as [->|Hne]; [by rewrite Hall|].
  cbn [iterate obind]. by destruct (select_dicts key a ds) as [->|?].
Qed.

(** X3: on a message list made of dictionaries, [get_messages] returns,
    in order, the messages whose ["from_agent"] and ["to_agent"] are the
    two given names; an omitted or empty name does not filter; the store
    is not changed.  A filter on a list that holds something else than
    dictionaries raises [AttributeError], though the unfiltered call
    returns that list. *)
Theorem get_messages_spec (w : world) :
  (∀ ds from_agent to_agent,
     memory w !! "messages" = Some (VList (map VDict ds)) →
     get_messages from_agent to_agent w
     = (Ok (VList (map VDict
                     (List.filter (fun kvs => addressed "from_agent" from_agent kvs
                                              && addressed "to_agent" to_agent kvs) ds))), w))
  ∧ (∀ v xs agent,
       memory w !! "messages" = Some (VList (v :: xs)) → (∀ kvs, v ≠ VDict kvs) →
       agent ≠ "" →
       get_messages (Some agent) None w = (Raise (no_attribute v "get"), w)
       ∧ get_messages None None w = (Ok (VList (v :: xs)), w)).
Proof.
  split.
  - intros ds from_agent to_agent Hm. unfold get_messages, bind, get, gets.
    cbn [fst snd]. rewrite Hm, filter_messages_dicts. cbn [obind].
    rewrite filter_messages_dicts. do 4 f_equal. clear Hm.
    induction ds as [|d ds IH]; [done|]. cbn [List.filter].
    destruct (addressed "from_agent" from_agent d); cbn [List.filter andb]; [|done].
    destruct (addressed "to_agent" to_agent d); by rewrite IH.
  - intros v xs agent Hm Hv Hne. unfold get_messages, bind, get, gets.
    cbn [fst snd]. rewrite Hm. split; [|done].
    cbn [filter_messages]. apply String.eqb_neq in Hne. rewrite Hne.
    cbn [iterate obind select]. destruct v; try done. by destruct (Hv kvs).
Qed.

Lemma get_messages_spec_witness :
  let w := set_memory {["messages" :=
             VList (map VDict [[("from_agent", VStr "strategist"); ("to_agent", VStr "engine")];
                               [("from_agent", VStr "engine"); ("to_agent", VStr "manager")];
                               [("note", VInt 1)]])]} empty_world in
  get_messages (Some "engine") (Some "") w
  = (Ok (VList [VDict [("from_agent", VStr "engine"); ("to_agent", VStr "manager")]]), w).
Proof.
  intros w. destruct (get_messages_spec w) as [H _].
  exact (H [[("from_agent", VStr "strategist"); ("to_agent", VStr "engine")];
            [("from_agent", VStr "engine"); ("to_agent", VStr "manager")];
            [("note", VInt 1)]] (Some "engine") (Some "") eq_refl).
Defined.

(** *** [clear] *)

Lemma clear_run sid w :
  session_id w = Some sid → sid ≠ "" →
  clear w
  = (Ok tt,
     let mem := <["session_id" := VStr sid]>
                (<["created_at" := VStr (isoformat (clock w))]>
                (<["cleared_at" := VStr (isoformat (clock w))]> ∅)) in
     set_files (<[sid := mem]> (files w)) (set_memory mem w)).
Proof.
  intros Hs Hne. apply String.eqb_neq in Hne.
  destruct w as [c a t s mem fs]. cbn [session_id] in Hs. subst s.
  unfold clear, bind at 1, gets at 1. cbn [fst snd session_id]. rewrite Hne.
  unfold _persist, bind, now, gets, modify.
  cbn [fst snd session_id memory files clock set_memory set_files].
  by rewrite !fmap_insert, fmap_empty.
Qed.

(** X4: [clear] with a session open forgets everything but the
    session id: every other key then reads back its default, so the
    workflow state reads ["pending"] whatever it was; the session file
    is rewritten to match, and the session stays open.  Without a
    session, or with the empty session id, [clear] does nothing. *)
Theorem clear_spec (w : world) :
  (∀ sid, session_id w = Some sid → sid ≠ "" →
     ∃ w', clear w = (Ok tt, w')
       ∧ session_id w' = Some sid
       ∧ get "session_id" VNone w' = (Ok (VStr sid), w')
       ∧ (∀ key default, key ∉ ["session_id"; "created_at"; "cleared_at"] →
            get key default w' = (Ok default, w'))
       ∧ get_workflow_state w' = (Ok (VStr "pending"), w')
       ∧ files w' !! sid = Some (memory w')
       ∧ (∀ other, other ≠ sid → files w' !! other = files w !! other))
  ∧ (session_id w = None ∨ session_id w = Some "" → clear w = (Ok tt, w)).
Proof.
  split.
  - intros sid Hs Hne. rewrite (clear_run sid w Hs Hne). cbv zeta.
    eexists. split; [reflexivity|]. cbn [session_id memory files set_files set_memory].
    split; [done|]. rewrite !get_pure. cbn [memory set_files set_memory].
    split; [by rewrite lookup_insert_eq|].
    assert (∀ key default, key ∉ ["session_id"; "created_at"; "cleared_at"] →
              match (<["session_id" := VStr sid]>
                      (<["created_at" := VStr (isoformat (clock w))]>
                      (<["cleared_at" := VStr (isoformat (clock w))]> ∅))
                     : gmap string value) !! key with
              | Some v => v
              | None => default
              end = default) as Hgone.
    { intros key default Hk. apply not_elem_of_cons in Hk as [H1 Hk].
      apply not_elem_of_cons in Hk as [H2 Hk]. apply not_elem_of_cons in Hk as [H3 _].
      by rewrite !lookup_insert_ne, lookup_empty. }
    split; [intros key default Hk; rewrite get_pure; cbn [memory set_files set_memory];
            by rewrite Hgone|].
    split.
    { unfold get_workflow_state. rewrite get_pure. cbn [memory set_files set_memory].
      rewrite Hgone; [done|]. compute_done. }
    split; [by rewrite lookup_insert_eq|].
    intros other Hother. by rewrite lookup_insert_ne.
  - intros [Hs|Hs]; unfold clear, bind, gets; cbn [fst snd]; by rewrite Hs.
Qed.

Lemma clear_spec_witness :
  let w := (enter_state COMPLETED
              (set_state PENDING
                 {| wr_workflow_id := "id"; wr_state := PENDING; wr_brand_analysis := None;
                    wr_content_generation := None; wr_campaign_result := None;
                    wr_error_message := None; wr_started_at := 0; wr_completed_at := None |},
               (create_session (Some "s1") empty_world).2)).2.2 in
  get_workflow_state w = (Ok (VStr "completed"), w)
  ∧ ∃ w', clear w = (Ok tt, w') ∧ get_workflow_state w' = (Ok (VStr "pending"), w').
Proof.
  intros w. split; [by vm_compute|].
  destruct (clear_spec w) as [H _].
  destruct (H "s1" eq_refl ltac:(done)) as (w' & Hclear & _ & _ & _ & Hstate & _).
  exists w'. split; [exact Hclear|exact Hstate].
Defined.

(** *** Session files *)

Lemma elem_of_session_list (fs : gmap string (gmap string value)) s :
  s ∈ session_file_stem <$> (map_to_list fs).*1
  ↔ ∃ sid, is_Some (fs !! sid) ∧ s = session_file_stem sid.
Proof.
  rewrite list_elem_of_fmap. split.
  - intros (sid & -> & Hin). apply list_elem_of_fmap in Hin as ([sid' doc] & -> & Hin).
    apply elem_of_map_to_list in Hin. exists sid'. split; [by eexists|done].
  - intros (sid & [doc Hdoc] & ->). exists sid. split; [done|].
    apply list_elem_of_fmap. exists (sid, doc). split; [done|].
    by apply elem_of_map_to_list.
Qed.

(** X5: [delete_session] removes the file of a session and nothing
    else: the session can no longer be loaded, [list_sessions] gives
    the stems of the other files, and those files, the mapping in
    memory and the open session are as before.
    Deleting the file of the session that is open does not close it:
    the next [save] writes the file again.  Deleting a session that has
    no file returns [False] and changes nothing. *)
Theorem delete_session_spec (w : world) (sid : string) :
  (files w !! sid = None → delete_session sid w = (Ok false, w))
  ∧ (is_Some (files w !! sid) →
       ∃ w', delete_session sid w = (Ok true, w')
         ∧ load_session sid w' = (Ok false, w')
         ∧ (∀ l, list_sessions w' = (Ok l, w') →
              ∀ s, s ∈ l ↔ ∃ other, other ≠ sid ∧ is_Some (files w !! other)
                                    ∧ s = session_file_stem other)
         ∧ (∀ other, other ≠ sid → files w' !! other = files w !! other)
         ∧ memory w' = memory w ∧ session_id w' = session_id w
         ∧ (session_id w = Some sid → ∀ key obj,
              ∃ w'', save key obj w' = (Ok tt, w'') ∧ load_session sid w''
                     = (Ok true, set_session_id (Some sid)
                                   (set_memory (json_roundtrip <$> memory w'') w'')))).
Proof.
  split.
  - intros Hf. unfold delete_session. by rewrite Hf.
  - intros [doc Hf]. unfold delete_session. rewrite Hf. eexists. split; [reflexivity|].
    cbn [files memory session_id set_files]. split.
    { unfold load_session. cbn [files set_files]. by rewrite lookup_delete_eq. }
    split.
    { intros l [= <-] s. rewrite elem_of_session_list. cbn [files set_files]. split.
      - intros (other & Hfile & ->). exists other.
        destruct (decide (other = sid)) as [->|Hne].
        + rewrite lookup_delete_eq in Hfile. by destruct Hfile.
        + by rewrite lookup_delete_ne in Hfile.
      - intros (other & Hne & Hfile & ->). exists other.
        by rewrite lookup_delete_ne. }
    split; [intros other Hne; by rewrite lookup_delete_ne|].
    split; [done|]. split; [done|].
    intros Hs key obj.
    destruct (save_open key obj (set_files (delete sid (files w)) w))
      as (w'' & Hsave & _ & _ & _ & _ & sid' & Hs' & Hfiles);
      [cbn [session_id set_files]; by rewrite Hs|].
    cbn [session_id set_files] in Hs'. rewrite Hs in Hs'. injection Hs' as <-.
    exists w''. split; [exact Hsave|]. unfold load_session.
    by rewrite Hfiles, lookup_insert_eq.
Qed.

Lemma delete_session_spec_witness :
  let w := (create_session (Some "s1") empty_world).2 in
  ∃ w', delete_session "s1" w = (Ok true, w')
        ∧ load_session "s1" w' = (Ok false, w')
        ∧ ∃ w'', save "k" (Plain (VInt 1)) w' = (Ok tt, w'')
                 ∧ (load_session "s1" w'').1 = Ok true.
Proof.
  intros w. destruct (delete_session_spec w "s1") as [_ H].
  destruct H as (w' & Hdel & Hload & _ & _ & _ & _ & Hsave); [compute_done|].
  exists w'. split; [exact Hdel|]. split; [exact Hload|].
  destruct (Hsave eq_refl "k" (Plain (VInt 1))) as (w'' & Hs & Hl).
  exists w''. split; [exact Hs|]. by rewrite Hl.
Defined.

(** X6: when [create_session] returns, its id is the one it was given,
    the session is open on the initial mapping, and the file of the id
    holds that mapping whatever it held before.  The id made up for a
    call without one has the resolution of a second: two such calls
    whose clocks read the same second use the same id, so the second
    call replaces the file of the first. *)
Theorem create_session_overwrites (w w' : world) :
  (∀ sid_opt sid w1,
     create_session sid_opt w = (Ok sid, w1) →
     (∀ s, sid_opt = Some s → sid = s)
     ∧ session_id w1 = Some sid
     ∧ memory w1 = initial_memory sid (clock w)
     ∧ files w1 !! sid = Some (initial_memory sid (clock w)))
  ∧ ((clock w / 1000000 = clock w' / 1000000)%N →
     ∃ sid w1 w2,
       create_session None w = (Ok sid, w1) ∧ create_session None w' = (Ok sid, w2)
       ∧ files w2 !! sid = Some (initial_memory sid (clock w'))).
Proof.
  split.
  - intros sid_opt sid w1. pose proof (create_session_run sid_opt w) as Hrun.
    cbv zeta in Hrun. rewrite Hrun. intros [= <- <-].
    cbn [session_id memory files set_files set_memory set_session_id].
    split; [by intros s ->|]. split; [done|]. split; [done|apply lookup_insert_eq].
  - intros Hsec. pose proof (create_session_run None w) as Hrun.
    pose proof (create_session_run None w') as Hrun'. cbv zeta in Hrun, Hrun'.
    unfold strftime_seconds in *. rewrite <- Hsec in Hrun'.
    eexists _, _, _. split; [exact Hrun|]. split; [exact Hrun'|].
    cbn [files set_files]. by rewrite lookup_insert_eq.
Qed.

Lemma create_session_overwrites_witness :
  let w := set_clock (fun _ => 5000000%N) empty_world in
  let w' := (save "brand_analysis" (Plain (VStr "kept?"))
               (set_clock (fun t => t + 999999)%N (create_session None w).2)).2 in
  ∃ sid w1 w2,
    create_session None w = (Ok sid, w1) ∧ create_session None w' = (Ok sid, w2)
    ∧ (files w' !! sid ≫= (.!! "brand_analysis")) = Some (VStr "kept?")
    ∧ (files w2 !! sid ≫= (.!! "brand_analysis")) = Some VNone.
Proof.
  intros w w'. destruct (create_session_overwrites w w') as [_ H].
  destruct H as (sid & w1 & w2 & H1 & H2 & Hf); [by vm_compute|].
  exists sid, w1, w2. split; [exact H1|]. split; [exact H2|].
  assert (sid = "session_5") as -> by (apply (f_equal fst) in H1; by injection H1).
  split; [by vm_compute|]. by rewrite Hf.
Defined.

(** *** What comes back from disk *)

(** The data [json] writes as they are come back as they went. *)
Lemma json_roundtrip_native : ∀ v, json_roundtrip v = v ↔ json_native v = true.
Proof.
  fix IH 1. intros v. destruct v as [| | | | |xs|kvs|t]; try by (split; [done|done]).
  - cbn [json_roundtrip json_native]. induction xs as [|x xs IHxs]; [done|].
    cbn [map forallb]. rewrite andb_true_iff, <- (IH x), <- IHxs. split.
    + intros [= Hx Hxs]. split; [done|]. by rewrite Hxs.
    + intros [Hx [= Hxs]]. by rewrite Hx, Hxs.
  - cbn [json_roundtrip json_native]. induction kvs as [|[k x] kvs IHkvs]; [done|].
    cbn [map forallb fst snd]. rewrite andb_true_iff, <- (IH x), <- IHkvs. split.
    + intros [= Hx Hxs]. split; [done|]. by rewrite Hxs.
    + intros [Hx [= Hxs]]. by rewrite Hx, Hxs.
Qed.

(** X7: what [save] stored comes back from the session file, loaded by
    a fresh instance on the same directory, as its JSON round trip: the
    same value exactly when it holds no [datetime], which comes back as
    text. *)
Theorem save_then_reload (w w1 w0 : world) (sid key : string) (obj : pyobj) :
  session_id w = Some sid → key ≠ "updated_at" →
  save key obj w = (Ok tt, w1) →
  ∃ w2, load_session sid (init (files w1) w0) = (Ok true, w2)
        ∧ session_id w2 = Some sid
        ∧ memory w2 = json_roundtrip <$> memory w1
        ∧ get key VNone w2 = (Ok (json_roundtrip (plain obj)), w2)
        ∧ (json_roundtrip (plain obj) = plain obj ↔ json_native (plain obj) = true).
Proof.
  intros Hs Hkey Hsave.
  destruct (save_open key obj w) as (w1' & Hsave' & _ & _ & _ & Hm & sid' & Hs' & Hf);
    [by rewrite Hs|].
  rewrite Hsave in Hsave'. injection Hsave' as <-.
  rewrite Hs in Hs'. injection Hs' as <-.
  unfold load_session, init. cbn [files set_files]. rewrite Hf, lookup_insert_eq.
  eexists. split; [reflexivity|]. cbn [session_id memory set_session_id set_memory].
  split; [done|]. split; [done|]. split; [|apply json_roundtrip_native].
  rewrite get_pure. cbn [memory set_session_id set_memory].
  rewrite lookup_fmap, Hm, lookup_insert_ne by done. by rewrite lookup_insert_eq.
Qed.

Lemma save_then_reload_witness :
  let w := (create_session (Some "s1") empty_world).2 in
  let obj := Model [("analysis_id", VStr "a"); ("created_at", VDatetime 7)] in
  ∃ w2, load_session "s1" (init (files (save "brand_analysis" obj w).2) empty_world)
        = (Ok true, w2)
        ∧ get "brand_analysis" VNone w2
          = (Ok (VDict [("analysis_id", VStr "a"); ("created_at", VStr (str_datetime 7))]), w2).
Proof.
  intros w obj.
  destruct (save_then_reload w (save "brand_analysis" obj w).2 empty_world "s1"
              "brand_analysis" obj eq_refl ltac:(done))
    as (w2 & Hload & _ & _ & Hget & _).
  - destruct (save_open "brand_analysis" obj w) as (w1 & Hsave & _); [by eexists|].
    by rewrite Hsave.
  - exists w2. split; [exact Hload|exact Hget].
Defined.

(** X8: [export_session] of another session reads that session's file:
    what the session last persisted, JSON round trip included, and the
    open session is not touched; for a session that has no file it
    raises [FileNotFoundError], where [load_session] returns [False].
    Without an id, with the empty id or with the id of the open session
    it returns the mapping in memory. *)
Theorem export_session_spec (w : world) :
  (∀ sid key obj w1 w2 other,
     session_id w = Some sid → sid ≠ "" → save key obj w = (Ok tt, w1) →
     create_session (Some other) w1 = (Ok other, w2) → other ≠ sid →
     export_session (Some sid) w2 = (Ok (json_roundtrip <$> memory w1), w2))
  ∧ (∀ sid, sid ≠ "" → session_id w ≠ Some sid → files w !! sid = None →
       export_session (Some sid) w = (Raise (FileNotFoundError sid), w)
       ∧ load_session sid w = (Ok false, w))
  ∧ export_session None w = (Ok (memory w), w)
  ∧ export_session (Some "") w = (Ok (memory w), w)
  ∧ (∀ sid, session_id w = Some sid → export_session (Some sid) w = (Ok (memory w), w)).
Proof.
  split; [|split; [|split; [done|split; [done|]]]].
  - intros sid key obj w1 w2 other Hs Hne Hsave Hcreate Hother.
    destruct (save_open key obj w) as (w1' & Hsave' & _ & _ & _ & _ & sid' & Hs' & Hf);
      [by rewrite Hs|].
    rewrite Hsave in Hsave'. injection Hsave' as <-.
    rewrite Hs in Hs'. injection Hs' as <-.
    pose proof (create_session_run (Some other) w1) as Hrun. cbv zeta in Hrun.
    rewrite Hcreate in Hrun. injection Hrun as ->.
    unfold export_session. cbn [session_id files set_files set_memory set_session_id].
    apply String.eqb_neq in Hne. rewrite Hne. cbn [negb andb].
    rewrite bool_decide_eq_false_2 by (intros [=]; congruence). cbn [negb].
    rewrite lookup_insert_ne by done. by rewrite Hf, lookup_insert_eq.
  - intros sid Hne Hs Hf. unfold export_session, load_session. rewrite Hf.
    apply String.eqb_neq in Hne. rewrite Hne. cbn [negb andb].
    by rewrite bool_decide_eq_false_2 by congruence.
  - intros sid Hs. unfold export_session. rewrite Hs.
    rewrite bool_decide_eq_true_2 by done. by rewrite andb_false_r.
Qed.

Lemma export_session_spec_witness :
  let w := (create_session (Some "a") empty_world).2 in
  let w1 := (save "k" (Plain (VDatetime 3)) w).2 in
  let w2 := (create_session (Some "b") w1).2 in
  (export_session (Some "a") w2).1 = Ok (json_roundtrip <$> memory w1)
  ∧ (export_session (Some "zz") w2).1 = Raise (FileNotFoundError "zz").
Proof.
  intros w w1 w2. destruct (export_session_spec w) as [H _].
  destruct (export_session_spec w2) as (_ & H' & _).
  split.
  - assert (save "k" (Plain (VDatetime 3)) w = (Ok tt, w1)) as Hsave.
    { destruct (save_open "k" (Plain (VDatetime 3)) w) as (w1' & Hsave & _); [by eexists|].
      subst w1. by rewrite Hsave. }
    assert (create_session (Some "b") w1 = (Ok "b", w2)) as Hcreate.
    { pose proof (create_session_run (Some "b") w1) as Hrun. cbv zeta in Hrun.
      subst w2. by rewrite Hrun. }
    by rewrite (H "a" "k" (Plain (VDatetime 3)) w1 w2 "b" eq_refl ltac:(done) Hsave Hcreate
                  ltac:(done)).
  - by destruct (H' "zz") as [-> _].
Defined.

Import PositioningParser.

(** ** The retry wrapper without attempts *)

(** X9: with a bound of zero or less the retry wrapper never calls the
    operation: the loop body does not run, and [raise last_error] with
    [last_error] still [None] raises [TypeError]. *)
Theorem execute_with_retry_no_attempt {A : Type} (func : M world A) (max_retries : Z)
    (w : world) :
  (max_retries ≤ 0)%Z →
  _execute_with_retry func max_retries w = (Raise raise_None, w).
Proof.
  intros Hmax. unfold _execute_with_retry.
  by replace (Z.to_nat max_retries) with 0 by lia.
Qed.

Lemma execute_with_retry_no_attempt_witness :
  _execute_with_retry (scripted "op" flaky) 0 empty_world = (Raise raise_None, empty_world)
  ∧ invocations "op" empty_world = 0.
Proof.
  split; [|done].
  apply (execute_with_retry_no_attempt (scripted "op" flaky) 0 empty_world). lia.
Defined.

(** ** The positioning reply *)

Lemma Platform_of_value p : Platform_of (VStr (platform_value p)) = Some p.
Proof. by destruct p. Qed.

Lemma Platform_of_Some v p : Platform_of v = Some p → v = VStr (platform_value p).
Proof.
  destruct v as [| | | |s| | |]; try done. unfold Platform_of.
  intros H. apply find_some in H as [_ H]. apply String.eqb_eq in H. by rewrite H.
Qed.

Lemma channels_loop_omap channels : ∀ recommended_channels,
  channels_loop channels recommended_channels
  = recommended_channels ++ omap Platform_of channels.
Proof.
  induction channels as [|c channels IH]; intros acc; simpl.
  - by rewrite app_nil_r.
  - destruct (Platform_of c) as [p|]; rewrite IH; [by rewrite <- app_assoc|done].
Qed.

Lemma omap_Platform_of_length channels :
  (length (omap Platform_of channels) ≤ length channels)%nat.
Proof.
  induction channels as [|c channels IH]; [done|].
  change (omap Platform_of (c :: channels))
    with (match Platform_of c with
          | Some p => p :: omap Platform_of channels
          | None => omap Platform_of channels
          end).
  destruct (Platform_of c); simpl; lia.
Qed.

(** X10: of the channels the service recommends, the recognized values of
    [Platform] are kept, in their order and with their repetitions, and
    every other entry is dropped without an error; without the key there
    are no channels.  (The other fields are lists of strings or
    missing.) *)
Theorem positioning_channels (kvs : list (string * value)) :
  present_ok kvs "key_messages" is_str_list = true →
  present_ok kvs "differentiation_points" is_str_list = true →
  present_ok kvs "content_themes" is_str_list = true →
  (∀ channels, dict_get kvs "recommended_channels" = Some (VList channels) →
     ∃ strategy, positioning_strategy_of_document (VDict kvs) = Ok strategy
       ∧ ps_recommended_channels strategy = omap Platform_of channels
       ∧ (∀ p, p ∈ ps_recommended_channels strategy ↔ VStr (platform_value p) ∈ channels)
       ∧ (length (ps_recommended_channels strategy) ≤ length channels)%nat)
  ∧ (dict_get kvs "recommended_channels" = None →
       ∃ strategy, positioning_strategy_of_document (VDict kvs) = Ok strategy
         ∧ ps_recommended_channels strategy = []).
Proof.
  intros Hkm Hdp Hct.
  destruct (field_str_list _ _ "PositioningStrategy" Hkm) as (km & Ekm & _).
  destruct (field_str_list _ _ "PositioningStrategy" Hdp) as (dp & Edp & _).
  destruct (field_str_list _ _ "PositioningStrategy" Hct) as (ct & Ect & _).
  split.
  - intros channels Hch. unfold positioning_strategy_of_document.
    rewrite Hch. cbn [iterate obind]. rewrite Ekm, Edp, Ect. cbn [obind].
    eexists. split; [reflexivity|]. cbn [ps_recommended_channels].
    rewrite channels_loop_omap, app_nil_l. split; [done|]. split.
    + intros p. rewrite list_elem_of_omap. split.
      * intros (v & Hin & Hv). apply Platform_of_Some in Hv. by subst v.
      * intros Hin. eexists. split; [exact Hin|]. apply Platform_of_value.
    + apply omap_Platform_of_length.
  - intros Hnone. unfold positioning_strategy_of_document.
    rewrite Hnone. cbn [iterate obind]. rewrite Ekm, Edp, Ect. cbn [obind].
    by eexists.
Qed.

Lemma positioning_channels_witness :
  ∃ strategy,
    positioning_strategy_of_document
      (VDict [("recommended_channels",
               VList [VStr "linkedin"; VStr "tiktok"; VInt 3; VStr "email"; VStr "linkedin"])])
    = Ok strategy
    ∧ ps_recommended_channels strategy = [LINKEDIN; EMAIL; LINKEDIN].
Proof.
  destruct (positioning_channels
              [("recommended_channels",
                VList [VStr "linkedin"; VStr "tiktok"; VInt 3; VStr "email"; VStr "linkedin"])]
              eq_refl eq_refl eq_refl) as [H _].
  destruct (H _ eq_refl) as (strategy & Hs & Hch & _).
  exists strategy. split; [exact Hs|exact Hch].
Defined.

(** ** The shape of the generated content *)

Lemma generate_platform_content_ok E bp platform n w a w' :
  _generate_platform_content E bp platform n w = (Ok a, w') → asset_for bp platform a.
Proof.
  unfold _generate_platform_content, bind, uuid4, ask, ret.
  destruct (platform_content_reply E (asked w)) as [draft|e]; [|done].
  intros [= <- _]. by repeat split.
Qed.

Lemma variants_loop_ok E bp platform nums : ∀ assets w result w',
  variants_loop E bp platform nums assets w = (Ok result, w') →
  ∃ new, result.1 = assets.1 ++ new
    ∧ Forall2 (fun _ a => asset_for bp platform a) nums new
    ∧ length result.2
      = (length assets.2 + if needs_visual platform then length nums else 0)%nat.
Proof.
  induction nums as [|n nums IH]; intros assets w result w'.
  - intros [= <- _]. exists []. rewrite app_nil_r. split; [done|].
    split; [by apply Forall2_nil|]. destruct (needs_visual platform); simpl; lia.
  - cbn [variants_loop]. unfold bind at 1.
    destruct (_generate_platform_content E bp platform n w) as [[a|e] w1] eqn:Ha; [|done].
    apply generate_platform_content_ok in Ha. unfold bind at 1.
    destruct (needs_visual platform) eqn:Hv.
    + unfold bind at 1.
      destruct (_generate_visual_prompt E a bp w1) as [[v|e] w2]; [|done].
      unfold ret at 1. intros Hrest. apply IH in Hrest as (new & Hnew & Hall & Hlen).
      exists (a :: new). cbn [fst snd] in *. rewrite Hnew, <- app_assoc.
      split; [done|]. split; [by constructor|].
      rewrite Hlen, length_app. simpl. lia.
    + unfold ret at 1. intros Hrest. apply IH in Hrest as (new & Hnew & Hall & Hlen).
      exists (a :: new). cbn [fst snd] in *. rewrite Hnew, <- app_assoc.
      split; [done|]. split; [by constructor|]. rewrite Hlen. simpl. lia.
Qed.

Lemma variants_for_platform bp p (nums : list nat) new :
  Forall2 (fun _ a => asset_for bp p a) nums new →
  Forall2 (asset_for bp) (replicate (length nums) p) new.
Proof. induction 1; by constructor. Qed.

Lemma platforms_loop_ok E bp num_variants target_platforms : ∀ assets w result w',
  platforms_loop E bp target_platforms num_variants assets w = (Ok result, w') →
  ∃ new, result.1 = assets.1 ++ new
    ∧ Forall2 (asset_for bp) (asset_platforms target_platforms (Z.to_nat num_variants)) new
    ∧ length result.2
      = (length assets.2
         + Z.to_nat num_variants * length (List.filter needs_visual target_platforms))%nat.
Proof.
  induction target_platforms as [|p ps IH]; intros assets w result w'.
  - intros [= <- _]. exists []. rewrite app_nil_r. split; [done|].
    split; [by apply Forall2_nil|]. simpl. lia.
  - cbn [platforms_loop]. unfold bind at 1.
    destruct (variants_loop E bp p (seq 0 (Z.to_nat num_variants)) assets w)
      as [[mid|e] w1] eqn:Hv; [|done].
    apply variants_loop_ok in Hv as (new1 & Hnew1 & Hall1 & Hlen1).
    intros Hrest. apply IH in Hrest as (new2 & Hnew2 & Hall2 & Hlen2).
    exists (new1 ++ new2). rewrite Hnew2, Hnew1, <- app_assoc. split; [done|]. split.
    + unfold asset_platforms. cbn [flat_map]. apply Forall2_app; [|done].
      apply variants_for_platform in Hall1. by rewrite length_seq in Hall1.
    + rewrite Hlen2, Hlen1. rewrite length_seq. cbn [List.filter].
      destruct (needs_visual p); simpl; lia.
Qed.

Lemma asset_platforms_length target_platforms n :
  length (asset_platforms target_platforms n) = (n * length target_platforms)%nat.
Proof.
  unfold asset_platforms. induction target_platforms as [|p ps IH]; simpl; [lia|].
  rewrite length_app, length_replicate, IH. lia.
Qed.

(** What [generate_content] has put together when it returns. *)
Lemma generate_content_returns E bp brief target_platforms num_variants w result w' :
  generate_content E bp brief target_platforms num_variants w = (Ok result, w') →
  Forall2 (asset_for bp) (asset_platforms target_platforms (Z.to_nat num_variants))
    (cg_content_assets result)
  ∧ length (cg_visual_assets result)
    = (Z.to_nat num_variants * length (List.filter needs_visual target_platforms))%nat
  ∧ cg_generation_metadata result
    = [("num_platforms", VInt (Z.of_nat (length target_platforms)));
       ("num_variants", VInt num_variants);
       ("total_assets", VInt (Z.of_nat (length (cg_content_assets result))))].
Proof.
  unfold generate_content, bind at 1, invoke, modify. unfold bind at 1.
  destruct (platforms_loop E bp target_platforms num_variants ([], []) _)
    as [[assets|e] w2] eqn:Hloop; [|done].
  apply platforms_loop_ok in Hloop as (new & Hnew & Hall & Hlen).
  cbn [fst snd app length] in Hnew, Hlen. unfold bind at 1, now, gets. unfold bind at 1.
  destruct (save _ _ w2) as [[[]|e] w3]; [|done].
  intros [= <- _]. cbn [cg_content_assets cg_visual_assets cg_generation_metadata].
  rewrite Hnew. split; [done|]. split; [by rewrite Hlen|done].
Qed.

(** X11: what a successful [generate_content] returns: for each target
    platform in turn, [num_variants] assets for that platform (none for a
    count below 1), each with the content type of its platform, the
    keywords of the brand and its first tone ([PROFESSIONAL] when it has
    none); one visual asset per asset for Instagram, Facebook or
    LinkedIn and none for the others; the metadata counts them; and the
    result has been saved under ["content_generation"], so a session was
    open. *)
Theorem generate_content_shape (E : env) (brand_profile : BrandProfile)
    (campaign_brief : string) (target_platforms : list Platform) (num_variants : Z)
    (w w' : world) (result : ContentGenerationResult) :
  generate_content E brand_profile campaign_brief target_platforms num_variants w
  = (Ok result, w') →
  let n := Z.to_nat num_variants in
  Forall2 (asset_for brand_profile) (asset_platforms target_platforms n)
    (cg_content_assets result)
  ∧ length (cg_content_assets result) = (n * length target_platforms)%nat
  ∧ length (cg_visual_assets result)
    = (n * length (List.filter needs_visual target_platforms))%nat
  ∧ cg_generation_metadata result
    = [("num_platforms", VInt (Z.of_nat (length target_platforms)));
       ("num_variants", VInt num_variants);
       ("total_assets", VInt (Z.of_nat (length (cg_content_assets result))))]
  ∧ memory w' !! "content_generation"
    = Some (VDict (Dump.ContentGenerationResult_fields result))
  ∧ is_Some (session_id w).
Proof.
  intros Hrun n.
  pose proof (generate_content_call E brand_profile campaign_brief target_platforms
                num_variants w) as Hcall.
  rewrite Hrun in Hcall. destruct Hcall as (_ & _ & w1 & Hund & Hsaved).
  destruct Hsaved as (_ & _ & _ & Hm & sid & Hsid & _).
  destruct Hund as ([Hsid1 _] & _). cbn [session_id log] in Hsid1.
  destruct (generate_content_returns _ _ _ _ _ _ _ _ Hrun) as (Hassets & Hvisual & Hmeta).
  fold n in Hassets, Hvisual.
  split; [done|]. split.
  { apply Forall2_length in Hassets. by rewrite <- Hassets, asset_platforms_length. }
  split; [done|]. split; [done|]. split.
  - rewrite Hm, lookup_insert_ne by done. by rewrite lookup_insert_eq.
  - rewrite <- Hsid1, Hsid. by eexists.
Qed.

Lemma generate_content_shape_witness :
  ∃ result w',
    generate_content never_met acme "spring sale" [EMAIL; LINKEDIN] 2
      (create_session (Some "s1") empty_world).2 = (Ok result, w')
    ∧ length (cg_content_assets result) = 4%nat
    ∧ length (cg_visual_assets result) = 2%nat.
Proof.
  run (generate_content never_met acme "spring sale" [EMAIL; LINKEDIN] 2
         (create_session (Some "s1") empty_world).2) as Hrun.
  match type of Hrun with _ = (Ok ?r, ?w') =>
    destruct (generate_content_shape never_met acme "spring sale" [EMAIL; LINKEDIN] 2
                _ w' r Hrun) as (_ & Hlen & Hvis & _);
    exists r, w'
  end.
  split; [exact Hrun|]. split; [exact Hlen|exact Hvis].
Defined.

(** ** The channel strategies of a campaign plan *)

Lemma getitem_add_asset groups asset p :
  getitem (add_asset groups asset) p
  = if decide (ca_platform asset = p)
    then Some (default [] (getitem groups p) ++ [asset])
    else getitem groups p.
Proof.
  induction groups as [|[q l] rest IH]; cbn [add_asset getitem].
  - by destruct (decide (ca_platform asset = p)).
  - destruct (decide (q = ca_platform asset)) as [->|Hq]; cbn [getitem].
    + by destruct (decide (ca_platform asset = p)).
    + rewrite IH. destruct (decide (q = p)) as [->|Hp]; [|done].
      by destruct (decide (ca_platform asset = p)) as [<-|].
Qed.

Lemma assets_of_snoc p assets asset :
  assets_of p (assets ++ [asset])
  = assets_of p assets ++ (if decide (ca_platform asset = p) then [asset] else []).
Proof.
  unfold assets_of. rewrite List.filter_app. cbn [List.filter]. f_equal.
  destruct (decide (ca_platform asset = p)) as [H|H].
  - by rewrite bool_decide_eq_true_2.
  - by rewrite bool_decide_eq_false_2.
Qed.

Lemma group_by_platform_getitem content_assets p :
  getitem (group_by_platform content_assets) p
  = match assets_of p content_assets with [] => None | l => Some l end.
Proof.
  unfold group_by_platform.
  induction content_assets as [|asset assets IH] using rev_ind; [done|].
  rewrite fold_left_app. cbn [fold_left]. rewrite getitem_add_asset, IH, assets_of_snoc.
  destruct (decide (ca_platform asset = p)) as [H|H].
  - by destruct (assets_of p assets).
  - by rewrite List.app_nil_r.
Qed.

Lemma add_asset_keys groups asset :
  (add_asset groups asset).*1
  = groups.*1 ++ (if decide (ca_platform asset ∈ groups.*1) then [] else [ca_platform asset]).
Proof.
  induction groups as [|[q l] rest IH].
  - cbn [add_asset]. rewrite decide_False; [done|]. apply not_elem_of_nil.
  - cbn [add_asset]. destruct (decide (q = ca_platform asset)) as [->|Hq].
    + rewrite decide_True; [|by left]. by rewrite List.app_nil_r.
    + change (((q, l) :: add_asset rest asset).*1) with (q :: (add_asset rest asset).*1).
      change (((q, l) :: rest).*1) with (q :: rest.*1). rewrite IH.
      destruct (decide (ca_platform asset ∈ rest.*1)) as [H|H].
      * rewrite decide_True; [done|]. by right.
      * rewrite decide_False; [done|]. intros [?|?]%elem_of_cons; [congruence|done].
Qed.

Lemma group_by_platform_keys content_assets :
  NoDup (group_by_platform content_assets).*1.
Proof.
  unfold group_by_platform.
  induction content_assets as [|asset assets IH] using rev_ind; [constructor|].
  rewrite fold_left_app. cbn [fold_left]. rewrite add_asset_keys.
  destruct (decide _) as [H|H]; [by rewrite List.app_nil_r|].
  apply NoDup_app. split; [done|]. split; [|apply NoDup_singleton].
  intros x Hx Hx'. apply list_elem_of_singleton in Hx' as ->. done.
Qed.

Lemma getitem_elem_of {V} (table : list (Platform * V)) p v :
  NoDup table.*1 → (p, v) ∈ table → getitem table p = Some v.
Proof.
  induction table as [|[q u] rest IH]; intros Hnd Hin; [by apply elem_of_nil in Hin|].
  cbn [fmap list_fmap fst] in Hnd. apply NoDup_cons in Hnd as [Hq Hnd].
  cbn [getitem]. apply elem_of_cons in Hin as [[= <- <-]|Hin].
  - by destruct (decide (p = p)).
  - destruct (decide (q = p)) as [->|_]; [|by apply IH].
    destruct Hq. apply list_elem_of_fmap. by exists (p, v).
Qed.

Lemma elem_of_getitem {V} (table : list (Platform * V)) p v :
  getitem table p = Some v → (p, v) ∈ table.
Proof.
  induction table as [|[q u] rest IH]; [done|]. cbn [getitem].
  destruct (decide (q = p)) as [->|_].
  - intros [= ->]. by left.
  - intros H. right. by apply IH.
Qed.

Lemma channel_strategies_loop_ok brand_profile items : ∀ channel_strategies,
  (∀ p l, (p, l) ∈ items → p ≠ TWITTER ∧ l ≠ []) →
  ∃ new, channel_strategies_loop brand_profile items channel_strategies
         = Ok (channel_strategies ++ new)
         ∧ Forall2 (strategy_for brand_profile) items new.
Proof.
  induction items as [|[p l] rest IH]; intros acc Hok.
  - exists []. split; [by rewrite List.app_nil_r|]. by apply Forall2_nil.
  - destruct (Hok p l) as [Hp Hl]; [by left|]. cbn [channel_strategies_loop].
    destruct l as [|selected l]; [done|].
    assert (∃ b, getitem channel_benchmarks p = Some b) as [b ->]
      by (destruct p; by eauto).
    match goal with |- context [channel_strategies_loop _ rest (acc ++ [?s])] =>
      destruct (IH (acc ++ [s])) as (new & -> & Hall);
        [intros q k Hin; apply Hok; by right|];
      exists (s :: new)
    end.
    split; [by rewrite <- app_assoc|]. apply Forall2_cons. split; [|done]. by repeat split.
Qed.

Lemma strategy_for_channels brand_profile items strategies :
  Forall2 (strategy_for brand_profile) items strategies →
  cs_channel <$> strategies = items.*1.
Proof.
  induction 1 as [|item s items strategies Hs _ IH]; [done|].
  cbn [fmap list_fmap]. f_equal; [by destruct Hs|exact IH].
Qed.

Lemma group_by_platform_elem_of content_assets p l :
  (p, l) ∈ group_by_platform content_assets ↔ l = assets_of p content_assets ∧ l ≠ [].
Proof.
  pose proof (group_by_platform_getitem content_assets p) as Hget. split.
  - intros Hin. apply getitem_elem_of in Hin; [|apply group_by_platform_keys].
    rewrite Hin in Hget. destruct (assets_of p content_assets); [done|].
    by injection Hget as ->.
  - intros [-> Hne]. apply elem_of_getitem. rewrite Hget.
    by destruct (assets_of p content_assets).
Qed.

Lemma assets_of_inhabited p content_assets :
  assets_of p content_assets ≠ [] ↔ ∃ asset, asset ∈ content_assets ∧ ca_platform asset = p.
Proof.
  unfold assets_of. split.
  - destruct (List.filter _ content_assets) as [|asset l] eqn:Hf; [done|]. intros _.
    assert (In asset (List.filter (fun asset => bool_decide (ca_platform asset = p))
                        content_assets)) as Hin by (rewrite Hf; by left).
    apply List.filter_In in Hin as [Hin Hp]. exists asset.
    split; [by apply list_elem_of_In|]. by apply bool_decide_eq_true_1 in Hp.
  - intros (asset & Hin & Hp) Hnil.
    assert (In asset (List.filter (fun asset => bool_decide (ca_platform asset = p))
                        content_assets)) as Hin'.
    { apply List.filter_In. split; [by apply list_elem_of_In|].
      by apply bool_decide_eq_true_2. }
    by rewrite Hnil in Hin'.
Qed.

(** X12: the channel strategies of a campaign plan.  When no asset is
    for Twitter, the plan gets one strategy per platform that has an
    asset, no platform twice; the strategy of a platform names the first
    asset of that platform (further variants are not used), the
    audience of the brand, and a budget allocation of 0 with reach 0. *)
Theorem channel_strategies_spec (brand_profile : BrandProfile)
    (content_assets : list ContentAsset) :
  (∀ asset, asset ∈ content_assets → ca_platform asset ≠ TWITTER) →
  ∃ strategies,
    channel_strategies_loop brand_profile (group_by_platform content_assets) []
    = Ok strategies
    ∧ NoDup (cs_channel <$> strategies)
    ∧ (∀ p, p ∈ cs_channel <$> strategies
            ↔ ∃ asset, asset ∈ content_assets ∧ ca_platform asset = p)
    ∧ (∀ strategy, strategy ∈ strategies →
         strategy_for brand_profile
           (cs_channel strategy, assets_of (cs_channel strategy) content_assets) strategy).
Proof.
  intros Hno.
  destruct (channel_strategies_loop_ok brand_profile (group_by_platform content_assets) [])
    as (strategies & Hrun & Hall).
  { intros p l Hin. apply group_by_platform_elem_of in Hin as [-> Hne]. split; [|done].
    apply assets_of_inhabited in Hne as (asset & Hin & <-). by apply Hno. }
  exists strategies. split; [exact Hrun|].
  pose proof (strategy_for_channels _ _ _ Hall) as Hch. rewrite Hch.
  split; [apply group_by_platform_keys|]. split.
  - intros p. rewrite <- assets_of_inhabited. split.
    + intros Hin. apply list_elem_of_fmap in Hin as ([q l] & -> & Hin).
      by apply group_by_platform_elem_of in Hin as [-> Hne].
    + intros Hne. apply list_elem_of_fmap. exists (p, assets_of p content_assets).
      split; [done|]. by apply group_by_platform_elem_of.
  - intros strategy Hin. apply list_elem_of_lookup_1 in Hin as [i Hi].
    destruct (Forall2_lookup_r _ _ _ _ _ Hall Hi) as ([p l] & Hitem & Hfor).
    apply list_elem_of_lookup_2 in Hitem.
    apply group_by_platform_elem_of in Hitem as [-> _].
    destruct Hfor as (Hc & Hrest). cbn [fst snd] in *. by rewrite Hc.
Qed.

Lemma channel_strategies_spec_witness :
  ∃ strategies,
    channel_strategies_loop acme
      (group_by_platform [mail "a"; post "b"; mail "c"]) [] = Ok strategies
    ∧ cs_channel <$> strategies = [EMAIL; LINKEDIN].
Proof.
  destruct (channel_strategies_spec acme [mail "a"; post "b"; mail "c"])
    as (strategies & Hrun & _).
  { intros asset Hin.
    repeat (apply elem_of_cons in Hin as [->|Hin]; [done|]). by apply elem_of_nil in Hin. }
  exists strategies. split; [exact Hrun|].
  vm_compute in Hrun. injection Hrun as <-. reflexivity.
Defined.

(** ** What a workflow run leaves alone *)

Lemma agent_call_keeps {A} f key fields (m : M world A) k :
  agent_call f key fields m → k ≠ key → k ≠ "updated_at" → respects (keeps k) m.
Proof.
  intros Hcall Hk Hu w Hs. specialize (Hcall w). destruct (m w) as [[x|e] w'].
  - destruct Hcall as (_ & _ & w1 & (_ & Hm1 & _) & (_ & _ & _ & Hm & _)).
    unfold keeps. cbn [snd]. rewrite Hm, !lookup_insert_ne by done. by rewrite Hm1.
  - destruct Hcall as (_ & _ & Hsame). destruct (Hsame Hs) as [Hm _].
    unfold keeps. cbn [snd]. by rewrite Hm.
Qed.

Lemma invocations_app f w l w' :
  trace w' = trace w ++ l → Forall (fun e => e ≠ EvInvoke f) l →
  invocations f w' = invocations f w.
Proof.
  intros Htr Hl. unfold invocations. rewrite Htr, filter_app, length_app.
  replace (filter (fun e => e = EvInvoke f) l) with (@nil event); [simpl; lia|].
  symmetry. clear Htr. induction Hl as [|e l He Hl IH]; [done|]. by rewrite filter_cons_False.
Qed.

Lemma agent_call_no_call {A} f key fields (m : M world A) g :
  agent_call f key fields m → g ≠ f → respects (no_call g) m.
Proof.
  intros Hcall Hg w _. specialize (Hcall w). destruct (m w) as [o w'].
  destruct Hcall as (_ & Htr & _). unfold no_call. cbn [snd].
  apply (invocations_app g w [EvInvoke f]); [done|].
  repeat constructor. intros [=]. congruence.
Qed.

Section frame.

Context (R : world → world → Prop).
Context (loop : bool).
Hypothesis R_refl : ∀ w, R w w.
Hypothesis R_trans : ∀ w1 w2 w3, R w1 w2 → R w2 w3 → R w1 w3.
Hypothesis R_entered : ∀ st w, is_Some (session_id w) → R w (entered st w).
Hypothesis R_sleep : ∀ secs w, R w (sleep secs w).2.
Hypothesis R_stage : ∀ f w,
  f ∈ ["_stage_brand_analysis"; "_stage_content_generation"; "_stage_campaign_execution"] →
  R w (log (EvInvoke f) w).
Hypothesis R_refine : loop = true → ∀ w, R w (log (EvInvoke "refine_strategy") w).
Hypothesis R_analyze_brand : ∀ E, respects R (analyze_brand E).
Hypothesis R_generate_content : ∀ E bp brief platforms n,
  respects R (generate_content E bp brief platforms n).
Hypothesis R_execute_campaign : ∀ E assets bp budget kpis,
  respects R (execute_campaign E assets bp budget kpis).

Lemma respects_retry_loop {A} (func : M world A) max_retries remaining :
  stable func → respects R func →
  ∀ attempt last_error, respects R (retry_loop func max_retries attempt remaining last_error).
Proof.
  intros Hstable Hf. induction remaining as [|remaining IH]; intros attempt last_error w Hs.
  - cbn [retry_loop]. destruct last_error; apply R_refl.
  - cbn [retry_loop]. specialize (Hf w Hs). destruct (Hstable w) as [Hsid _].
    destruct (func w) as [[a|e] w1]; cbn [fst snd] in *; [done|].
    eapply R_trans; [exact Hf|]. unfold bind.
    destruct (_ <? _)%Z.
    + pose proof (R_sleep (2 ^ attempt) w1) as Hsl.
      destruct (stable_sleep (2 ^ attempt) w1) as [Hsid' _].
      destruct (sleep (2 ^ attempt) w1) as [[[]|e'] w2] eqn:Hsleep; [|done].
      cbn [snd] in *. eapply R_trans; [exact Hsl|]. apply IH.
      by rewrite Hsid', Hsid.
    + unfold ret. apply IH. by rewrite Hsid.
Qed.

Lemma respects_stage {A} f (m : M world A) :
  f ∈ ["_stage_brand_analysis"; "_stage_content_generation"; "_stage_campaign_execution"] →
  respects R m → respects R (do* invoke f in m).
Proof.
  intros Hf Hm w Hs. unfold bind, invoke, modify. eapply R_trans; [by apply R_stage|].
  by apply Hm.
Qed.

Lemma respects_run_stages E inp r w :
  is_Some (session_id w) → R w (run_stages E inp (r, w)).2.2.
Proof.
  intros Hs. rewrite (run_stages_open E inp r w Hs).
  pose proof (R_entered ANALYZING_BRAND w Hs) as H0.
  destruct (entered_open ANALYZING_BRAND w Hs) as (_ & Hs1 & _).
  assert (is_Some (session_id (entered ANALYZING_BRAND w))) as Hs1' by by rewrite Hs1.
  pose proof (respects_retry_loop (_stage_brand_analysis E inp) 3 (Z.to_nat 3)
                (stable_stage_brand_analysis E inp)
                (respects_stage "_stage_brand_analysis" _ ltac:(compute_done)
                   (R_analyze_brand E)) 0 None _ Hs1') as H1.
  fold (_execute_with_retry (_stage_brand_analysis E inp) 3) in H1.
  destruct (_execute_with_retry (_stage_brand_analysis E inp) 3 _)
    as [[ba|e] w2] eqn:R1; cbn [snd] in *; [|by eapply R_trans].
  destruct (retry_keeps_session _ _ _ _ _ (stable_stage_brand_analysis E inp) Hs R1)
    as [Hs2 _].
  pose proof (R_entered GENERATING_CONTENT w2 Hs2) as H2.
  destruct (entered_open GENERATING_CONTENT w2 Hs2) as (_ & Hs3 & _).
  assert (is_Some (session_id (entered GENERATING_CONTENT w2))) as Hs3' by by rewrite Hs3.
  pose proof (respects_retry_loop (_stage_content_generation E ba inp) 3 (Z.to_nat 3)
                (stable_stage_content_generation E ba inp)
                (respects_stage "_stage_content_generation" _ ltac:(compute_done)
                   (R_generate_content E _ _ _ _)) 0 None _ Hs3') as H3.
  fold (_execute_with_retry (_stage_content_generation E ba inp) 3) in H3.
  destruct (_execute_with_retry (_stage_content_generation E ba inp) 3 _)
    as [[cg|e] w3] eqn:R2; cbn [snd] in *;
    [|eapply R_trans; [exact H0|]; eapply R_trans; [exact H1|]; by eapply R_trans].
  destruct (retry_keeps_session _ _ _ _ _ (stable_stage_content_generation E ba inp) Hs2 R2)
    as [Hs4 _].
  pose proof (R_entered EXECUTING_CAMPAIGN w3 Hs4) as H4.
  destruct (entered_open EXECUTING_CAMPAIGN w3 Hs4) as (_ & Hs5 & _).
  assert (is_Some (session_id (entered EXECUTING_CAMPAIGN w3))) as Hs5' by by rewrite Hs5.
  pose proof (respects_retry_loop (_stage_campaign_execution E cg ba inp) 3 (Z.to_nat 3)
                (stable_stage_campaign_execution E cg ba inp)
                (respects_stage "_stage_campaign_execution" _ ltac:(compute_done)
                   (R_execute_campaign E _ _ _ _)) 0 None _ Hs5') as H5.
  fold (_execute_with_retry (_stage_campaign_execution E cg ba inp) 3) in H5.
  assert (R w (entered EXECUTING_CAMPAIGN w3)) as H04.
  { eapply R_trans; [exact H0|]. eapply R_trans; [exact H1|].
    eapply R_trans; [exact H2|]. by eapply R_trans. }
  destruct (_execute_with_retry (_stage_campaign_execution E cg ba inp) 3 _)
    as [[cr|e] w4] eqn:R3; cbn [snd] in *; by eapply R_trans.
Qed.

Lemma respects_feedback_iteration E inp ba cr s :
  loop = true → is_Some (session_id s.2) →
  R s.2 (feedback_iteration E inp ba cr s).2.2.
Proof.
  intros Hloop Hs. destruct s as [r w]. rewrite feedback_iteration_unfold.
  cbn [snd] in *. pose proof (R_refine Hloop w) as H0.
  pose proof (R_generate_content E (ba_brand_profile ba) (wi_campaign_brief inp)
                (wi_target_platforms inp) 1 (log (EvInvoke "refine_strategy") w) Hs) as H1.
  destruct (stable_generate_content E (ba_brand_profile ba) (wi_campaign_brief inp)
              (wi_target_platforms inp) 1 (log (EvInvoke "refine_strategy") w)) as [Hs1 _].
  destruct (generate_content _ _ _ _ _ _) as [[cg|e] w1]; cbn [snd] in *;
    [|by eapply R_trans].
  assert (is_Some (session_id w1)) as Hs1' by by rewrite Hs1.
  pose proof (R_execute_campaign E (cg_content_assets cg) (ba_brand_profile ba)
                (wi_budget inp) (wi_target_kpis inp) w1 Hs1') as H2.
  destruct (execute_campaign _ _ _ _ _ _) as [[cr'|e] w2]; cbn [snd] in *;
    (eapply R_trans; [exact H0|]; by eapply R_trans).
Qed.

Lemma respects_feedback_loop E inp ba cr rounds : ∀ s,
  loop = true → is_Some (session_id s.2) →
  R s.2 (feedback_loop E inp ba cr rounds s).2.2.
Proof.
  induction rounds as [|rounds IH]; intros s Hloop Hs; [apply R_refl|].
  cbn [feedback_loop]. unfold bind.
  pose proof (respects_feedback_iteration E inp ba cr s Hloop Hs) as H1.
  destruct (wstable_feedback_iteration E inp ba cr s) as ([Hs1 _] & _).
  destruct (feedback_iteration E inp ba cr s) as [[again|e] s1]; cbn [snd] in *; [|done].
  destruct again; [|done]. eapply R_trans; [exact H1|]. apply IH; [done|].
  by rewrite Hs1.
Qed.

(** The three stages, the rounds when there are any, the completion. *)
Lemma respects_try_body self E inp r w :
  loop = true ∨ enable_feedback_loop self = false ∨ wi_target_kpis inp = ∅ →
  is_Some (session_id w) → R w (try_body self E inp (r, w)).2.2.
Proof.
  intros Hloop Hs. unfold try_body, bind at 1.
  pose proof (respects_run_stages E inp r w Hs) as H1.
  destruct (wstable_run_stages E inp (r, w)) as ([Hs1 _] & _).
  destruct (run_stages E inp (r, w)) as [[[[ba cg] cr]|e] s3]; cbn [fst snd] in *; [|done].
  assert (is_Some (session_id s3.2)) as Hs3 by by rewrite Hs1.
  unfold bind at 1.
  assert (∃ s4, (if enable_feedback_loop self && _should_optimize cr inp
                 then feedback_loop E inp ba cr (Z.to_nat (max_iterations self - 1))
                 else ret tt) s3
                = (((if enable_feedback_loop self && _should_optimize cr inp
                     then feedback_loop E inp ba cr (Z.to_nat (max_iterations self - 1))
                     else ret tt) s3).1, s4)
                ∧ R s3.2 s4.2 ∧ session_id s4.2 = session_id s3.2) as (s4 & Heq & H2 & Hs4).
  { destruct (enable_feedback_loop self && _should_optimize cr inp) eqn:Hcond.
    - assert (loop = true) as Hl.
      { destruct Hloop as [?|[Hoff|Hno]]; [done| |].
        - by rewrite Hoff in Hcond.
        - unfold _should_optimize in Hcond. rewrite Hno, map_size_empty in Hcond.
          by rewrite andb_false_r in Hcond. }
      pose proof (respects_feedback_loop E inp ba cr (Z.to_nat (max_iterations self - 1))
                    s3 Hl Hs3) as H2.
      destruct (wstable_feedback_loop E inp ba cr (Z.to_nat (max_iterations self - 1)) s3)
        as ([Hsid _] & _).
      destruct (feedback_loop _ _ _ _ _ s3) as [o s4]. by exists s4.
    - exists s3. by repeat split. }
  rewrite Heq. destruct (_ s3).1 as [[]|e]; cbn [snd]; [|by eapply R_trans].
  destruct s4 as [r4 w4]. cbn [snd] in *.
  rewrite complete_workflow_open by (by rewrite Hs4).
  cbn [snd]. eapply R_trans; [exact H1|]. eapply R_trans; [exact H2|].
  apply R_entered. by rewrite Hs4.
Qed.

(** The whole call, from the world the statements before the [try]
    leave. *)
Lemma respects_execute_workflow self E inp w r0 w0 :
  loop = true ∨ enable_feedback_loop self = false ∨ wi_target_kpis inp = ∅ →
  start_workflow E w = (Ok r0, w0) →
  R w0 (execute_workflow self E inp w).2.
Proof.
  intros Hloop Hstart.
  destruct (start_workflow_run E w) as (r0' & w0' & Hstart' & Hs0 & _).
  rewrite Hstart in Hstart'. injection Hstart' as <- <-.
  pose proof (respects_try_body self E inp r0 w0 Hloop Hs0) as H1.
  unfold execute_workflow. rewrite Hstart.
  destruct (try_body self E inp (r0, w0)) as [[[]|e] [r' w']] eqn:Hbody; cbn [snd] in *;
    [done|].
  apply try_body_raises in Hbody as [[Hs' _] _]. cbn [snd] in Hs'.
  assert (is_Some (session_id w')) as Hopen by by rewrite Hs'.
  eapply R_trans; [exact H1|]. pose proof (R_entered FAILED w' Hopen) as H2.
  unfold on_exception, entered in *. cbn [snd].
  by destruct (set_workflow_state (state_value FAILED) (log (EvState FAILED) w'))
    as [[[]|e'] w''].
Qed.

End frame.

Lemma keeps_entered k st w :
  k ≠ "workflow_state" → k ≠ "updated_at" → is_Some (session_id w) →
  keeps k w (entered st w).
Proof.
  intros Hk Hu Hs. destruct (entered_open st w Hs) as (_ & _ & _ & _ & Hm).
  unfold keeps. by rewrite Hm, !lookup_insert_ne.
Qed.

Lemma no_call_entered f st w : is_Some (session_id w) → no_call f w (entered st w).
Proof.
  intros Hs. destruct (entered_open st w Hs) as (_ & _ & _ & Htr & _).
  eapply invocations_app; [exact Htr|]. by repeat constructor.
Qed.

Lemma start_workflow_memory E w :
  ∃ r0 w0, start_workflow E w = (Ok r0, w0)
    ∧ memory w0 = initial_memory ("session_" +:+ strftime_seconds (clock w)) (clock w)
    ∧ session_id w0 = Some ("session_" +:+ strftime_seconds (clock w))
    ∧ ∀ f, invocations f w0 = invocations f w.
Proof.
  unfold start_workflow, bind at 1. pose proof (create_session_run None w) as Hc.
  cbv zeta in Hc. rewrite Hc. unfold bind, uuid4, ask, now, gets, modify, ret.
  cbn [fst snd]. eexists _, _. split; [reflexivity|]. split; [done|]. split; [done|].
  intros f. eapply (invocations_app f w [EvState PENDING]); [done|]. by repeat constructor.
Qed.

(** X13: a workflow run writes five keys of the store and no other:
    whatever is asked of the services and however the call ends, every
    other key holds what [create_session] put there.  So the slots
    ["brand_profile"], ["content_assets"], ["campaign_plan"] and
    ["campaign_results"] of the initial mapping are [None] after every
    run: the results are under ["brand_analysis"],
    ["content_generation"] and ["campaign_result"]. *)
Theorem workflow_writes_only (self : config) (E : env) (workflow_input : WorkflowInput)
    (w : world) :
  let ended := (execute_workflow self E workflow_input w).2 in
  let sid := "session_" +:+ strftime_seconds (clock w) in
  (∀ key, key ∉ workflow_keys →
          memory ended !! key = initial_memory sid (clock w) !! key)
  ∧ memory ended !! "brand_profile" = Some VNone
  ∧ memory ended !! "content_assets" = Some VNone
  ∧ memory ended !! "campaign_plan" = Some VNone
  ∧ memory ended !! "campaign_results" = Some VNone
  ∧ memory ended !! "messages" = Some (VList [])
  ∧ memory ended !! "session_id" = Some (VStr sid).
Proof.
  intros ended sid.
  assert (∀ key, key ∉ workflow_keys →
                 memory ended !! key = initial_memory sid (clock w) !! key) as Hframe.
  { intros key Hkey. destruct (start_workflow_memory E w) as (r0 & w0 & Hstart & Hm & _).
    subst ended sid. rewrite <- Hm. unfold workflow_keys in Hkey.
    apply not_elem_of_cons in Hkey as [K1 Hkey]. apply not_elem_of_cons in Hkey as [K2 Hkey].
    apply not_elem_of_cons in Hkey as [K3 Hkey]. apply not_elem_of_cons in Hkey as [K4 Hkey].
    apply not_elem_of_cons in Hkey as [K5 _].
    apply (respects_execute_workflow (keeps key) true) with (r0 := r0); try done.
    - unfold keeps. congruence.
    - intros st w1 Hs. by apply keeps_entered.
    - intros E' w1 Hs. by apply (agent_call_keeps _ _ _ _ key (analyze_brand_call E')).
    - intros E' bp brief platforms n w1 Hs.
      by apply (agent_call_keeps _ _ _ _ key (generate_content_call E' bp brief platforms n)).
    - intros E' assets bp budget kpis w1 Hs.
      by apply (agent_call_keeps _ _ _ _ key
                  (execute_campaign_call E' assets bp budget kpis)).
    - by left. }
  split; [exact Hframe|].
  repeat split; (rewrite Hframe; [done|compute_done]).
Qed.

(** X14: without a target the loop is never entered: when the feedback
    loop is disabled, or the input names no target KPI, no call of
    [execute_workflow] reaches [refine_strategy], whatever the services
    answer. *)
Theorem no_round_without_targets (self : config) (E : env)
    (workflow_input : WorkflowInput) (w : world) :
  enable_feedback_loop self = false ∨ wi_target_kpis workflow_input = ∅ →
  invocations "refine_strategy" (execute_workflow self E workflow_input w).2
  = invocations "refine_strategy" w.
Proof.
  intros Hoff. destruct (start_workflow_memory E w) as (r0 & w0 & Hstart & _ & _ & H0).
  rewrite <- (H0 "refine_strategy").
  apply (respects_execute_workflow (no_call "refine_strategy") false) with (r0 := r0);
    try done.
  - unfold no_call. congruence.
  - intros st w1 Hs. by apply no_call_entered.
  - intros secs w1. eapply (invocations_app _ w1 [EvSleep secs]); [done|].
    by repeat constructor.
  - intros f w1 Hf. eapply (invocations_app _ w1 [EvInvoke f]); [done|].
    repeat constructor. intros [= ->]. revert Hf. compute_done.
  - intros E' w1 Hs. by apply (agent_call_no_call _ _ _ _ _ (analyze_brand_call E')).
  - intros E' bp brief platforms n w1 Hs.
    by apply (agent_call_no_call _ _ _ _ _ (generate_content_call E' bp brief platforms n)).
  - intros E' assets bp budget kpis w1 Hs.
    by apply (agent_call_no_call _ _ _ _ _ (execute_campaign_call E' assets bp budget kpis)).
  - by right.
Qed.

Lemma no_round_without_targets_witness :
  invocations "refine_strategy"
    (execute_workflow default_config never_met (with_target_kpis ∅ email_input)
       empty_world).2 = 0.
Proof.
  exact (no_round_without_targets default_config never_met (with_target_kpis ∅ email_input)
           empty_world (or_intror eq_refl)).
Defined.

(** ** The store and the returned result *)

(** A retry that returns, returns what one attempt returned. *)
Lemma retry_loop_last {A} (func : M world A) max_retries remaining :
  ∀ attempt last_error w x w',
    retry_loop func max_retries attempt remaining last_error w = (Ok x, w') →
    ∃ w0, func w0 = (Ok x, w').
Proof.
  induction remaining as [|remaining IH]; intros attempt last_error w x w'.
  - cbn [retry_loop]. by destruct last_error.
  - cbn [retry_loop]. destruct (func w) as [[a|e] w1] eqn:Hf.
    + intros [= <- <-]. by exists w.
    + unfold bind. destruct (_ <? _)%Z.
      * destruct (sleep (2 ^ attempt) w1) as [[[]|e'] w2]; [apply IH|done].
      * unfold ret. apply IH.
Qed.

Lemma stage_saved {A} f g key fields (m : M world A) w x w' :
  agent_call g key fields m → key ≠ "updated_at" →
  _execute_with_retry (do* invoke f in m) 3 w = (Ok x, w') →
  memory w' !! key = Some (VDict (fields x)).
Proof.
  intros Hcall Hkey Hrun. apply retry_loop_last in Hrun as [w0 Hrun].
  unfold bind, invoke, modify in Hrun. specialize (Hcall (log (EvInvoke f) w0)).
  rewrite Hrun in Hcall. destruct Hcall as (_ & _ & w1 & _ & (_ & _ & _ & Hm & _)).
  rewrite Hm, lookup_insert_ne by done. by rewrite lookup_insert_eq.
Qed.

Lemma keeps_retry_stage {A} f g key fields (m : M world A) k w :
  agent_call g key fields m → k ≠ key → k ≠ "updated_at" →
  is_Some (session_id w) →
  keeps k w (_execute_with_retry (do* invoke f in m) 3 w).2.
Proof.
  intros Hcall Hk Hu Hs. unfold _execute_with_retry.
  apply (respects_retry_loop (keeps k)); try done.
  - unfold keeps. congruence.
  - apply stable_bind; [apply stable_invoke|intros; by eapply agent_call_stable].
  - intros w1 Hs1. unfold bind, invoke, modify.
    exact (agent_call_keeps _ _ _ _ k Hcall Hk Hu (log (EvInvoke f) w1) Hs1).
Qed.

Lemma run_stages_agrees E inp r w ba cg cr s3 :
  is_Some (session_id w) →
  run_stages E inp (r, w) = (Ok (ba, cg, cr), s3) →
  agrees s3.1 s3.2.
Proof.
  intros Hs Hrun. pose proof (run_stages_populated _ _ _ _ _ _ _ Hrun) as (Pba & Pcg & Pcr).
  rewrite (run_stages_open E inp r w Hs) in Hrun.
  destruct (_execute_with_retry (_stage_brand_analysis E inp) 3 _)
    as [[ba'|e] w2] eqn:R1; [|done].
  destruct (_execute_with_retry (_stage_content_generation E ba' inp) 3 _)
    as [[cg'|e] w3] eqn:R2; [|done].
  destruct (_execute_with_retry (_stage_campaign_execution E cg' ba' inp) 3 _)
    as [[cr'|e] w4] eqn:R3; [|done].
  cbv zeta in Hrun. injection Hrun as -> -> -> <-. cbn [fst snd] in *.
  destruct (retry_keeps_session _ _ _ _ _ (stable_stage_brand_analysis E inp) Hs R1)
    as [Hs2 _].
  destruct (retry_keeps_session _ _ _ _ _ (stable_stage_content_generation E ba inp) Hs2 R2)
    as [Hs3 _].
  destruct (entered_open GENERATING_CONTENT w2 Hs2) as (_ & Hs2' & _).
  destruct (entered_open EXECUTING_CAMPAIGN w3 Hs3) as (_ & Hs3' & _).
  pose proof (analyze_brand_call E) as Ca.
  pose proof (generate_content_call E (ba_brand_profile ba) (wi_campaign_brief inp)
                (wi_target_platforms inp) 1) as Cg.
  pose proof (execute_campaign_call E (cg_content_assets cg) (ba_brand_profile ba)
                (wi_budget inp) (wi_target_kpis inp)) as Cc.
  pose proof (stage_saved "_stage_brand_analysis" _ _ _ _ _ _ _ Ca ltac:(done) R1) as M1.
  pose proof (stage_saved "_stage_content_generation" _ _ _ _ _ _ _ Cg ltac:(done) R2) as M2.
  pose proof (stage_saved "_stage_campaign_execution" _ _ _ _ _ _ _ Cc ltac:(done) R3) as M3.
  pose proof (keeps_entered "brand_analysis" GENERATING_CONTENT w2
                ltac:(done) ltac:(done) Hs2) as K1.
  pose proof (keeps_retry_stage "_stage_content_generation" _ _ _ _ "brand_analysis"
                (entered GENERATING_CONTENT w2) Cg
                ltac:(done) ltac:(done) ltac:(by rewrite Hs2')) as K2.
  fold (_stage_content_generation E ba inp) in K2. rewrite R2 in K2.
  pose proof (keeps_entered "brand_analysis" EXECUTING_CAMPAIGN w3
                ltac:(done) ltac:(done) Hs3) as K3.
  pose proof (keeps_retry_stage "_stage_campaign_execution" _ _ _ _ "brand_analysis"
                (entered EXECUTING_CAMPAIGN w3) Cc
                ltac:(done) ltac:(done) ltac:(by rewrite Hs3')) as K4.
  fold (_stage_campaign_execution E cg ba inp) in K4. rewrite R3 in K4.
  pose proof (keeps_entered "content_generation" EXECUTING_CAMPAIGN w3
                ltac:(done) ltac:(done) Hs3) as K5.
  pose proof (keeps_retry_stage "_stage_campaign_execution" _ _ _ _ "content_generation"
                (entered EXECUTING_CAMPAIGN w3) Cc
                ltac:(done) ltac:(done) ltac:(by rewrite Hs3')) as K6.
  fold (_stage_campaign_execution E cg ba inp) in K6. rewrite R3 in K6.
  unfold keeps in *. cbn [snd] in *.
  split; [|split]; intros x [= <-].
  - by rewrite K4, K3, K2, K1.
  - by rewrite K6, K5.
  - done.
Qed.

Lemma feedback_iteration_agrees E inp ba cr s again s' :
  memory s.2 !! "brand_analysis" = Some (VDict (Dump.BrandAnalysisResult_fields ba)) →
  is_Some (session_id s.2) →
  feedback_iteration E inp ba cr s = (Ok again, s') →
  agrees s'.1 s'.2
  ∧ memory s'.2 !! "brand_analysis" = Some (VDict (Dump.BrandAnalysisResult_fields ba))
  ∧ is_Some (session_id s'.2).
Proof.
  destruct s as [r w]. cbn [fst snd]. intros Mba Hs. rewrite feedback_iteration_unfold.
  pose proof (generate_content_call E (ba_brand_profile ba) (wi_campaign_brief inp)
                (wi_target_platforms inp) 1) as Cg.
  pose proof (agent_call_keeps _ _ _ _ "brand_analysis" Cg ltac:(done) ltac:(done)
                (log (EvInvoke "refine_strategy") w) Hs) as K1.
  pose proof (Cg (log (EvInvoke "refine_strategy") w)) as S1.
  destruct (generate_content _ _ _ _ _ _) as [[cg|e] w1]; [|done].
  destruct S1 as ([Hs1 _] & _ & w1' & _ & (_ & _ & _ & M1 & _)).
  assert (is_Some (session_id w1)) as Hs1' by by rewrite Hs1.
  pose proof (execute_campaign_call E (cg_content_assets cg) (ba_brand_profile ba)
                (wi_budget inp) (wi_target_kpis inp)) as Cc.
  pose proof (agent_call_keeps _ _ _ _ "brand_analysis" Cc ltac:(done) ltac:(done) w1 Hs1')
    as K2.
  pose proof (agent_call_keeps _ _ _ _ "content_generation" Cc ltac:(done) ltac:(done)
                w1 Hs1') as K3.
  pose proof (Cc w1) as S2.
  destruct (execute_campaign _ _ _ _ _ _) as [[cr'|e] w2]; [|done].
  destruct S2 as ([Hs2 _] & _ & w2' & _ & (_ & _ & _ & M2 & _)).
  intros [= _ <-]. unfold keeps in *. cbn [fst snd memory log] in *.
  assert (memory w2 !! "brand_analysis"
          = Some (VDict (Dump.BrandAnalysisResult_fields ba))) as Mba'
    by by rewrite K2, K1.
  split; [|split; [done|by rewrite Hs2]].
  split; [|split]; intros x [= <-].
  - done.
  - rewrite K3, M1, lookup_insert_ne by done. by rewrite lookup_insert_eq.
  - rewrite M2, lookup_insert_ne by done. by rewrite lookup_insert_eq.
Qed.

Lemma feedback_loop_agrees E inp ba cr rounds : ∀ s s',
  memory s.2 !! "brand_analysis" = Some (VDict (Dump.BrandAnalysisResult_fields ba)) →
  is_Some (session_id s.2) → agrees s.1 s.2 →
  feedback_loop E inp ba cr rounds s = (Ok tt, s') →
  agrees s'.1 s'.2 ∧ is_Some (session_id s'.2).
Proof.
  induction rounds as [|rounds IH]; intros s s' Mba Hs Hag.
  - by intros [= <-].
  - cbn [feedback_loop]. unfold bind.
    destruct (feedback_iteration E inp ba cr s) as [[again|e] s1] eqn:Hit; [|done].
    apply feedback_iteration_agrees in Hit as (Hag1 & Mba1 & Hs1); [|done..].
    destruct again; [by apply IH|]. by intros [= <-].
Qed.

Lemma try_body_agrees self E inp r w s' :
  is_Some (session_id w) →
  try_body self E inp (r, w) = (Ok tt, s') →
  agrees s'.1 s'.2 ∧ memory s'.2 !! "workflow_state" = Some (VStr "completed").
Proof.
  intros Hs. unfold try_body, bind at 1.
  destruct (run_stages E inp (r, w)) as [[[[ba cg] cr]|e] s3] eqn:Hrun; [|done].
  pose proof (run_stages_agrees _ _ _ _ _ _ _ _ Hs Hrun) as Hag.
  pose proof (run_stages_session _ _ _ _ _ _ Hs Hrun) as Hs3.
  pose proof (run_stages_populated _ _ _ _ _ _ _ Hrun) as (Pba & _).
  cbn [fst snd]. unfold bind at 1.
  destruct ((if enable_feedback_loop self && _should_optimize cr inp
             then feedback_loop E inp ba cr (Z.to_nat (max_iterations self - 1))
             else ret tt) s3) as [[[]|e] [r4 w4]] eqn:Hl; [|done].
  assert (agrees r4 w4 ∧ is_Some (session_id w4)) as [Hag4 Hs4].
  { destruct (_ && _).
    - apply (feedback_loop_agrees _ _ _ _ _ _ _ (proj1 Hag _ Pba)) in Hl; [done..|].
      all: done.
    - injection Hl as ->. split; [apply Hag|done]. }
  rewrite complete_workflow_open by done. intros [= <-].
  destruct (entered_open COMPLETED w4 Hs4) as (_ & _ & _ & _ & Hm).
  split.
  - destruct Hag4 as (A1 & A2 & A3).
    pose proof (keeps_entered "brand_analysis" COMPLETED w4 ltac:(done) ltac:(done) Hs4) as K1.
    pose proof (keeps_entered "content_generation" COMPLETED w4 ltac:(done) ltac:(done) Hs4)
      as K2.
    pose proof (keeps_entered "campaign_result" COMPLETED w4 ltac:(done) ltac:(done) Hs4)
      as K3.
    unfold keeps in *. unfold agrees. cbn [fst snd]. rewrite K1, K2, K3.
    split; [|split]; intros x Hx.
    + apply A1, Hx.
    + apply A2, Hx.
    + apply A3, Hx.
  - cbn [fst snd]. rewrite Hm, lookup_insert_ne by done. by rewrite lookup_insert_eq.
Qed.

(** What the store holds when a call returns. *)
Lemma returned_result_stored (self : config) (E : env) (workflow_input : WorkflowInput)
    (w w' : world) (result : WorkflowResult) :
  execute_workflow self E workflow_input w = (Returned result, w') →
  ∃ ba cg cr,
    wr_brand_analysis result = Some ba
    ∧ wr_content_generation result = Some cg
    ∧ wr_campaign_result result = Some cr
    ∧ memory w' !! "brand_analysis" = Some (VDict (Dump.BrandAnalysisResult_fields ba))
    ∧ memory w' !! "content_generation"
      = Some (VDict (Dump.ContentGenerationResult_fields cg))
    ∧ memory w' !! "campaign_result" = Some (VDict (Dump.CampaignResult_fields cr))
    ∧ memory w' !! "workflow_state" = Some (VStr "completed").
Proof.
  destruct (start_workflow_run E w) as (r0 & w0 & Hstart & Hs0 & _).
  destruct (execute_workflow_ends self E workflow_input w) as (r0' & w0' & Hstart' & Hend).
  rewrite Hstart in Hstart'. injection Hstart' as <- <-.
  destruct (try_body self E workflow_input (r0, w0)) as [[[]|e] s'] eqn:Hbody.
  - rewrite Hend. intros [= <- <-].
    destruct (try_body_returns _ _ _ _ _ Hbody) as (_ & ([ba Hba] & [cg Hcg] & [cr Hcr]) & _).
    destruct (try_body_agrees _ _ _ _ _ _ Hs0 Hbody) as ((A1 & A2 & A3) & Hstate).
    exists ba, cg, cr.
    split; [exact Hba|]. split; [exact Hcg|]. split; [exact Hcr|].
    split; [exact (A1 _ Hba)|]. split; [exact (A2 _ Hcg)|]. split; [exact (A3 _ Hcr)|].
    exact Hstate.
  - rewrite Hend. destruct (on_exception_run e s') as (e' & r & w3 & Hrun & _).
    by rewrite Hrun.
Qed.

(** X15: the store agrees with the result a call returns: the slots
    ["brand_analysis"], ["content_generation"] and ["campaign_result"]
    hold the dumps of the three results of the returned object (those of
    the last feedback round when there was one) and ["workflow_state"]
    holds ["completed"]. *)
Theorem workflow_result_stored (self : config) (E : env) (workflow_input : WorkflowInput)
    (w w' : world) (result : WorkflowResult) :
  execute_workflow self E workflow_input w = (Returned result, w') →
  ∃ ba cg cr,
    wr_brand_analysis result = Some ba
    ∧ wr_content_generation result = Some cg
    ∧ wr_campaign_result result = Some cr
    ∧ memory w' !! "brand_analysis" = Some (VDict (Dump.BrandAnalysisResult_fields ba))
    ∧ memory w' !! "content_generation"
      = Some (VDict (Dump.ContentGenerationResult_fields cg))
    ∧ memory w' !! "campaign_result" = Some (VDict (Dump.CampaignResult_fields cr))
    ∧ memory w' !! "workflow_state" = Some (VStr "completed").
Proof. apply returned_result_stored. Qed.

Lemma workflow_result_stored_witness :
  ∃ result w' cg,
    execute_workflow three_rounds met_after_one_round email_input empty_world
    = (Returned result, w')
    ∧ wr_content_generation result = Some cg
    ∧ memory w' !! "content_generation"
      = Some (VDict (Dump.ContentGenerationResult_fields cg)).
Proof.
  set (o := (execute_workflow three_rounds met_after_one_round email_input empty_world).1).
  let v := eval vm_compute in o in assert (Ho : o = v) by by_running.
  match type of Ho with _ = Returned ?r =>
    pose proof (eq_trans (surjective_pairing
                  (execute_workflow three_rounds met_after_one_round email_input
                     empty_world))
                  (f_equal (fun x => (x, snd (execute_workflow three_rounds
                                                met_after_one_round email_input
                                                empty_world))) Ho)) as Hrun;
    destruct (workflow_result_stored _ _ _ _ _ r Hrun)
      as (ba & cg & cr & _ & Hcg & _ & _ & Hm & _);
    exists r, (snd (execute_workflow three_rounds met_after_one_round email_input
                      empty_world)), cg
  end.
  split; [exact Hrun|]. split; [exact Hcg|exact Hm].
Defined.

(** ** The brand analysis through the feedback loop *)

Lemma feedback_iteration_brand_analysis E inp ba cr s again s' :
  feedback_iteration E inp ba cr s = (Ok again, s') → wr_brand_analysis s'.1 = Some ba.
Proof.
  destruct s as [r w]. rewrite feedback_iteration_unfold.
  destruct (generate_content _ _ _ _ _ _) as [[cg|e] w1]; [|done].
  destruct (execute_campaign _ _ _ _ _ _) as [[cr'|e] w2]; [|done].
  by intros [= _ <-].
Qed.

Lemma feedback_loop_brand_analysis E inp ba cr rounds : ∀ s s',
  wr_brand_analysis s.1 = Some ba →
  feedback_loop E inp ba cr rounds s = (Ok tt, s') → wr_brand_analysis s'.1 = Some ba.
Proof.
  induction rounds as [|rounds IH]; intros s s' Hba.
  - by intros [= <-].
  - cbn [feedback_loop]. unfold bind.
    destruct (feedback_iteration E inp ba cr s) as [[again|e] s1] eqn:Hit; [|done].
    apply feedback_iteration_brand_analysis in Hit.
    destruct again; [by apply IH|]. by intros [= <-].
Qed.

Lemma try_body_brand_analysis self E inp s ba cg cr s3 s' :
  run_stages E inp s = (Ok (ba, cg, cr), s3) →
  try_body self E inp s = (Ok tt, s') → wr_brand_analysis s'.1 = Some ba.
Proof.
  intros Hrun. unfold try_body, bind at 1. rewrite Hrun.
  pose proof (run_stages_populated _ _ _ _ _ _ _ Hrun) as (Pba & _).
  cbn [fst snd]. unfold bind at 1.
  destruct ((if enable_feedback_loop self && _should_optimize cr inp
             then feedback_loop E inp ba cr (Z.to_nat (max_iterations self - 1))
             else ret tt) s3) as [[[]|e] [r4 w4]] eqn:Hl; [|done].
  assert (wr_brand_analysis r4 = Some ba) as Hba.
  { destruct (_ && _).
    - by apply (feedback_loop_brand_analysis _ _ _ _ _ _ _ Pba) in Hl.
    - by injection Hl as ->. }
  unfold bind, modify, lift, now, gets, update_result, modify. cbn [fst snd].
  destruct (set_workflow_state _ _) as [[[]|e] w5]; [|done].
  by intros [= <-].
Qed.

(** X16: the feedback loop does not refine the brand analysis: whatever
    the number of rounds, the brand analysis of the result a call
    returns, and the one in the store, is the one the first stage
    produced ([refine_strategy] returns the analysis it is given). *)
Theorem feedback_keeps_brand_analysis (self : config) (E : env)
    (workflow_input : WorkflowInput) (w w' w0 w2 : world) (result r0 : WorkflowResult)
    (ba : BrandAnalysisResult) :
  execute_workflow self E workflow_input w = (Returned result, w') →
  start_workflow E w = (Ok r0, w0) →
  _execute_with_retry (_stage_brand_analysis E workflow_input) 3
    (entered ANALYZING_BRAND w0) = (Ok ba, w2) →
  wr_brand_analysis result = Some ba
  ∧ memory w' !! "brand_analysis" = Some (VDict (Dump.BrandAnalysisResult_fields ba)).
Proof.
  intros Hret Hstart R1.
  assert (wr_brand_analysis result = Some ba) as Hba.
  { destruct (start_workflow_run E w) as (r0' & w0' & Hstart' & Hs0 & _).
    rewrite Hstart in Hstart'. injection Hstart' as <- <-.
    destruct (execute_workflow_ends self E workflow_input w) as (r0' & w0' & Hstart' & Hend).
    rewrite Hstart in Hstart'. injection Hstart' as <- <-.
    destruct (try_body self E workflow_input (r0, w0)) as [[[]|e] s'] eqn:Hbody.
    - rewrite Hend in Hret. injection Hret as <- <-.
      pose proof Hbody as Hbody'. unfold try_body, bind at 1 in Hbody'.
      destruct (run_stages E workflow_input (r0, w0)) as [[[[ba' cg] cr]|e] s3] eqn:Hrun;
        [|done].
      clear Hbody'. pose proof Hrun as Hrun'.
      rewrite (run_stages_open E workflow_input r0 w0 Hs0), R1 in Hrun'. cbv zeta in Hrun'.
      destruct (_execute_with_retry _ 3 (entered GENERATING_CONTENT w2)) as [[cg'|e] w3];
        [|done].
      destruct (_execute_with_retry _ 3 (entered EXECUTING_CAMPAIGN w3)) as [[cr'|e] w4];
        [|done].
      injection Hrun' as <- _ _ _.
      by eapply try_body_brand_analysis.
    - rewrite Hend in Hret. destruct (on_exception_run e s') as (e' & r & w3 & Hrun & _).
      by rewrite Hrun in Hret. }
  split; [done|].
  destruct (returned_result_stored _ _ _ _ _ _ Hret) as (ba' & _ & _ & Hba' & _ & _ & Hm & _).
  rewrite Hba in Hba'. by injection Hba' as <-.
Qed.

Lemma feedback_keeps_brand_analysis_witness :
  ∃ result w' ba,
    execute_workflow three_rounds never_met email_input empty_world = (Returned result, w')
    ∧ wr_brand_analysis result = Some ba
    ∧ memory w' !! "brand_analysis" = Some (VDict (Dump.BrandAnalysisResult_fields ba))
    ∧ invocations "refine_strategy" w' = 2.
Proof.
  run (execute_workflow three_rounds never_met email_input empty_world) as Hret.
  run (start_workflow never_met empty_world) as Hstart.
  match type of Hstart with _ = (Ok ?r0, ?w0) =>
    run (_execute_with_retry (_stage_brand_analysis never_met email_input) 3
           (entered ANALYZING_BRAND w0)) as R1
  end.
  match type of Hret with _ = (Returned ?r, ?w') =>
    match type of R1 with _ = (Ok ?ba, _) =>
      exists r, w', ba; split; [exact Hret|];
      destruct (feedback_keeps_brand_analysis _ _ _ _ _ _ _ _ _ _ Hret Hstart R1)
        as [H1 H2]
    end
  end.
  split; [exact H1|]. split; [exact H2|]. by_running.
Defined.

Import WorkflowStatus.

(** ** The status of a run *)

Lemma get_workflow_status_run w :
  get_workflow_status w
  = (Ok (status_report
           (match memory w !! "workflow_state" with Some v => v | None => VStr "pending" end)
           (session_id w)
           (is_not_None (match memory w !! "brand_analysis" with Some v => v | None => VNone end))
           (is_not_None (match memory w !! "content_generation" with
                         | Some v => v
                         | None => VNone
                         end))
           (is_not_None (match memory w !! "campaign_result" with
                         | Some v => v
                         | None => VNone
                         end))), w).
Proof. reflexivity. Qed.

(** Attempts that all fail leave the store as it was. *)
Lemma retry_loop_raise_memory {A} (func : M world A) max_retries remaining :
  stable func →
  (∀ w e w', is_Some (session_id w) → func w = (Raise e, w') → memory w' = memory w) →
  ∀ attempt last_error w e w',
    is_Some (session_id w) →
    retry_loop func max_retries attempt remaining last_error w = (Raise e, w') →
    memory w' = memory w.
Proof.
  intros Hstable Hf.
  induction remaining as [|remaining IH]; intros attempt last_error w e w' Hs.
  - cbn [retry_loop]. destruct last_error; by intros [= _ <-].
  - cbn [retry_loop]. destruct (Hstable w) as [Hsid _].
    destruct (func w) as [[a|e1] w1] eqn:Hrun; [done|].
    apply Hf in Hrun; [|done]. cbn [snd] in Hsid. unfold bind.
    destruct (_ <? _)%Z.
    + unfold sleep, modify. intros Hrest. apply IH in Hrest.
      * by rewrite Hrest.
      * cbn [session_id set_clock log]. by rewrite Hsid.
    + unfold ret. intros Hrest. apply IH in Hrest; [congruence|by rewrite Hsid].
Qed.

Lemma stage_raise_memory {A} f g key fields (m : M world A) w e w' :
  agent_call g key fields m → is_Some (session_id w) →
  _execute_with_retry (do* invoke f in m) 3 w = (Raise e, w') →
  memory w' = memory w.
Proof.
  intros Hcall Hs. apply retry_loop_raise_memory; [| |done].
  - apply stable_bind; [apply stable_invoke|intros; by eapply agent_call_stable].
  - intros w1 e1 w1' Hs1. unfold bind, invoke, modify. intros Hrun.
    specialize (Hcall (log (EvInvoke f) w1)). rewrite Hrun in Hcall.
    destruct Hcall as (_ & _ & Hsame). by destruct (Hsame Hs1).
Qed.

Lemma failed_run_memory self E inp w r0 w0 e s' :
  start_workflow E w = (Ok r0, w0) →
  run_stages E inp (r0, w0) = (Raise e, s') →
  ∃ result w'',
    execute_workflow self E inp w = (Raised e result, w'')
    ∧ session_id w'' = session_id w0
    ∧ memory w'' = <["updated_at" := VStr (isoformat (clock s'.2))]>
                     (<["workflow_state" := VStr "failed"]> (memory s'.2)).
Proof.
  intros Hstart Hrun.
  destruct (start_workflow_run E w) as (r0' & w0' & Hstart' & Hs0 & _).
  rewrite Hstart in Hstart'. injection Hstart' as <- <-.
  pose proof (try_body_raise_in_stages self E inp _ _ _ Hrun) as Hbody.
  destruct (execute_workflow_ends self E inp w) as (r0' & w0' & Hstart' & Hend).
  rewrite Hstart in Hstart'. injection Hstart' as <- <-. rewrite Hbody in Hend.
  apply try_body_raises in Hbody as ([Hsid _] & _). cbn [snd] in Hsid.
  destruct (on_exception_run e s') as (e' & r & w'' & Hexc & _ & _ & _ & _ & Hopen).
  destruct Hopen as (-> & _ & Hm); [by rewrite Hsid|].
  exists r, w''. rewrite Hend. split; [done|]. split; [|done].
  destruct s' as [r' w']. unfold on_exception in Hexc. cbn [fst snd] in *.
  destruct (stable_set_workflow_state (state_value FAILED) (log (EvState FAILED) w'))
    as [Hsid' _].
  destruct (set_workflow_state _ _) as [[[]|e''] w3]; injection Hexc as _ <-;
    cbn [snd session_id log] in Hsid'; congruence.
Qed.

Lemma execute_workflow_session self E inp w :
  session_id (execute_workflow self E inp w).2
  = Some ("session_" +:+ strftime_seconds (clock w)).
Proof.
  destruct (start_workflow_memory E w) as (r0 & w0 & Hstart & _ & Hsid & _).
  rewrite <- Hsid.
  apply (respects_execute_workflow (fun w w' => session_id w' = session_id w) true)
    with (r0 := r0); try done.
  - congruence.
  - intros st w1 Hs. by destruct (entered_open st w1 Hs) as (_ & ? & _).
  - intros E' w1 _. by destruct (agent_call_stable _ _ _ _ (analyze_brand_call E') w1).
  - intros E' bp brief platforms n w1 _.
    by destruct (stable_generate_content E' bp brief platforms n w1).
  - intros E' assets bp budget kpis w1 _.
    by destruct (stable_execute_campaign E' assets bp budget kpis w1).
  - by left.
Qed.

(** X17: [get_workflow_status] after a run tells how far the run got.
    Before any session the state reads ["pending"] and no result is
    reported.  After a call that returned, the state is ["completed"]
    and the three results are reported present.  After a call that
    raised out of a stage, the state is ["failed"] and exactly the
    results of the stages before the failed one are reported present. *)
Theorem workflow_status (self : config) (E : env) (workflow_input : WorkflowInput)
    (w : world) :
  let ended := (execute_workflow self E workflow_input w).2 in
  let sid := Some ("session_" +:+ strftime_seconds (clock w)) in
  (∀ fs w0, get_workflow_status (init fs w0)
            = (Ok (status_report (VStr "pending") None false false false), init fs w0))
  ∧ (∀ result, (execute_workflow self E workflow_input w).1 = Returned result →
       get_workflow_status ended
       = (Ok (status_report (VStr "completed") sid true true true), ended))
  ∧ (∀ r0 w0, start_workflow E w = (Ok r0, w0) →
       (∀ e w',
          _execute_with_retry (_stage_brand_analysis E workflow_input) 3
            (entered ANALYZING_BRAND w0) = (Raise e, w') →
          get_workflow_status ended
          = (Ok (status_report (VStr "failed") sid false false false), ended))
       ∧ (∀ ba w2 e w',
            _execute_with_retry (_stage_brand_analysis E workflow_input) 3
              (entered ANALYZING_BRAND w0) = (Ok ba, w2) →
            _execute_with_retry (_stage_content_generation E ba workflow_input) 3
              (entered GENERATING_CONTENT w2) = (Raise e, w') →
            get_workflow_status ended
            = (Ok (status_report (VStr "failed") sid true false false), ended))
       ∧ (∀ ba w2 cg w3 e w',
            _execute_with_retry (_stage_brand_analysis E workflow_input) 3
              (entered ANALYZING_BRAND w0) = (Ok ba, w2) →
            _execute_with_retry (_stage_content_generation E ba workflow_input) 3
              (entered GENERATING_CONTENT w2) = (Ok cg, w3) →
            _execute_with_retry (_stage_campaign_execution E cg ba workflow_input) 3
              (entered EXECUTING_CAMPAIGN w3) = (Raise e, w') →
            get_workflow_status ended
            = (Ok (status_report (VStr "failed") sid true true false), ended))).
Proof.
  intros ended sid. split; [done|]. split.
  - intros result Hret.
    assert (execute_workflow self E workflow_input w = (Returned result, ended)) as Hrun
      by (subst ended; rewrite <- Hret; apply surjective_pairing).
    destruct (returned_result_stored _ _ _ _ _ _ Hrun)
      as (ba & cg & cr & _ & _ & _ & M1 & M2 & M3 & M4).
    rewrite get_workflow_status_run, M1, M2, M3, M4.
    subst ended sid. by rewrite execute_workflow_session.
  - intros r0 w0 Hstart.
    destruct (start_workflow_memory E w) as (r0' & w0' & Hstart' & Hm0 & Hsid0 & _).
    rewrite Hstart in Hstart'. injection Hstart' as <- <-.
    assert (is_Some (session_id w0)) as Hs0 by by rewrite Hsid0.
    pose proof (run_stages_open E workflow_input r0 w0 Hs0) as Hopen.
    destruct (entered_open ANALYZING_BRAND w0 Hs0) as (_ & Hs1 & _).
    pose proof (keeps_entered "brand_analysis" ANALYZING_BRAND w0
                  ltac:(done) ltac:(done) Hs0) as A1.
    pose proof (keeps_entered "content_generation" ANALYZING_BRAND w0
                  ltac:(done) ltac:(done) Hs0) as A2.
    pose proof (keeps_entered "campaign_result" ANALYZING_BRAND w0
                  ltac:(done) ltac:(done) Hs0) as A3.
    pose proof (analyze_brand_call E) as Ca.
    pose proof (keeps_retry_stage "_stage_brand_analysis" _ _ _ _ "content_generation"
                  (entered ANALYZING_BRAND w0) Ca ltac:(done) ltac:(done)
                  ltac:(by rewrite Hs1)) as B2.
    pose proof (keeps_retry_stage "_stage_brand_analysis" _ _ _ _ "campaign_result"
                  (entered ANALYZING_BRAND w0) Ca ltac:(done) ltac:(done)
                  ltac:(by rewrite Hs1)) as B3.
    fold (_stage_brand_analysis E workflow_input) in B2, B3.
    unfold keeps in *. rewrite Hm0 in A1, A2, A3.
    split; [|split].
    + intros e w' R1. rewrite R1 in Hopen.
      destruct (failed_run_memory self _ _ _ _ _ _ _ Hstart Hopen)
        as (result & w'' & Hrun & Hsid & Hm).
      apply (stage_raise_memory "_stage_brand_analysis" _ _ _ _ _ _ _ Ca) in R1;
        [|by rewrite Hs1].
      subst ended sid. rewrite Hrun. cbn [snd] in *.
      rewrite get_workflow_status_run, Hsid, Hsid0, Hm.
      rewrite (lookup_insert_ne _ "updated_at" "workflow_state") by done.
      rewrite lookup_insert_eq, !lookup_insert_ne by done.
      by rewrite R1, A1, A2, A3.
    + intros ba w2 e w' R1 R2. rewrite R1, R2 in Hopen. rewrite R1 in B2, B3.
      cbn [snd] in *.
      destruct (failed_run_memory self _ _ _ _ _ _ _ Hstart Hopen)
        as (result & w'' & Hrun & Hsid & Hm).
      destruct (retry_keeps_session _ _ _ _ _ (stable_stage_brand_analysis E workflow_input)
                  Hs0 R1) as [Hs2 _].
      destruct (entered_open GENERATING_CONTENT w2 Hs2) as (_ & Hs2' & _).
      pose proof (stage_saved "_stage_brand_analysis" _ _ _ _ _ _ _ Ca ltac:(done) R1) as M1.
      pose proof (keeps_entered "brand_analysis" GENERATING_CONTENT w2
                    ltac:(done) ltac:(done) Hs2) as C1.
      pose proof (keeps_entered "content_generation" GENERATING_CONTENT w2
                    ltac:(done) ltac:(done) Hs2) as C2.
      pose proof (keeps_entered "campaign_result" GENERATING_CONTENT w2
                    ltac:(done) ltac:(done) Hs2) as C3.
      apply (stage_raise_memory "_stage_content_generation" _ _ _ _ _ _ _
               (generate_content_call E (ba_brand_profile ba)
                  (wi_campaign_brief workflow_input) (wi_target_platforms workflow_input) 1))
        in R2; [|by rewrite Hs2'].
      unfold keeps in *. subst ended sid. rewrite Hrun. cbn [snd] in *.
      rewrite get_workflow_status_run, Hsid, Hsid0, Hm.
      rewrite (lookup_insert_ne _ "updated_at" "workflow_state") by done.
      rewrite lookup_insert_eq, !lookup_insert_ne by done.
      by rewrite R2, C1, C2, C3, M1, B2, B3, A2, A3.
    + intros ba w2 cg w3 e w' R1 R2 R3. rewrite R1, R2, R3 in Hopen. rewrite R1 in B2, B3.
      cbn [snd] in *.
      destruct (failed_run_memory self _ _ _ _ _ _ _ Hstart Hopen)
        as (result & w'' & Hrun & Hsid & Hm).
      destruct (retry_keeps_session _ _ _ _ _ (stable_stage_brand_analysis E workflow_input)
                  Hs0 R1) as [Hs2 _].
      destruct (entered_open GENERATING_CONTENT w2 Hs2) as (_ & Hs2' & _).
      destruct (retry_keeps_session _ _ _ _ _
                  (stable_stage_content_generation E ba workflow_input) Hs2 R2) as [Hs3 _].
      destruct (entered_open EXECUTING_CAMPAIGN w3 Hs3) as (_ & Hs3' & _).
      pose proof (generate_content_call E (ba_brand_profile ba)
                    (wi_campaign_brief workflow_input) (wi_target_platforms workflow_input) 1)
        as Cg.
      pose proof (stage_saved "_stage_brand_analysis" _ _ _ _ _ _ _ Ca ltac:(done) R1) as M1.
      pose proof (stage_saved "_stage_content_generation" _ _ _ _ _ _ _ Cg ltac:(done) R2)
        as M2.
      pose proof (keeps_entered "brand_analysis" GENERATING_CONTENT w2
                    ltac:(done) ltac:(done) Hs2) as C1.
      pose proof (keeps_entered "campaign_result" GENERATING_CONTENT w2
                    ltac:(done) ltac:(done) Hs2) as C3.
      pose proof (keeps_retry_stage "_stage_content_generation" _ _ _ _ "brand_analysis"
                    (entered GENERATING_CONTENT w2) Cg ltac:(done) ltac:(done)
                    ltac:(by rewrite Hs2')) as D1.
      pose proof (keeps_retry_stage "_stage_content_generation" _ _ _ _ "campaign_result"
                    (entered GENERATING_CONTENT w2) Cg ltac:(done) ltac:(done)
                    ltac:(by rewrite Hs2')) as D3.
      fold (_stage_content_generation E ba workflow_input) in D1, D3.
      rewrite R2 in D1, D3. cbn [snd] in *.
      pose proof (keeps_entered "brand_analysis" EXECUTING_CAMPAIGN w3
                    ltac:(done) ltac:(done) Hs3) as E1.
      pose proof (keeps_entered "content_generation" EXECUTING_CAMPAIGN w3
                    ltac:(done) ltac:(done) Hs3) as E2.
      pose proof (keeps_entered "campaign_result" EXECUTING_CAMPAIGN w3
                    ltac:(done) ltac:(done) Hs3) as E3.
      apply (stage_raise_memory "_stage_campaign_execution" _ _ _ _ _ _ _
               (execute_campaign_call E (cg_content_assets cg) (ba_brand_profile ba)
                  (wi_budget workflow_input) (wi_target_kpis workflow_input)))
        in R3; [|by rewrite Hs3'].
      unfold keeps in *. subst ended sid. rewrite Hrun. cbn [snd] in *.
      rewrite get_workflow_status_run, Hsid, Hsid0, Hm.
      rewrite (lookup_insert_ne _ "updated_at" "workflow_state") by done.
      rewrite lookup_insert_eq, !lookup_insert_ne by done.
      by rewrite R3, E1, E2, E3, D1, D3, C1, C3, M1, M2, B3, A3.
Qed.

Lemma workflow_status_witness :
  get_workflow_status (execute_workflow default_config outage email_input empty_world).2
  = (Ok (status_report (VStr "failed") (Some "session_0") false false false),
     (execute_workflow default_config outage email_input empty_world).2).
Proof.
  destruct (workflow_status default_config outage email_input empty_world) as (_ & _ & H).
  run (start_workflow outage empty_world) as Hstart.
  match type of Hstart with _ = (Ok ?r0, ?w0) =>
    destruct (H r0 w0 Hstart) as (H1 & _);
    run (_execute_with_retry (_stage_brand_analysis outage email_input) 3
           (entered ANALYZING_BRAND w0)) as Hretry
  end.
  match type of Hretry with _ = (Raise ?e, ?w') => exact (H1 e w' Hretry) end.
Defined.

(** ** A workflow that targets Twitter *)

Lemma execute_campaign_twitter E content_assets brand_profile total_budget target_kpis w :
  (∃ asset, asset ∈ content_assets ∧ ca_platform asset = TWITTER) →
  execute_campaign E content_assets brand_profile total_budget target_kpis w
  = (Raise (KeyError TWITTER), log (EvInvoke "execute_campaign") w).
Proof.
  intros (asset & Hin & Hp).
  assert (channel_strategies_loop brand_profile (group_by_platform content_assets) []
          = Raise (KeyError TWITTER)) as Hloop.
  { apply channel_strategies_loop_twitter.
    - apply fold_add_asset_inhabited. constructor.
    - rewrite <- Hp. by apply fold_add_asset_key. }
  unfold execute_campaign, bind at 1, invoke, modify.
  unfold _create_campaign_plan, bind. by rewrite Hloop.
Qed.

Lemma retry_always_raises {A} (func : M world A) e (after : world → world) :
  (∀ w, func w = (Raise e, after w)) →
  ∀ w, _execute_with_retry func 3 w
       = (Raise e, after (sleep 2 (after (sleep 1 (after w)).2)).2).
Proof.
  intros Hf w. unfold _execute_with_retry. change (Z.to_nat 3) with 3%nat.
  cbn [retry_loop]. rewrite Hf. unfold bind at 1.
  change (Z.of_nat 0 <? 3 - 1)%Z with true. cbn [sleep modify fst snd].
  unfold sleep at 1, modify at 1. cbn [retry_loop]. rewrite Hf. unfold bind at 1.
  change (Z.of_nat 1 <? 3 - 1)%Z with true.
  unfold sleep at 1, modify at 1. cbn [retry_loop]. rewrite Hf. unfold bind at 1.
  change (Z.of_nat 2 <? 3 - 1)%Z with false. unfold ret, raise. reflexivity.
Qed.

Lemma asset_platforms_one target_platforms :
  asset_platforms target_platforms 1 = target_platforms.
Proof.
  unfold asset_platforms. induction target_platforms as [|p ps IH]; [done|].
  simpl. f_equal. exact IH.
Qed.

Lemma twitter_asset_generated E bp brief target_platforms w result w' :
  TWITTER ∈ target_platforms →
  generate_content E bp brief target_platforms 1 w = (Ok result, w') →
  ∃ asset, asset ∈ cg_content_assets result ∧ ca_platform asset = TWITTER.
Proof.
  intros Hin Hrun. apply generate_content_returns in Hrun as (Hall & _).
  change (Z.to_nat 1) with 1%nat in Hall. rewrite asset_platforms_one in Hall.
  apply list_elem_of_lookup_1 in Hin as [i Hi].
  destruct (Forall2_lookup_l _ _ _ _ _ Hall Hi) as (asset & Ha & Hfor).
  exists asset. split; [by eapply list_elem_of_lookup_2|]. by destruct Hfor.
Qed.

(** The campaign stage on the assets of a content stage that served
    Twitter. *)
Lemma stage_campaign_execution_twitter E ba inp cg w2 w3 :
  TWITTER ∈ wi_target_platforms inp →
  _execute_with_retry (_stage_content_generation E ba inp) 3 w2 = (Ok cg, w3) →
  ∀ w, _stage_campaign_execution E cg ba inp w
       = (Raise (KeyError TWITTER),
          log (EvInvoke "execute_campaign") (log (EvInvoke "_stage_campaign_execution") w)).
Proof.
  intros Hin R2 w. apply retry_loop_last in R2 as [w1 Hlast].
  unfold _stage_content_generation, bind, invoke, modify in Hlast. cbn [fst snd] in Hlast.
  apply (twitter_asset_generated _ _ _ _ _ _ _ Hin) in Hlast.
  unfold _stage_campaign_execution, bind, invoke, modify. cbn [fst snd].
  by rewrite execute_campaign_twitter.
Qed.

Lemma on_exception_not_returned e s result : (on_exception e s).1 ≠ Returned result.
Proof. unfold on_exception. by destruct (set_workflow_state _ _) as [[[]|e'] w']. Qed.

(** X18: a workflow whose target platforms include Twitter cannot
    complete.  The call never returns a result; and when the brand and
    content stages return, the campaign stage is attempted three times,
    each attempt entering [execute_campaign], with waits of 1 and 2
    seconds in between, and the call then raises [KeyError] for the
    Twitter member with the result in state [FAILED] and that key as the
    error message. *)
Theorem twitter_workflow_fails (self : config) (E : env) (workflow_input : WorkflowInput)
    (w : world) :
  TWITTER ∈ wi_target_platforms workflow_input →
  (∀ result, (execute_workflow self E workflow_input w).1 ≠ Returned result)
  ∧ (∀ r0 w0 ba w2 cg w3,
       start_workflow E w = (Ok r0, w0) →
       _execute_with_retry (_stage_brand_analysis E workflow_input) 3
         (entered ANALYZING_BRAND w0) = (Ok ba, w2) →
       _execute_with_retry (_stage_content_generation E ba workflow_input) 3
         (entered GENERATING_CONTENT w2) = (Ok cg, w3) →
       ∃ result w'',
         execute_workflow self E workflow_input w = (Raised (KeyError TWITTER) result, w'')
         ∧ wr_state result = FAILED
         ∧ wr_error_message result = Some "<Platform.TWITTER: 'twitter'>"
         ∧ trace w'' = trace w3 ++ [EvState EXECUTING_CAMPAIGN; EvMirror "executing_campaign"]
             ++ attempts "_stage_campaign_execution" "execute_campaign" 2
             ++ [EvState FAILED; EvMirror "failed"]).
Proof.
  intros Hin.
  destruct (start_workflow_run E w) as (r0 & w0 & Hstart & Hs0 & _).
  split.
  - intros result. unfold execute_workflow. rewrite Hstart.
    unfold try_body, bind at 1. rewrite (run_stages_open E workflow_input r0 w0 Hs0).
    destruct (_execute_with_retry _ 3 (entered ANALYZING_BRAND w0)) as [[ba|e] w2] eqn:R1;
      [|apply on_exception_not_returned].
    destruct (retry_keeps_session _ _ _ _ _
                (stable_stage_brand_analysis E workflow_input) Hs0 R1) as [Hs2 _].
    cbv zeta.
    destruct (_execute_with_retry _ 3 (entered GENERATING_CONTENT w2)) as [[cg|e] w3] eqn:R2;
      [|apply on_exception_not_returned].
    pose proof (stage_campaign_execution_twitter E ba workflow_input cg _ _ Hin R2) as Hf.
    rewrite (retry_always_raises _ _ _ Hf). apply on_exception_not_returned.
  - intros r0' w0' ba w2 cg w3 Hstart' R1 R2.
    rewrite Hstart in Hstart'. injection Hstart' as <- <-.
    destruct (retry_keeps_session _ _ _ _ _
                (stable_stage_brand_analysis E workflow_input) Hs0 R1) as [Hs2 Hc2].
    destruct (retry_keeps_session _ _ _ _ _
                (stable_stage_content_generation E ba workflow_input) Hs2 R2) as [Hs3 Hc3].
    pose proof (stage_campaign_execution_twitter E ba workflow_input cg _ _ Hin R2) as Hf.
    pose proof (retry_always_raises _ _ _ Hf (entered EXECUTING_CAMPAIGN w3)) as R3.
    destruct (entered_open EXECUTING_CAMPAIGN w3 Hs3) as (_ & _ & Hc4 & Htr4 & _).
    pose proof (execute_with_retry_gives_up _ _ _ _
                  (stable_stage_campaign_execution E cg ba workflow_input) R3) as Hclock.
    pose proof (run_stages_open E workflow_input r0 w0 Hs0) as Hrun.
    rewrite R1 in Hrun. cbv zeta in Hrun. rewrite R2, R3 in Hrun.
    apply (try_body_raise_in_stages self) in Hrun.
    destruct (raise_ends_failed self E workflow_input w r0 w0 _ _ _ Hstart Hrun)
      as (result & w'' & Hend & Hst & Herr & _ & Htr & _).
    { rewrite Hc4 in Hclock. lia. }
    exists result, w''. split; [done|]. split; [done|]. split; [done|].
    rewrite Htr. cbn [trace log sleep modify set_clock fst snd]. rewrite Htr4.
    unfold attempts. cbn [seq flat_map app]. by rewrite <- !app_assoc.
Qed.

Lemma twitter_workflow_fails_witness :
  TWITTER ∈ wi_target_platforms twitter_input
  ∧ ∀ result,
      (execute_workflow default_config never_met twitter_input empty_world).1
      ≠ Returned result.
Proof.
  assert (TWITTER ∈ wi_target_platforms twitter_input) as Hin by (by right; left).
  split; [exact Hin|].
  exact (proj1 (twitter_workflow_fails default_config never_met twitter_input empty_world
                  Hin)).
Defined.
